(** * qahub test-plan tool: the business-day scheduler and the scroll mappers

    A shallow embedding of the algorithmic core of [src/CreateTestPlan.tsx]:

    - [addBusinessDays] and [formatDateToInput] (lines 19-47),
    - the timeline auto-calculation effect of [CreateTestPlanPage]
      (lines 1149-1176),
    - the [scrollYProgress] change handler of [TestExecutionDetailScreen]
      (lines 703-731),
    - the outline scroll-spy of the create modal: [handleScroll]
      (lines 1328-1365) and [scrollToSection] (lines 1381-1407),
    - [clsx] (lines 15-17), the duration field of [CheckboxRow]
      (lines 215-221) and the columns of the board of saved plans
      (lines 1126-1147),

    of the folder storage module ([loadFolders], [saveFolders],
    [saveTestPlanToFolder]), and of the work planner and the defect
    tracker of [sitecode.jsx] ([appendScenarioRun], [appendExtraDefect],
    [getAllDefects], [ensureSeedTasksForToday], [markNextTaskComplete],
    [formatMMSS], [countsBy]).

    Conventions of the embedding.

    - A JavaScript [Date] is a local calendar day number (days since
      1970-01-01) together with a time of day.  The built-in getters are
      the proleptic Gregorian calendar.  The code reads and moves the
      calendar day only; what [setDate] does to the time of day (it is
      kept, except that a local time skipped by a daylight-saving change
      is moved forward) is not modelled, and the statements about a date
      that was moved are about its calendar day.  The range limit of
      [Date] (about 10^8 days around the epoch) is not modelled.
    - Numbers that the code uses as day counts are integers ([Z]).  The
      scroll progress is a double in the browser.  The handler of the day
      markers is embedded with binary64 arithmetic ([DetailScreenBinary64],
      over the standard library's specification of IEEE 754), which is
      what decides the marker at a progress value next to a marker
      position; and with exact rationals ([DetailScreen]), for what holds
      whatever the rounding: the recorded scenario, the range of the
      index, its monotonicity, the section that follows the day.  Pixel
      measurements of the outline are exact rationals.
    - React state is passed explicitly; [setTimeout] callbacks sit in a
      queue of deadlines on a logical clock in milliseconds.
    - [localStorage] is what its items hold and whether [setItem]
      fails; [JSON.parse] gives back what [JSON.stringify] was given.

    The specification names the operations of the scroll mappers
    [continuousUpdate] (here [onProgressChange] and [handleScroll]) and
    [jumpTo] (here [scrollToSection]). *)

From Stdlib Require Import ZArith QArith Bool List String Ascii Lia.
From Stdlib Require Import Sorted Permutation.
From Stdlib Require Import DecimalString DecimalPos.
From Stdlib Require Import SpecFloat.
From Equations Require Import Equations.
Import ListNotations.

Local Open Scope Z_scope.

(* ================================================================== *)
(** * The built-in [Date] object                                        *)
(* ================================================================== *)

Module JsDate.

(** [epochDay] counts local calendar days from 1970-01-01 (day 0);
    [msOfDay] is the local time of day in milliseconds. *)
Record Date : Set := mkDate { epochDay : Z; msOfDay : Z }.

(** [new Date(d)]: a copy (dates are mutable objects in JavaScript; the
    embedding is functional, the copy is the identity). *)
Definition copy (d : Date) : Date := d.

(** [d.getDay()]: 0 = Sunday ... 6 = Saturday.  1970-01-01 was a
    Thursday. *)
Definition getDay (d : Date) : Z := (epochDay d + 4) mod 7.

(** [d.setDate(d.getDate() + k)]: the local calendar day moves by [k],
    with the month and year rolling over.  The time of day is carried
    along as it is: a browser moves it forward when the new day skips
    that local time (daylight saving), which is not modelled. *)
Definition addDays (d : Date) (k : Z) : Date :=
  mkDate (epochDay d + k) (msOfDay d).

(** Civil date of a day number (Gregorian rules, era of 400 years that
    starts on a 1st of March). *)
Definition civil (day : Z) : Z * Z * Z :=
  let z := day + 719468 in
  let era := z / 146097 in
  let doe := z - era * 146097 in
  let yoe := (doe - doe / 1460 + doe / 36524 - doe / 146096) / 365 in
  let doy := doe - (365 * yoe + yoe / 4 - yoe / 100) in
  let mp := (5 * doy + 2) / 153 in
  let dd := doy - (153 * mp + 2) / 5 + 1 in
  let mm := if mp <? 10 then mp + 3 else mp - 9 in
  let yy := yoe + era * 400 + (if mm <=? 2 then 1 else 0) in
  (yy, mm, dd).

Definition getFullYear (d : Date) : Z := fst (fst (civil (epochDay d))).
(** [getMonth] is zero-based. *)
Definition getMonth (d : Date) : Z := snd (fst (civil (epochDay d))) - 1.
Definition getDate (d : Date) : Z := snd (civil (epochDay d)).

End JsDate.

(* ================================================================== *)
(** * Strings of numbers                                               *)
(* ================================================================== *)

Module JsString.

(** [String(n)] for an integer [n]. *)
Definition ofNumber (z : Z) : string := NilZero.string_of_int (Z.to_int z).

Fixpoint repeat (c : ascii) (n : nat) : string :=
  match n with
  | O => EmptyString
  | S k => String c (repeat c k)
  end.

(** [s.padStart(width, c)] for a one-character filler. *)
Definition padStart (width : nat) (c : ascii) (s : string) : string :=
  append (repeat c (width - String.length s)) s.

End JsString.

(* ================================================================== *)
(** * Business-day scheduler                                           *)
(* ================================================================== *)

Module Scheduler.
Import JsDate.

(** The test of the loop body: [dayOfWeek !== 0 && dayOfWeek !== 6]. *)
Definition isBusinessDay (d : Date) : bool :=
  let dayOfWeek := getDay d in
  negb (dayOfWeek =? 0) && negb (dayOfWeek =? 6).

(** Weekend days that directly follow [d]: 2 on a Friday, 1 on a
    Saturday, 0 otherwise.  Only the termination measure uses it. *)
Definition weekendAhead (d : Date) : nat :=
  let w := getDay (addDays d 1) in
  if w =? 6 then 2%nat else if w =? 0 then 1%nat else 0%nat.

Definition loopMeasure (numberOfDays : Z) (result : Date) (daysAdded : Z)
  : nat :=
  (Z.to_nat (3 * (numberOfDays - daysAdded)) + weekendAhead result)%nat.

(** The [while (daysAdded < numberOfDays)] loop of [addBusinessDays], on
    its two mutable variables [result] and [daysAdded].  One iteration
    moves [result] to the next calendar day and counts it when it is not
    a weekend day.  The loop ends on every input: an iteration either
    counts a day or uses up one of at most two weekend days ahead. *)
Equations? addBusinessDays_loop (numberOfDays : Z) (result : Date)
           (daysAdded : Z) : Date
  by wf (loopMeasure numberOfDays result daysAdded) lt :=
  addBusinessDays_loop numberOfDays result daysAdded
    with Z_lt_dec daysAdded numberOfDays := {
    | right _ := result
    | left _ :=
        addBusinessDays_loop numberOfDays (addDays result 1)
          (if isBusinessDay (addDays result 1)
           then daysAdded + 1 else daysAdded) }.
Proof.
  unfold loopMeasure, weekendAhead, isBusinessDay, getDay, addDays;
    cbn [epochDay msOfDay].
  repeat match goal with
         | |- context [Z.eqb ?a ?b] => destruct (Z.eqb_spec a b)
         end; cbn [negb andb]; Z.div_mod_to_equations; lia.
Qed.

Definition addBusinessDays (startDate : Date) (numberOfDays : Z) : Date :=
  let result := copy startDate in
  addBusinessDays_loop numberOfDays result 0.

(** Number of business days among the [k] calendar days that follow [d]:
    [d+1 .. d+k]. *)
Fixpoint businessDaysAfter (d : Date) (k : nat) : Z :=
  match k with
  | O => 0
  | S k' =>
      (if isBusinessDay (addDays d 1) then 1 else 0)
      + businessDaysAfter (addDays d 1) k'
  end.

(** Business days in the interval ([d], [r]]: [d] exclusive, [r]
    inclusive. *)
Definition businessDaysBetween (d r : Date) : Z :=
  businessDaysAfter d (Z.to_nat (epochDay r - epochDay d)).

(** [formatDateToInput]: [YYYY-MM-DD] for [input type="date"]. *)
Definition formatDateToInput (date : Date) : string :=
  let year := getFullYear date in
  let month := JsString.padStart 2 "0" (JsString.ofNumber (getMonth date + 1)) in
  let day := JsString.padStart 2 "0" (JsString.ofNumber (getDate date)) in
  append (JsString.ofNumber year)
         (append "-" (append month (append "-" day))).

End Scheduler.

(* ================================================================== *)
(** * The timeline auto-calculation effect of [CreateTestPlanPage]     *)
(* ================================================================== *)

Module TimelineEffect.
Import JsDate Scheduler.

(** A value in a numeric field: a number (an integer here), [NaN], or
    [undefined] for a field that is missing or was never set. *)
Inductive Numeric : Set :=
| Num (z : Z)
| NaN
| Undefined.

(** [v || 0]: zero, [NaN] and [undefined] are falsy. *)
Definition orZero (v : Numeric) : Z :=
  match v with
  | Num z => z
  | NaN | Undefined => 0
  end.

(** A value of the [masterChecks] object, as the guard of the reducer
    sees it: [NotAPhase] is whatever fails
    [phase && typeof phase === 'object' && 'checked' in phase && 'days' in phase]
    (null, a primitive, an object without one of the two keys);
    [Phase checked days] passes it. *)
Inductive PhaseValue : Set :=
| NotAPhase
| Phase (checked : bool) (days : Numeric).

(** The [masterChecks] state.  It starts as an object with seven phases
    and is replaced by [draft.masterChecks] (of type [any]) when a draft
    is loaded, so it can be [null] or [undefined]. *)
Inductive MasterChecks : Set :=
| Nullish
| Obj (props : list (string * PhaseValue)).

(** Result of running a block: it returns or it throws. *)
Inductive Completion (A : Type) : Type :=
| Normal (a : A)
| Throw (error : string).
Arguments Normal {A} a.
Arguments Throw {A} error.

Definition bind {A B} (c : Completion A) (k : A -> Completion B)
  : Completion B :=
  match c with
  | Normal a => k a
  | Throw e => Throw e
  end.

Notation "x <- c ;; k" := (bind c (fun x => k))
  (at level 61, c at next level, right associativity).

(** [Object.values(o)]: a [TypeError] on [null] and [undefined]. *)
Definition Object_values (o : MasterChecks)
  : Completion (list PhaseValue) :=
  match o with
  | Nullish => Throw "TypeError: Cannot convert undefined or null to object"
  | Obj props => Normal (map snd props)
  end.

(** The callback given to [reduce]. *)
Definition addPhase (sum : Z) (phase : PhaseValue) : Z :=
  match phase with
  | Phase checked days => sum + (if checked then orZero days else 0)
  | NotAPhase => sum
  end.

Definition totalTestDays (values : list PhaseValue) : Z :=
  fold_left addPhase values 0.

Record Timeline : Set :=
  mkTimeline { start : string; end_ : string; dependencies : string }.

(** The updater [(prev) => ({...prev, start: ..., end: ...})]: the spread
    keeps the other field of the state, [dependencies]. *)
Definition withDates (startDate endDate : Date) (prev : Timeline)
  : Timeline :=
  {| start := formatDateToInput startDate;
     end_ := formatDateToInput endDate;
     dependencies := dependencies prev |}.

(** The state the effect touches: the [timeline] state of the page and
    the browser console. *)
Record Page : Set :=
  mkPage { timeline : Timeline; console : list string }.

Definition setTimeline (f : Timeline -> Timeline) (p : Page) : Page :=
  {| timeline := f (timeline p); console := console p |}.

Definition console_error (msg error : string) (p : Page) : Page :=
  {| timeline := timeline p;
     console := console p ++ [append msg (append " " error)] |}.

(** The body of the [try] block.  [now] is the value of [new Date()]. *)
Definition tryBlock (masterChecks : MasterChecks) (reviewDays : Numeric)
           (now : Date) (p : Page) : Completion Page :=
  values <- Object_values masterChecks ;;
  let totalDays := totalTestDays values + orZero reviewDays in
  if 0 <? totalDays then
    let today := now in
    let startDate := today in
    let endDate := addBusinessDays startDate totalDays in
    Normal (setTimeline (withDates startDate endDate) p)
  else Normal p.

(** The whole effect, [try { ... } catch (error) { console.error(...) }]. *)
Definition autoCalculateTimeline (masterChecks : MasterChecks)
           (reviewDays : Numeric) (now : Date) (p : Page) : Page :=
  match tryBlock masterChecks reviewDays now p with
  | Normal p' => p'
  | Throw error => console_error "Error calculating timeline:" error p
  end.

(** The total as the specification words it: the durations of the
    enabled phases, summed, plus the review days.  A malformed duration or
    review-day count is 0. *)
Definition enabledDurations (values : list PhaseValue) : list Z :=
  flat_map (fun v => match v with
                     | Phase true days => [orZero days]
                     | Phase false _ | NotAPhase => []
                     end) values.

Definition specTotalDays (values : list PhaseValue) (reviewDays : Numeric)
  : Z :=
  fold_right Z.add 0 (enabledDurations values) + orZero reviewDays.

(** The initial [masterChecks] and [timeline] states of the page. *)
Definition initialMasterChecks : MasterChecks :=
  Obj [ ("unit", Phase true (Num 0));
        ("functional", Phase true (Num 0));
        ("regression", Phase true (Num 0));
        ("load", Phase false (Num 0));
        ("volume", Phase false (Num 0));
        ("acceptance", Phase true (Num 0));
        ("usability", Phase true (Num 0)) ]%string.

Definition initialTimeline : Timeline := mkTimeline "" "" "".

End TimelineEffect.

(* ================================================================== *)
(** * The day markers of [TestExecutionDetailScreen]                   *)
(* ================================================================== *)

Module DetailScreen.

Local Open Scope Q_scope.

(** An entry of [DETAIL_SECTIONS] (the fields the handler reads). *)
Record DetailSection : Set :=
  mkSection { id : nat; title : string; days : list nat }.

(** [xs.findIndex(p)]; [None] stands for -1. *)
Fixpoint findIndex {A : Type} (p : A -> bool) (xs : list A) : option nat :=
  match xs with
  | [] => None
  | x :: rest =>
      if p x then Some O
      else match findIndex p rest with
           | Some k => Some (S k)
           | None => None
           end
  end.

(** [xs.includes(d)]. *)
Definition includes (xs : list nat) (d : nat) : bool :=
  existsb (Nat.eqb d) xs.

(** The two state variables of the screen. *)
Record Screen : Set := mkScreen { activeSection : nat; activeDay : nat }.

(** [useState(0)] twice. *)
Definition initialScreen : Screen := mkScreen 0 0.

Section Handler.

(** The handler reads two module constants: the marker labels and the
    section table. *)
Variable DAYS : list string.
Variable SECTIONS : list DetailSection.

Definition numDays : nat := List.length DAYS.

(** [(i / (numDays - 1)) * 100], in exact arithmetic (the binary64
    evaluation is [DetailScreenBinary64.dayPosition]).  With a single
    marker the quotient is 0/0, not a number: [None]. *)
Definition dayPosition (i : nat) : option Q :=
  let denominator := (Z.of_nat numDays - 1)%Z in
  if (denominator =? 0)%Z then None
  else Some ((inject_Z (Z.of_nat i) / inject_Z denominator) * 100).

(** [progressPercent >= dayPosition] on the exact values; a comparison
    with NaN is false. *)
Definition reached (progressPercent : Q) (i : nat) : bool :=
  match dayPosition i with
  | Some position => Qle_bool position progressPercent
  | None => false
  end.

(** [for (let i = k - 1; i >= 0; i--) if (...) { newActiveDay = i; break; }]:
    the index at which the loop breaks, if it does. *)
Fixpoint scanDays (progressPercent : Q) (k : nat) : option nat :=
  match k with
  | O => None
  | S i => if reached progressPercent i then Some i
           else scanDays progressPercent i
  end.

Definition newActiveDay (v : Q) : nat :=
  let progressPercent := v * 100 in
  match scanDays progressPercent numDays with
  | Some i => i
  | None => O
  end.

(** The callback of [scrollYProgress.on("change", ...)]. *)
Definition onProgressChange (v : Q) (s : Screen) : Screen :=
  let day := newActiveDay v in
  let sectionIndex := findIndex (fun sec => includes (days sec) day) SECTIONS in
  match sectionIndex with
  | Some k => {| activeSection := k; activeDay := day |}
  | None => {| activeSection := activeSection s; activeDay := day |}
  end.

(** The active day after each value of a progress sequence. *)
Fixpoint activeDays (vs : list Q) (s : Screen) : list nat :=
  match vs with
  | [] => []
  | v :: rest =>
      let s' := onProgressChange v s in
      activeDay s' :: activeDays rest s'
  end.

(** The screen after a progress sequence. *)
Definition feed (vs : list Q) (s : Screen) : Screen :=
  fold_left (fun st v => onProgressChange v st) vs s.

End Handler.

Definition DETAIL_DAYS : list string :=
  ["Day 1"; "Day 2"; "Day 3"; "Day 4"; "Day 5"; "Day 6"]%string.

Definition DETAIL_SECTIONS : list DetailSection :=
  [ mkSection 0 "Planning" [0%nat];
    mkSection 1 "Unit Tests" [1%nat];
    mkSection 2 "Integration" [2%nat];
    mkSection 3 "UI Validation" [3%nat];
    mkSection 4 "Non-Functional" [4%nat];
    mkSection 5 "Release" [5%nat] ]%string.

(** The normalized position of marker [i] of [N] as the specification
    writes it: [i/(N-1)*100]. *)
Definition specPosition (N i : nat) : Q :=
  inject_Z (Z.of_nat i) / inject_Z (Z.of_nat N - 1) * 100.

End DetailScreen.

(* ================================================================== *)
(** * Numbers as the browser computes them                             *)
(* ================================================================== *)

Module Binary64.

(** A JavaScript number is an IEEE 754 binary64 value: 53 digits of
    mantissa, exponents below 1024.  The operations are those of the
    standard library's specification of floating-point arithmetic, so
    every product and quotient is the exact one rounded to the nearest
    number, ties to the even mantissa. *)
Definition number : Set := spec_float.

Definition prec : Z := 53.
Definition emax : Z := 1024.

(** An integer as a number (exact up to 2^53). *)
Definition ofZ (z : Z) : number := binary_normalize prec emax z 0 false.
Definition ofNat (n : nat) : number := ofZ (Z.of_nat n).

(** [x * y], [x / y] and [x >= y]; a comparison with NaN is false. *)
Definition mul : number -> number -> number := SFmul prec emax.
Definition div : number -> number -> number := SFdiv prec emax.
Definition geb (x y : number) : bool := SFleb y x.

(** The literals [0], [1] and [100]. *)
Definition zero : number := ofZ 0.
Definition one : number := ofZ 1.
Definition hundred : number := ofZ 100.

(** The decimal literal [n/d] for integers [n] and [d] that are numbers
    themselves: the number nearest to the quotient. *)
Definition decimal (n d : Z) : number := div (ofZ n) (ofZ d).

(** The number is one of the format. *)
Definition valid (x : number) : bool := valid_binary prec emax x.

(** The real value of a finite number, as a rational. *)
Definition toQ (x : number) : option Q :=
  match x with
  | S754_zero _ => Some 0%Q
  | S754_finite s m e =>
      Some (inject_Z (if s then Zneg m else Zpos m) * 2 ^ e)%Q
  | S754_infinity _ | S754_nan => None
  end.

(** A number above zero: a positive finite one, with an exponent of the
    format, or plus infinity. *)
Definition aboveZero (x : number) : Prop :=
  match x with
  | S754_finite false _ e => -1074 <= e
  | S754_infinity false => True
  | _ => False
  end.

(** The largest number below 0.2; JavaScript writes it
    [0.19999999999999998]. *)
Definition justBelowOneFifth : number :=
  S754_finite false 7205759403792793 (-55).

End Binary64.

(* ================================================================== *)
(** * The day markers, in binary64                                     *)
(* ================================================================== *)

(** The handler of [scrollYProgress] once more, with the arithmetic of
    the browser: [v], [v * 100] and [(i / (numDays - 1)) * 100] are
    binary64 numbers. *)
Module DetailScreenBinary64.
Import Binary64 DetailScreen.

Section Handler.

Variable DAYS : list string.
Variable SECTIONS : list DetailSection.

Definition numDays : nat := List.length DAYS.

(** [(i / (numDays - 1)) * 100]; with a single marker the quotient 0/0
    is NaN. *)
Definition dayPosition (i : nat) : number :=
  mul (div (ofNat i) (ofZ (Z.of_nat numDays - 1))) hundred.

(** [progressPercent >= dayPosition]. *)
Definition reached (progressPercent : number) (i : nat) : bool :=
  geb progressPercent (dayPosition i).

(** The backward loop: the index at which it breaks, if it does. *)
Fixpoint scanDays (progressPercent : number) (k : nat) : option nat :=
  match k with
  | O => None
  | S i => if reached progressPercent i then Some i
           else scanDays progressPercent i
  end.

Definition newActiveDay (v : number) : nat :=
  let progressPercent := mul v hundred in
  match scanDays progressPercent numDays with
  | Some i => i
  | None => O
  end.

(** The callback of [scrollYProgress.on("change", ...)]. *)
Definition onProgressChange (v : number) (s : Screen) : Screen :=
  let day := newActiveDay v in
  let sectionIndex := findIndex (fun sec => includes (days sec) day) SECTIONS in
  match sectionIndex with
  | Some k => {| activeSection := k; activeDay := day |}
  | None => {| activeSection := activeSection s; activeDay := day |}
  end.

(** The active day after each value of a progress sequence. *)
Fixpoint activeDays (vs : list number) (s : Screen) : list nat :=
  match vs with
  | [] => []
  | v :: rest =>
      let s' := onProgressChange v s in
      activeDay s' :: activeDays rest s'
  end.

End Handler.

End DetailScreenBinary64.

(* ================================================================== *)
(** * The outline scroll-spy of the create modal                       *)
(* ================================================================== *)

Module OutlineSpy.

Local Open Scope Q_scope.

(** Ids of [OUTLINE_SECTIONS], in order. *)
Definition OUTLINE_SECTIONS : list string :=
  ["meta"; "scope"; "checklists"; "schedule"; "comments"]%string.

(** The measurements of the scroll container that the code reads, in
    pixels: [scrollTop], [scrollHeight], [clientHeight] and
    [getBoundingClientRect().top]. *)
Record Container : Set :=
  mkContainer { scrollTop : Q; scrollHeight : Q; clientHeight : Q;
                containerTop : Q }.

(** A section heading: its [id] and [getBoundingClientRect().top]. *)
Record Element : Set := mkElement { elementId : string; elementTop : Q }.

(** What [handleScroll] sees when it runs: [root] and the current places
    of the headings it captured, in outline order. *)
Record Layout : Set :=
  mkLayout { root : Container; elements : list Element }.

(** What [scrollToSection] sees: [modalScrollRef.current] and the
    document, by id. *)
Record Document : Set :=
  mkDocument { current : option Container; byId : list Element }.

Definition getElementById (doc : Document) (id : string) : option Element :=
  find (fun e => String.eqb (elementId e) id) (byId doc).

(** State of the spy: the [activeSection] state, [isManualScrollRef.current],
    the deadlines of the pending [setTimeout] callbacks (each one clears
    the flag), the clock in milliseconds, and the smooth scrolls requested
    so far. *)
Record Spy : Set :=
  mkSpy { activeSection : string;
          isManualScroll : bool;
          timers : list Z;
          clock : Z;
          scrollRequests : list Q }.

(** [useState("meta")], [useRef(false)], no timer. *)
Definition initialSpy : Spy := mkSpy "meta" false [] 0 [].

Definition setActiveSection (id : string) (s : Spy) : Spy :=
  {| activeSection := id;
     isManualScroll := isManualScroll s;
     timers := timers s;
     clock := clock s;
     scrollRequests := scrollRequests s |}.

(** The backward loop over [elements]: the last heading at or above the
    threshold. *)
Definition lastAbove (threshold : Q) (els : list Element) : option Element :=
  find (fun e => Qle_bool (elementTop e) threshold) (rev els).

(** The section [handleScroll] selects when it is not suppressed; [None]
    when it selects nothing (no heading was captured). *)
Definition detectSection (l : Layout) : option string :=
  let r := root l in
  if Qle_bool (scrollHeight r - 100) (scrollTop r + clientHeight r) then
    Some (last OUTLINE_SECTIONS ""%string)
  else
    let threshold := containerTop r + 160 in
    match lastAbove threshold (elements l) with
    | Some e => Some (elementId e)
    | None =>
        match elements l with
        | e :: _ => Some (elementId e)
        | [] => None
        end
    end.

(** [handleScroll]. *)
Definition handleScroll (l : Layout) (s : Spy) : Spy :=
  if isManualScroll s then s
  else match detectSection l with
       | Some id => setActiveSection id s
       | None => s
       end.

(** The delay given to [setTimeout] in [scrollToSection]. *)
Definition OVERRIDE_MS : Z := 1000.

(** [scrollToSection(id)]. *)
Definition scrollToSection (id : string) (doc : Document) (s : Spy) : Spy :=
  match getElementById doc id, current doc with
  | Some el, Some container =>
      let scrollOffset :=
        elementTop el - containerTop container + scrollTop container - 80 in
      {| activeSection := id;
         isManualScroll := true;
         timers := timers s ++ [(clock s + OVERRIDE_MS)%Z];
         clock := clock s;
         scrollRequests := scrollRequests s ++ [scrollOffset] |}
  | _, _ => s
  end.

(** The event loop reaches time [t]: every callback that is due runs (it
    sets the flag to [false]) and leaves the queue. *)
Definition advanceTo (t : Z) (s : Spy) : Spy :=
  let due := filter (fun deadline => (deadline <=? t)%Z) (timers s) in
  {| activeSection := activeSection s;
     isManualScroll := match due with
                       | [] => isManualScroll s
                       | _ :: _ => false
                       end;
     timers := filter (fun deadline => negb (deadline <=? t)%Z) (timers s);
     clock := Z.max (clock s) t;
     scrollRequests := scrollRequests s |}.

(** What happens to the spy: a click on an outline tab or a scroll event. *)
Inductive Event : Set :=
| Click (id : string) (doc : Document)
| Scrolled (l : Layout).

Definition handle (e : Event) (s : Spy) : Spy :=
  match e with
  | Click id doc => scrollToSection id doc s
  | Scrolled l => handleScroll l s
  end.

(** An event at time [t]: the timers due by [t] run first. *)
Definition step (s : Spy) (te : Z * Event) : Spy :=
  handle (snd te) (advanceTo (fst te) s).

Definition run (trace : list (Z * Event)) (s : Spy) : Spy :=
  fold_left step trace s.

Definition isScrolled (e : Event) : bool :=
  match e with
  | Scrolled _ => true
  | Click _ _ => false
  end.

(** [id] is one of the outline markers. *)
Definition isOutlineId (id : string) : bool :=
  existsb (String.eqb id) OUTLINE_SECTIONS.

(** The events the page can produce: a click on one of the outline tabs;
    a scroll over headings that were looked up from [OUTLINE_SECTIONS]. *)
Definition validEvent (e : Event) : bool :=
  match e with
  | Click id _ => isOutlineId id
  | Scrolled l => forallb (fun el => isOutlineId (elementId el)) (elements l)
  end.

(** A scroll event that comes before the deadline [deadline]. *)
Definition scrollBefore (deadline : Z) (te : Z * Event) : bool :=
  isScrolled (snd te) && (fst te <? deadline)%Z.

(** The state after a jump that was the only one pending, while its
    timer has not run: the section is held, the flag is set, and the one
    timer in the queue is the jump's. *)
Definition overriding (id : string) (deadline : Z) (s : Spy) : Prop :=
  activeSection s = id /\ isManualScroll s = true /\ timers s = [deadline].

(** A document in which every outline section is rendered, scrolled to
    the top of a 3000px form in a 600px viewport. *)
Definition sampleContainer : Container := mkContainer 0 3000 600 100.

Definition sampleElements : list Element :=
  [ mkElement "meta" 120; mkElement "scope" 700;
    mkElement "checklists" 1300; mkElement "schedule" 1900;
    mkElement "comments" 2500 ]%string.

Definition sampleDocument : Document :=
  mkDocument (Some sampleContainer) sampleElements.

Definition sampleLayout : Layout := mkLayout sampleContainer sampleElements.

(** The same form scrolled down by 1100px, as a smooth scroll towards its
    end passes: "meta" and "scope" are above the viewport and "checklists"
    is the last heading above the threshold. *)
Definition passingContainer : Container := mkContainer 1100 3000 600 100.

Definition passingElements : list Element :=
  [ mkElement "meta" (-980); mkElement "scope" (-400);
    mkElement "checklists" 200; mkElement "schedule" 800;
    mkElement "comments" 1400 ]%string.

Definition passingLayout : Layout :=
  mkLayout passingContainer passingElements.

End OutlineSpy.

(* ================================================================== *)
(** * The duration field of [CheckboxRow]                              *)
(* ================================================================== *)

Module DaysInput.

(** [\d] of the regular expression: an ASCII digit. *)
Definition isDigit (c : ascii) : bool :=
  let n := nat_of_ascii c in
  (48 <=? n)%nat && (n <=? 57)%nat.

Definition digitValue (c : ascii) : Z := Z.of_nat (nat_of_ascii c) - 48.

Fixpoint allDigits (s : string) : bool :=
  match s with
  | EmptyString => true
  | String c rest => isDigit c && allDigits rest
  end.

(** [/^\d+$/.test(value)]: one digit or more and nothing else. *)
Definition testDigits (value : string) : bool :=
  match value with
  | EmptyString => false
  | String _ _ => allDigits value
  end.

(** [parseInt(value, 10)] on a string of digits, read from the left with
    the value so far in [acc]. *)
Fixpoint parseDigits (acc : Z) (s : string) : Z :=
  match s with
  | EmptyString => acc
  | String c rest => parseDigits (acc * 10 + digitValue c) rest
  end.

Definition parseInt10 (value : string) : Z := parseDigits 0 value.

(** [handleDaysChange]: what the input's text makes of the phase's
    duration.  [Some d] is the call [onDaysChange(d)]; [None] is no call:
    the keystroke is dropped and the duration stays. *)
Definition handleDaysChange (value : string) : option Z :=
  if String.eqb value "" || testDigits value then
    Some (if String.eqb value "" then 0 else parseInt10 value)
  else None.

(** A duration after the input event: the new value if there is one. *)
Definition daysAfterInput (value : string) (days : Z) : Z :=
  match handleDaysChange value with
  | Some d => d
  | None => days
  end.

End DaysInput.

(* ================================================================== *)
(** * Two-digit fields                                                 *)
(* ================================================================== *)

Module TwoDigits.

(** The decimal digit [d] (0..9) as a character. *)
Definition digitChar (d : Z) : ascii := ascii_of_nat (48 + Z.to_nat d).

(** A number below 100 written with exactly two digits. *)
Definition twoDigits (n : Z) : string :=
  String (digitChar (n / 10)) (String (digitChar (n mod 10)) EmptyString).

End TwoDigits.

(* ================================================================== *)
(** * What the runs of the scroll-spy keep                             *)
(* ================================================================== *)

Module OutlineSpyRuns.
Import OutlineSpy.

(** A timer in the queue is due within the delay of the clock, and the
    flag is only set while a timer is in the queue. *)
Definition timersCoverFlag (s : Spy) : Prop :=
  Forall (fun deadline => deadline <= clock s + OVERRIDE_MS) (timers s)
  /\ (isManualScroll s = true -> timers s <> []).

End OutlineSpyRuns.

(* ================================================================== *)
(** * The folder storage ([testPlanStorage])                           *)
(* ================================================================== *)

Module PlanStorage.

(** What [localStorage.getItem(key)] holds, as [JSON.parse] sees it:
    nothing (no item, or the empty text), a text that [JSON.parse]
    rejects, or the text of a value.  A value written by
    [JSON.stringify] is read back as it was.  A text that parses to a
    value of another shape is not modelled. *)
Inductive Item (A : Type) : Type :=
| Missing
| Unparseable
| Stored (value : A).
Arguments Missing {A}.
Arguments Unparseable {A}.
Arguments Stored {A} value.

(** [xs[k] = f(xs[k])] for [k] in range. *)
Fixpoint updateAt {A : Type} (k : nat) (f : A -> A) (xs : list A) : list A :=
  match xs, k with
  | [], _ => []
  | x :: rest, O => f x :: rest
  | x :: rest, S k' => x :: updateAt k' f rest
  end.

Section Folders.

(** A [TestPlan]: the storage code reads its [id] only. *)
Variable Plan : Type.
Variable planId : Plan -> string.

Record Folder : Type :=
  mkFolder { id : string; name : string; badge : string; plans : list Plan }.

(** The browser as the module sees it: the item under
    ["test-planner-folders"], whether [setItem] fails (quota exceeded),
    and the console. *)
Record Browser : Type :=
  mkBrowser { foldersItem : Item (list Folder);
              quotaExceeded : bool;
              console : list string }.

Definition console_error (msg detail : string) (b : Browser) : Browser :=
  {| foldersItem := foldersItem b;
     quotaExceeded := quotaExceeded b;
     console := console b ++ [append msg (append " " detail)] |}.

Definition defaultFolders : list Folder :=
  [ mkFolder "f_design" "Design Career" "0" [];
    mkFolder "f_ai" "AI thinking" "0" [];
    mkFolder "f_fun" "Fun tech" "0" [];
    mkFolder "f_craft" "Preserving craft" "0" [] ]%string.

(** [loadFolders]. *)
Definition loadFolders (b : Browser) : list Folder * Browser :=
  match foldersItem b with
  | Stored folders => (folders, b)
  | Missing => (defaultFolders, b)
  | Unparseable =>
      (defaultFolders,
       console_error "Failed to load folders from localStorage:"
                     "SyntaxError" b)
  end.

(** [saveFolders]. *)
Definition saveFolders (folders : list Folder) (b : Browser) : Browser :=
  if quotaExceeded b then
    console_error "Failed to save folders to localStorage:"
                  "QuotaExceededError" b
  else
    {| foldersItem := Stored folders;
       quotaExceeded := quotaExceeded b;
       console := console b |}.

Definition samePlan (plan : Plan) (p : Plan) : bool :=
  String.eqb (planId p) (planId plan).

(** The update-or-add of [saveTestPlanToFolder] on the plans of the
    folder. *)
Definition upsertPlan (plan : Plan) (ps : list Plan) : list Plan :=
  match DetailScreen.findIndex (samePlan plan) ps with
  | Some planIndex => updateAt planIndex (fun _ => plan) ps
  | None => plan :: ps
  end.

Definition withPlan (plan : Plan) (f : Folder) : Folder :=
  {| id := id f; name := name f; badge := badge f;
     plans := upsertPlan plan (plans f) |}.

(** [folderId || folders[0]?.id]: [None] is [undefined]; the empty text
    is falsy too. *)
Definition targetFolder (folderId : option string) (folders : list Folder)
  : option string :=
  match folderId with
  | Some (String c rest) => Some (String c rest)
  | Some EmptyString | None => option_map id (hd_error folders)
  end.

(** [saveTestPlanToFolder].  On the values of the model nothing in the
    [try] block throws. *)
Definition saveTestPlanToFolder (plan : Plan) (folderId : option string)
           (b : Browser) : bool * Browser :=
  let (folders, b) := loadFolders b in
  let targetFolderId := targetFolder folderId folders in
  let folderIndex :=
    match targetFolderId with
    | Some target =>
        DetailScreen.findIndex (fun f => String.eqb (id f) target) folders
    | None => None
    end in
  match folderIndex with
  | None =>
      (false,
       console_error "Folder not found:"
                     (match targetFolderId with
                      | Some target => target
                      | None => "undefined"
                      end) b)
  | Some k => (true, saveFolders (updateAt k (withPlan plan) folders) b)
  end.

(** The first folder with this id, as [findIndex] finds it. *)
Definition folderById (target : string) (folders : list Folder)
  : option Folder :=
  find (fun f => String.eqb (id f) target) folders.

(** The first plan with this id. *)
Definition planById (pid : string) (ps : list Plan) : option Plan :=
  find (fun p => String.eqb (planId p) pid) ps.

End Folders.

Arguments id {Plan} f.
Arguments name {Plan} f.
Arguments badge {Plan} f.
Arguments plans {Plan} f.
Arguments mkFolder {Plan} id name badge plans.
Arguments foldersItem {Plan} b.
Arguments quotaExceeded {Plan} b.
Arguments console {Plan} b.
Arguments mkBrowser {Plan} foldersItem quotaExceeded console.

End PlanStorage.

(* ================================================================== *)
(** * The work planner's storage ([sitecode.jsx])                      *)
(* ================================================================== *)

Module WorkPlanner.
Import PlanStorage.

(** One key of [localStorage] and whether [setItem] fails on it. *)
Record Slot (A : Type) : Type := mkSlot { item : Item A; full : bool }.
Arguments mkSlot {A} item full.
Arguments item {A} s.
Arguments full {A} s.

(** [safeJsonParse(localStorage.getItem(key), [])], in the browser
    ([window] is defined). *)
Definition loadList {A : Type} (s : Slot (list A)) : list A :=
  match item s with
  | Stored xs => xs
  | Missing | Unparseable => []
  end.

(** [localStorage.setItem(key, JSON.stringify(xs))]; no [try] around it
    in these functions. *)
Definition saveList {A : Type} (xs : list A) (s : Slot (list A))
  : TimelineEffect.Completion (Slot (list A)) :=
  if full s then TimelineEffect.Throw "QuotaExceededError"
  else TimelineEffect.Normal (mkSlot (Stored xs) (full s)).

Section Runs.
Variable ScenarioResult : Type.
Variable Defect : Type.
Variable BASE_DEFECTS : list Defect.

Definition loadScenarioRuns := @loadList ScenarioResult.
Definition saveScenarioRuns := @saveList ScenarioResult.

(** [appendScenarioRun]: [[run, ...loadScenarioRuns()].slice(0, 50)]. *)
Definition appendScenarioRun (run : ScenarioResult)
           (s : Slot (list ScenarioResult)) :=
  let next := firstn 50 (run :: loadScenarioRuns s) in
  saveScenarioRuns next s.

Definition loadExtraDefects := @loadList Defect.
Definition saveExtraDefects := @saveList Defect.

(** [appendExtraDefect]. *)
Definition appendExtraDefect (defect : Defect) (s : Slot (list Defect)) :=
  let next := firstn 100 (defect :: loadExtraDefects s) in
  saveExtraDefects next s.

(** [getAllDefects]. *)
Definition getAllDefects (s : Slot (list Defect)) : list Defect :=
  loadExtraDefects s ++ BASE_DEFECTS.

End Runs.

Inductive TaskStatus : Set := PENDING | DONE | FAILED.

Record Task : Set :=
  mkTask { id : string; title : string; status : TaskStatus; dayKey : string }.

Definition loadTasks := @loadList Task.
Definition saveTasks := @saveList Task.

Definition isToday (today : string) (t : Task) : bool :=
  String.eqb (dayKey t) today.

(** The task that [ensureSeedTasksForToday] makes for index [i]. *)
Definition seedTask (today : string) (startIdx i : nat) : Task :=
  let number := JsString.ofNumber (Z.of_nat (startIdx + i + 1)) in
  {| id := append "SCN-" (JsString.padStart 3 "0" number);
     title := append "Scenario " number;
     status := PENDING;
     dayKey := today |}.

(** [ensureSeedTasksForToday(tz, desiredTotal)]; [today] is the value of
    [getDayKeyInTimeZone(tz)]. *)
Definition ensureSeedTasksForToday (today : string) (desiredTotal : nat)
           (s : Slot (list Task))
  : TimelineEffect.Completion (Slot (list Task)) :=
  let existing := loadTasks s in
  let todayCount := List.length (filter (isToday today) existing) in
  if (desiredTotal <=? todayCount)%nat then TimelineEffect.Normal s
  else
    let need := (desiredTotal - todayCount)%nat in
    let startIdx := todayCount in
    let seed := map (seedTask today startIdx) (seq 0 need) in
    saveTasks (existing ++ seed) s.






(** [formatMMSS]. *)
Definition formatMMSS (totalSeconds : Z) : string :=
  let mm := JsString.padStart 2 "0" (JsString.ofNumber (totalSeconds / 60)) in
  let ss := JsString.padStart 2 "0"
                              (JsString.ofNumber (Z.rem totalSeconds 60)) in
  append mm (append ":" ss).

End WorkPlanner.

(* ================================================================== *)
(** * The board of saved plans                                         *)
(* ================================================================== *)

Module PlanBoard.

Section Board.

(** A saved plan: the board reads [createdAtMs] and [meta?.status]
    ([None] when [meta] or [status] is missing).  [localDate] is
    [new Date(ms)] in the browser's time zone. *)
Variable Plan : Type.
Variable planId : Plan -> string.
Variable createdAtMs : Plan -> Z.
Variable status : Plan -> option string.
Variable localDate : Z -> JsDate.Date.

(** [filteredFolders]: the plans of the selected year and month
    ([selectedMonth] is 0..11). *)
Definition createdIn (selectedYear selectedMonth : Z) (plan : Plan) : bool :=
  let planDate := localDate (createdAtMs plan) in
  (JsDate.getFullYear planDate =? selectedYear)
  && (JsDate.getMonth planDate =? selectedMonth).

Definition filteredFolders (selectedYear selectedMonth : Z)
           (folders : list (PlanStorage.Folder Plan))
  : list (PlanStorage.Folder Plan) :=
  map (fun folder =>
         PlanStorage.mkFolder (PlanStorage.id folder) (PlanStorage.name folder)
                              (PlanStorage.badge folder)
                              (filter (createdIn selectedYear selectedMonth)
                                      (PlanStorage.plans folder)))
      folders.

(** [flatMap] of the plans, each with its folder's name. *)
Definition allPlans (folders : list (PlanStorage.Folder Plan))
  : list (Plan * string) :=
  flat_map (fun folder =>
              map (fun plan => (plan, PlanStorage.name folder))
                  (PlanStorage.plans folder))
           folders.

Definition statusIs (wanted : string) (p : Plan * string) : bool :=
  match status (fst p) with
  | Some st => String.eqb st wanted
  | None => false
  end.

(** [!p.meta?.status]: missing, or the empty text. *)
Definition statusMissing (p : Plan * string) : bool :=
  match status (fst p) with
  | Some EmptyString | None => true
  | Some (String _ _) => false
  end.

Record Columns : Type :=
  mkColumns { Draft : list (Plan * string);
              Approved : list (Plan * string);
              Signed_off : list (Plan * string) }.

(** [plansByStatus]. *)
Definition plansByStatus (filtered : list (PlanStorage.Folder Plan))
  : Columns :=
  let all := allPlans filtered in
  {| Draft := filter (fun p => statusIs "Draft" p || statusMissing p) all;
     Approved := filter (statusIs "Approved") all;
     Signed_off := filter (statusIs "Signed-off") all |}.

(** A plan that goes to no column: its status is a text other than the
    three the board knows. *)
Definition otherStatus (p : Plan * string) : bool :=
  negb (statusIs "Draft" p || statusMissing p
        || statusIs "Approved" p || statusIs "Signed-off" p).

End Board.

End PlanBoard.

(* ================================================================== *)
(** * [clsx]                                                           *)
(* ================================================================== *)

Module ClassNames.

(** An argument of [clsx]: a text, or one of [false], [null],
    [undefined]. *)
Inductive ClassValue : Set :=
| Text (s : string)
| Falsy.

(** [Boolean(x)]: the empty text is falsy. *)
Definition truthy (x : ClassValue) : option string :=
  match x with
  | Text (String c rest) => Some (String c rest)
  | Text EmptyString | Falsy => None
  end.

(** [parts.join(" ")]. *)
Fixpoint join (parts : list string) : string :=
  match parts with
  | [] => EmptyString
  | [p] => p
  | p :: rest => append p (append " " (join rest))
  end.

Fixpoint keepTruthy (xs : list ClassValue) : list string :=
  match xs with
  | [] => []
  | x :: rest =>
      match truthy x with
      | Some s => s :: keepTruthy rest
      | None => keepTruthy rest
      end
  end.

(** [clsx(...xs)]: [xs.filter(Boolean).join(" ")]. *)
Definition clsx (xs : list ClassValue) : string := join (keepTruthy xs).

End ClassNames.

(* ================================================================== *)
(** * The counts of the defect tracker                                 *)
(* ================================================================== *)

Module DefectCounts.

(** A [Map] from keys to numbers: the entries in the order the keys were
    first set. *)
Definition CountMap : Type := list (string * nat).

(** [m.get(k)]; [None] is [undefined]. *)
Fixpoint mapGet (k : string) (m : CountMap) : option nat :=
  match m with
  | [] => None
  | (k', n) :: rest => if String.eqb k' k then Some n else mapGet k rest
  end.

(** [m.set(k, n)]: a key that is there keeps its place. *)
Fixpoint mapSet (k : string) (n : nat) (m : CountMap) : CountMap :=
  match m with
  | [] => [(k, n)]
  | (k', n') :: rest =>
      if String.eqb k' k then (k', n) :: rest
      else (k', n') :: mapSet k n rest
  end.

(** [m.get(k) || 0]. *)
Definition getOrZero (k : string) (m : CountMap) : nat :=
  match mapGet k m with
  | Some n => n
  | None => O
  end.

(** One entry put in its place in a list that is sorted by
    [(a, b) => b[1] - a[1]]: after the entries that do not count less.
    Entries with the same count keep their order, as [Array.prototype.sort]
    guarantees. *)
Fixpoint insertDesc (x : string * nat) (sorted : CountMap) : CountMap :=
  match sorted with
  | [] => [x]
  | y :: rest =>
      if (snd y <? snd x)%nat then x :: y :: rest
      else y :: insertDesc x rest
  end.

(** The order of the result: [a] may come before [b] when [b] does not
    count more. *)
Definition notLess (a b : string * nat) : Prop := (snd b <= snd a)%nat.

(** [entries.sort((a, b) => b[1] - a[1])]. *)
Definition sortDesc (entries : CountMap) : CountMap :=
  fold_left (fun sorted x => insertDesc x sorted) entries [].

Section CountsBy.
Variable Defect : Type.
Variable key : Defect -> string.

(** The loop [for (const d of items) m.set(key(d), (m.get(key(d)) || 0) + 1)]. *)
Definition tally (items : list Defect) (m : CountMap) : CountMap :=
  fold_left (fun m d => mapSet (key d) (getOrZero (key d) m + 1) m) items m.

(** [countsBy(items, key)]. *)
Definition countsBy (items : list Defect) : CountMap :=
  sortDesc (tally items []).

(** The number of items with key [k]. *)
Definition occurrences (k : string) (items : list Defect) : nat :=
  List.length (filter (fun d => String.eqb (key d) k) items).

End CountsBy.

End DefectCounts.

(* ================================================================== *)
(** * Properties of [addBusinessDays]                                  *)
(* ================================================================== *)

Section BusinessDays.
Import JsDate Scheduler.

(** The loop, one iteration unfolded. *)
Lemma addBusinessDays_loop_unfold (n : Z) (result : Date) (daysAdded : Z) :
  addBusinessDays_loop n result daysAdded =
  if daysAdded <? n then
    addBusinessDays_loop n (addDays result 1)
      (if isBusinessDay (addDays result 1) then daysAdded + 1 else daysAdded)
  else result.
Proof.
  rewrite addBusinessDays_loop_equation_1.
  destruct (Z_lt_dec daysAdded n) as [Hlt | Hge]; cbn.
  - apply Z.ltb_lt in Hlt. now rewrite Hlt.
  - apply Z.ltb_nlt in Hge. now rewrite Hge.
Qed.

Lemma isBusinessDay_getDay (d : Date) :
  isBusinessDay d = true <-> getDay d <> 0 /\ getDay d <> 6.
Proof.
  unfold isBusinessDay; cbn zeta.
  destruct (Z.eqb_spec (getDay d) 0), (Z.eqb_spec (getDay d) 6);
    cbn; intuition congruence.
Qed.

Lemma businessDaysBetween_refl (d : Date) : businessDaysBetween d d = 0.
Proof. unfold businessDaysBetween. now rewrite Z.sub_diag. Qed.

(** Counting from [d] is one test of the next day plus the count from
    there. *)
Lemma businessDaysBetween_step (d r : Date) :
  epochDay d + 1 <= epochDay r ->
  businessDaysBetween d r =
  (if isBusinessDay (addDays d 1) then 1 else 0)
  + businessDaysBetween (addDays d 1) r.
Proof.
  intros Hle. unfold businessDaysBetween.
  replace (Z.to_nat (epochDay r - epochDay d))
    with (S (Z.to_nat (epochDay r - epochDay (addDays d 1))))
    by (cbn [addDays epochDay]; lia).
  reflexivity.
Qed.

(** The count is the number of days of the interval that pass the test of
    the loop. *)
Lemma businessDaysAfter_filter (d : Date) (k : nat) :
  businessDaysAfter d k =
  Z.of_nat (List.length
              (filter isBusinessDay
                      (map (fun i => addDays d (Z.of_nat i)) (seq 1 k)))).
Proof.
  revert d. induction k as [| k IH]; intros d; [reflexivity |].
  cbn [businessDaysAfter seq map filter]. rewrite IH.
  change (Z.of_nat 1) with 1.
  replace (map (fun i => addDays (addDays d 1) (Z.of_nat i)) (seq 1 k))
    with (map (fun i => addDays d (Z.of_nat i)) (seq 2 k)).
  - destruct (isBusinessDay (addDays d 1)); cbn [List.length]; lia.
  - rewrite <- (seq_shift k 1), map_map. apply map_ext. intros i.
    unfold addDays; cbn [epochDay msOfDay]. f_equal. lia.
Qed.

(** Invariant of the loop, stated on its result. *)
Lemma addBusinessDays_loop_spec (n : Z) (result : Date) (daysAdded : Z) :
  daysAdded <= n ->
  let r := addBusinessDays_loop n result daysAdded in
  epochDay result <= epochDay r
  /\ msOfDay r = msOfDay result
  /\ businessDaysBetween result r = n - daysAdded
  /\ (daysAdded < n -> isBusinessDay r = true).
Proof.
  funelim (addBusinessDays_loop n result daysAdded); intros Hle; cbn zeta.
  - (* one more iteration *)
    match goal with
    | IH : _ -> _ /\ _ |- _ => rename IH into IHloop
    end.
    clear Heq Heqcall.
    set (next := addDays result 1) in *.
    set (k := if isBusinessDay next then daysAdded + 1 else daysAdded) in *.
    assert (Hk : k <= numberOfDays)
      by (subst k; destruct (isBusinessDay next); lia).
    destruct (IHloop Hk) as (Hmono & Hms & Hcount & Hbd).
    assert (Hnext : epochDay next = epochDay result + 1) by reflexivity.
    repeat split.
    + lia.
    + rewrite Hms. reflexivity.
    + rewrite businessDaysBetween_step by lia. fold next.
      rewrite Hcount. subst k. destruct (isBusinessDay next); lia.
    + intros _.
      destruct (Z_lt_dec k numberOfDays) as [Hlt | Hge]; [now apply Hbd |].
      rewrite addBusinessDays_loop_unfold.
      replace (k <? numberOfDays) with false
        by (symmetry; apply Z.ltb_nlt; lia).
      subst k. destruct (isBusinessDay next) eqn:E; [reflexivity | lia].
  - (* the loop is over *)
    rewrite businessDaysBetween_refl. repeat split; lia.
Qed.

Lemma addBusinessDays_zero (d : Date) : addBusinessDays d 0 = d.
Proof.
  unfold addBusinessDays, copy; cbn zeta.
  now rewrite addBusinessDays_loop_unfold.
Qed.

(** C1 (as amended).  For every date [d] and every [n >= 0], exactly [n]
    business days lie between [d] (exclusive) and [addBusinessDays d n]
    (inclusive), and the result is not before [d].  For [n >= 1] the
    result is neither a Sunday (0) nor a Saturday (6).  For [n = 0] the
    result is [d] itself, whatever day of the week [d] is. *)
Theorem addBusinessDays_counts_business_days (d : Date) (n : Z) :
  0 <= n ->
  let r := addBusinessDays d n in
  businessDaysBetween d r = n
  /\ epochDay d <= epochDay r
  /\ (1 <= n -> getDay r <> 0 /\ getDay r <> 6)
  /\ (n = 0 -> r = d).
Proof.
  intros Hn. cbn zeta.
  destruct (addBusinessDays_loop_spec n (copy d) 0 Hn)
    as (Hmono & _ & Hcount & Hbd).
  unfold addBusinessDays, copy in *; cbn zeta.
  repeat split.
  - rewrite Hcount. lia.
  - exact Hmono.
  - apply isBusinessDay_getDay, Hbd. lia.
  - apply isBusinessDay_getDay, Hbd. lia.
  - intros ->. apply addBusinessDays_zero.
Qed.

(** Five business days from Monday 2026-11-02 (day 20759). *)
Lemma addBusinessDays_counts_business_days_witness :
  0 <= 5
  /\ let r := addBusinessDays (mkDate 20759 0) 5 in
     businessDaysBetween (mkDate 20759 0) r = 5
     /\ epochDay (mkDate 20759 0) <= epochDay r
     /\ (1 <= 5 -> getDay r <> 0 /\ getDay r <> 6)
     /\ (5 = 0 -> r = mkDate 20759 0).
Proof.
  split; [lia | apply (addBusinessDays_counts_business_days (mkDate 20759 0) 5); lia].
Defined.

(** C1 as stated fails for [n = 0] on a weekend day: 1970-01-03 (day 2) is
    a Saturday and [addBusinessDays] returns it unchanged. *)
Lemma addBusinessDays_zero_lands_on_saturday :
  getDay (addBusinessDays (mkDate 2 0) 0) = 6
  /\ ~ (forall (d : Date) (n : Z),
           0 <= n ->
           (getDay (addBusinessDays d n) <> 0
            /\ getDay (addBusinessDays d n) <> 6)
           /\ businessDaysBetween d (addBusinessDays d n) = n).
Proof.
  assert (E : getDay (addBusinessDays (mkDate 2 0) 0) = 6)
    by (rewrite addBusinessDays_zero; reflexivity).
  split; [exact E |].
  intros H. destruct (H (mkDate 2 0) 0 ltac:(lia)) as [[_ Hsat] _].
  exact (Hsat E).
Qed.

End BusinessDays.

(* ================================================================== *)
(** * Properties of the timeline effect                                *)
(* ================================================================== *)

Section Timeline.
Import JsDate Scheduler TimelineEffect.

(** The reducer started from any accumulator. *)
Lemma fold_addPhase_spec (values : list PhaseValue) (acc : Z) :
  fold_left addPhase values acc =
  acc + fold_right Z.add 0 (enabledDurations values).
Proof.
  revert acc. induction values as [| v values IH]; intros acc.
  - cbn. lia.
  - cbn [fold_left]. rewrite IH.
    destruct v as [| [] days];
      cbn [addPhase enabledDurations flat_map app fold_right];
      fold (enabledDurations values); lia.
Qed.

(** The code's total is the specification's: the enabled durations
    summed, plus the review days. *)
Lemma totalTestDays_spec (values : list PhaseValue) (reviewDays : Numeric) :
  totalTestDays values + orZero reviewDays = specTotalDays values reviewDays.
Proof.
  unfold totalTestDays, specTotalDays. rewrite fold_addPhase_spec. lia.
Qed.

(** The effect on a [masterChecks] object, in one equation. *)
Lemma autoCalculateTimeline_Obj (props : list (string * PhaseValue))
      (reviewDays : Numeric) (now : Date) (p : Page) :
  autoCalculateTimeline (Obj props) reviewDays now p =
  let total := specTotalDays (map snd props) reviewDays in
  if 0 <? total
  then setTimeline (withDates now (addBusinessDays now total)) p
  else p.
Proof.
  unfold autoCalculateTimeline, tryBlock; cbn [Object_values bind].
  rewrite totalTestDays_spec. cbn zeta.
  destruct (0 <? specTotalDays (map snd props) reviewDays); reflexivity.
Qed.

Lemma enabledDurations_app (xs ys : list PhaseValue) :
  enabledDurations (xs ++ ys) = enabledDurations xs ++ enabledDurations ys.
Proof. unfold enabledDurations. apply flat_map_app. Qed.

(** C6.  When the durations of the enabled phases plus the review days
    add up to 0, the effect produces nothing: the page, and with it the
    start and end of the timeline, is exactly what it was. *)
Theorem zero_total_leaves_timeline (props : list (string * PhaseValue))
        (reviewDays : Numeric) (now : Date) (p : Page) :
  specTotalDays (map snd props) reviewDays = 0 ->
  autoCalculateTimeline (Obj props) reviewDays now p = p
  /\ start (timeline (autoCalculateTimeline (Obj props) reviewDays now p))
     = start (timeline p)
  /\ end_ (timeline (autoCalculateTimeline (Obj props) reviewDays now p))
     = end_ (timeline p).
Proof.
  intros Hzero.
  assert (E : autoCalculateTimeline (Obj props) reviewDays now p = p)
    by (rewrite autoCalculateTimeline_Obj; cbn zeta; now rewrite Hzero).
  rewrite E. auto.
Qed.

(** All phases unchecked (with durations entered) and no review days,
    over a timeline that holds dates. *)
Lemma zero_total_leaves_timeline_witness :
  let props := [("unit", Phase false (Num 4)); ("load", Phase false (Num 9))]%string in
  let p := mkPage (mkTimeline "2026-01-05" "2026-01-19" "staging") [] in
  specTotalDays (map snd props) (Num 0) = 0
  /\ (autoCalculateTimeline (Obj props) (Num 0) (mkDate 20759 0) p = p
      /\ start (timeline (autoCalculateTimeline (Obj props) (Num 0) (mkDate 20759 0) p))
         = start (timeline p)
      /\ end_ (timeline (autoCalculateTimeline (Obj props) (Num 0) (mkDate 20759 0) p))
         = end_ (timeline p)).
Proof.
  cbn zeta. split; [reflexivity |].
  apply (zero_total_leaves_timeline
           [("unit", Phase false (Num 4)); ("load", Phase false (Num 9))]%string
           (Num 0) (mkDate 20759 0)
           (mkPage (mkTimeline "2026-01-05" "2026-01-19" "staging") [])).
  reflexivity.
Defined.

(** C7.  The effect depends on the phases and the review days only
    through the sum of the durations of the enabled phases plus the review
    days; a disabled phase adds nothing to that sum whatever its duration;
    and phases [A] (enabled, 3 days), [B] (disabled, 100 days) with 2
    review days give the same page as a single enabled phase of 5 days
    with no review days. *)
Theorem disabled_phases_contribute_nothing :
  (forall props reviewDays now p,
      autoCalculateTimeline (Obj props) reviewDays now p =
      let total := specTotalDays (map snd props) reviewDays in
      if 0 <? total
      then setTimeline (withDates now (addBusinessDays now total)) p
      else p)
  /\ (forall before after days reviewDays,
         specTotalDays (before ++ Phase false days :: after) reviewDays =
         specTotalDays (before ++ after) reviewDays)
  /\ (forall now p,
         autoCalculateTimeline
           (Obj [("A", Phase true (Num 3)); ("B", Phase false (Num 100))]%string)
           (Num 2) now p =
         autoCalculateTimeline
           (Obj [("A", Phase true (Num 5))]%string) (Num 0) now p).
Proof.
  split; [| split].
  - apply autoCalculateTimeline_Obj.
  - intros before after days reviewDays. unfold specTotalDays.
    now rewrite !enabledDurations_app.
  - intros now p. now rewrite !autoCalculateTimeline_Obj.
Qed.

(** The [try] block throws exactly on a [masterChecks] that is [null] or
    [undefined]. *)
Lemma tryBlock_throws_iff (masterChecks : MasterChecks) (reviewDays : Numeric)
      (now : Date) (p : Page) :
  (exists error, tryBlock masterChecks reviewDays now p = Throw error)
  <-> masterChecks = Nullish.
Proof.
  split.
  - intros [error H]. destruct masterChecks as [| props]; [reflexivity |].
    unfold tryBlock in H; cbn [Object_values bind] in H.
    destruct (0 <? _) in H; discriminate.
  - intros ->. eexists. reflexivity.
Qed.

(** C8.  When the computation throws, the effect still returns a page
    (nothing propagates), the timeline of that page is the one from
    before, and the console holds one more line, which carries the
    error.  The computation throws only on a [masterChecks] that is
    [null] or [undefined]: malformed phases are skipped by the reducer. *)
Theorem exception_is_logged_and_timeline_kept (masterChecks : MasterChecks)
        (reviewDays : Numeric) (now : Date) (p : Page) (error : string) :
  tryBlock masterChecks reviewDays now p = Throw error ->
  timeline (autoCalculateTimeline masterChecks reviewDays now p) = timeline p
  /\ console (autoCalculateTimeline masterChecks reviewDays now p) =
     console p ++ [append "Error calculating timeline:" (append " " error)]
  /\ masterChecks = Nullish.
Proof.
  intros Hthrow. unfold autoCalculateTimeline. rewrite Hthrow.
  repeat split. apply (tryBlock_throws_iff masterChecks reviewDays now p).
  now exists error.
Qed.

(** A draft without [masterChecks] was loaded. *)
Lemma exception_is_logged_and_timeline_kept_witness :
  let p := mkPage (mkTimeline "2026-01-05" "2026-01-19" "staging") [] in
  let error := "TypeError: Cannot convert undefined or null to object"%string in
  tryBlock Nullish (Num 3) (mkDate 20759 0) p = Throw error
  /\ (timeline (autoCalculateTimeline Nullish (Num 3) (mkDate 20759 0) p)
      = timeline p
      /\ console (autoCalculateTimeline Nullish (Num 3) (mkDate 20759 0) p) =
         console p ++ [append "Error calculating timeline:" (append " " error)]
      /\ Nullish = Nullish).
Proof.
  cbn zeta. split; [reflexivity |].
  apply (exception_is_logged_and_timeline_kept
           Nullish (Num 3) (mkDate 20759 0)
           (mkPage (mkTimeline "2026-01-05" "2026-01-19" "staging") [])
           "TypeError: Cannot convert undefined or null to object").
  reflexivity.
Defined.

(** C10.  When the total is positive the effect writes the start and the
    end of the timeline (today, and today plus that many business days)
    and nothing else: the dependencies and the console keep their
    values. *)
Theorem output_overwrites_only_start_and_end
        (props : list (string * PhaseValue)) (reviewDays : Numeric)
        (now : Date) (p : Page) :
  0 < specTotalDays (map snd props) reviewDays ->
  let p' := autoCalculateTimeline (Obj props) reviewDays now p in
  dependencies (timeline p') = dependencies (timeline p)
  /\ console p' = console p
  /\ start (timeline p') = formatDateToInput now
  /\ end_ (timeline p') =
     formatDateToInput
       (addBusinessDays now (specTotalDays (map snd props) reviewDays)).
Proof.
  intros Hpos. cbn zeta. rewrite autoCalculateTimeline_Obj; cbn zeta.
  apply Z.ltb_lt in Hpos. rewrite Hpos. repeat split.
Qed.

Lemma output_overwrites_only_start_and_end_witness :
  let props := [("A", Phase true (Num 3)); ("B", Phase false (Num 100))]%string in
  let p := mkPage (mkTimeline "" "" "staging") [] in
  0 < specTotalDays (map snd props) (Num 2)
  /\ (let p' := autoCalculateTimeline (Obj props) (Num 2) (mkDate 20759 0) p in
      dependencies (timeline p') = dependencies (timeline p)
      /\ console p' = console p
      /\ start (timeline p') = formatDateToInput (mkDate 20759 0)
      /\ end_ (timeline p') =
         formatDateToInput
           (addBusinessDays (mkDate 20759 0)
                            (specTotalDays (map snd props) (Num 2)))).
Proof.
  cbn zeta. split; [reflexivity |].
  apply (output_overwrites_only_start_and_end
           [("A", Phase true (Num 3)); ("B", Phase false (Num 100))]%string
           (Num 2) (mkDate 20759 0) (mkPage (mkTimeline "" "" "staging") [])).
  reflexivity.
Defined.

(** The same run, evaluated: Monday 2026-11-02 plus five business days. *)
Example timeline_of_five_days :
  timeline
    (autoCalculateTimeline
       (Obj [("A", Phase true (Num 3)); ("B", Phase false (Num 100))]%string)
       (Num 2) (mkDate 20759 0) (mkPage (mkTimeline "" "" "staging") []))
  = mkTimeline "2026-11-02" "2026-11-09" "staging".
Proof. reflexivity. Qed.

(** On the page as it starts (every duration 0, no review day) the effect
    leaves the empty timeline alone. *)
Example initial_page_is_left_alone (now : Date) :
  autoCalculateTimeline initialMasterChecks (Num 0) now
                        (mkPage initialTimeline [])
  = mkPage initialTimeline [].
Proof. reflexivity. Qed.

End Timeline.

(* ================================================================== *)
(** * Properties of the day markers                                    *)
(* ================================================================== *)

Section DayMarkers.
Import DetailScreen.
Local Open Scope Q_scope.

Variable DAYS : list string.
Variable SECTIONS : list DetailSection.

Let N : nat := List.length DAYS.

Lemma activeDay_onProgressChange (v : Q) (s : Screen) :
  activeDay (onProgressChange DAYS SECTIONS v s) = newActiveDay DAYS v.
Proof.
  unfold onProgressChange; cbn zeta. now destruct (findIndex _ _).
Qed.

Lemma scanDays_Some (pp : Q) (k i : nat) :
  scanDays DAYS pp k = Some i ->
  (i < k)%nat
  /\ reached DAYS pp i = true
  /\ forall j, (i < j < k)%nat -> reached DAYS pp j = false.
Proof.
  induction k as [| k IH]; cbn [scanDays]; [discriminate |].
  destruct (reached DAYS pp k) eqn:Hk.
  - intros [= <-]. repeat split; [lia | exact Hk | intros j Hj; lia].
  - intros Hscan. destruct (IH Hscan) as (Hlt & Hi & Habove).
    repeat split; [lia | exact Hi |].
    intros j Hj. destruct (Nat.eq_dec j k) as [-> | Hne]; [exact Hk |].
    apply Habove. lia.
Qed.

Lemma scanDays_None (pp : Q) (k : nat) :
  scanDays DAYS pp k = None ->
  forall j, (j < k)%nat -> reached DAYS pp j = false.
Proof.
  induction k as [| k IH]; cbn [scanDays]; intros Hscan j Hj; [lia |].
  destruct (reached DAYS pp k) eqn:Hk; [discriminate |].
  destruct (Nat.eq_dec j k) as [-> | Hne]; [exact Hk |].
  apply IH; [exact Hscan | lia].
Qed.

(** The index is a marker as soon as there is one. *)
Lemma newActiveDay_lt (v : Q) : (1 <= N)%nat -> (newActiveDay DAYS v < N)%nat.
Proof.
  intros HN. unfold newActiveDay; cbn zeta.
  destruct (scanDays DAYS (v * 100) (numDays DAYS)) as [i |] eqn:Hscan.
  - apply scanDays_Some in Hscan. exact (proj1 Hscan).
  - exact HN.
Qed.

Section AtLeastTwo.
Hypothesis HN : (2 <= N)%nat.

Lemma denominator_pos : 0 < inject_Z (Z.of_nat N - 1).
Proof.
  change 0 with (inject_Z 0). rewrite <- Zlt_Qlt. lia.
Qed.

(** With two markers or more the test of the loop is the comparison of
    the specification. *)
Lemma reached_spec (pp : Q) (i : nat) :
  reached DAYS pp i = true <-> specPosition N i <= pp.
Proof.
  unfold reached, dayPosition, numDays; cbn zeta. fold N.
  destruct (Z.eqb_spec (Z.of_nat N - 1) 0) as [E | _]; [lia |].
  apply Qle_bool_iff.
Qed.

Lemma reached_false_spec (pp : Q) (i : nat) :
  reached DAYS pp i = false <-> ~ specPosition N i <= pp.
Proof.
  rewrite <- reached_spec. destruct (reached DAYS pp i); intuition congruence.
Qed.

Lemma specPosition_first : specPosition N 0 == 0.
Proof. unfold specPosition. cbn [Z.of_nat]. unfold Qdiv. ring. Qed.

Lemma specPosition_last : specPosition N (N - 1) == 100.
Proof.
  unfold specPosition.
  replace (Z.of_nat (N - 1)) with (Z.of_nat N - 1)%Z by lia.
  set (x := inject_Z (Z.of_nat N - 1)).
  assert (Hx : ~ x == 0).
  { intros E. pose proof denominator_pos as Hp. fold x in Hp.
    rewrite E in Hp. now apply Qlt_irrefl in Hp. }
  field. exact Hx.
Qed.

Lemma specPosition_pos (i : nat) : (1 <= i)%nat -> 0 < specPosition N i.
Proof.
  intros Hi. unfold specPosition.
  apply Qmult_lt_0_compat; [| reflexivity].
  apply Qlt_shift_div_l; [apply denominator_pos |].
  rewrite Qmult_0_l. change 0 with (inject_Z 0). rewrite <- Zlt_Qlt. lia.
Qed.

(** What the scan returns, in the words of the specification. *)
Lemma newActiveDay_spec (v : Q) :
  let r := newActiveDay DAYS v in
  (forall i, (i < N)%nat -> specPosition N i <= v * 100 ->
             (i <= r)%nat /\ specPosition N r <= v * 100)
  /\ ((forall i, (i < N)%nat -> ~ specPosition N i <= v * 100) -> r = 0%nat).
Proof.
  unfold newActiveDay, numDays; cbn zeta. fold N.
  destruct (scanDays DAYS (v * 100) N) as [r |] eqn:Hscan.
  - apply scanDays_Some in Hscan. destruct Hscan as (Hlt & Hr & Habove).
    split.
    + intros i Hi Hreach. split; [| now apply reached_spec].
      destruct (le_lt_dec i r) as [Hle | Hgt]; [exact Hle |].
      apply reached_spec in Hreach.
      rewrite (Habove i (conj Hgt Hi)) in Hreach. discriminate.
    + intros Hnone. apply reached_spec in Hr.
      now destruct (Hnone r Hlt).
  - split; [| reflexivity].
    intros i Hi Hreach. apply reached_spec in Hreach.
    rewrite (scanDays_None _ _ Hscan i Hi) in Hreach. discriminate.
Qed.

Lemma newActiveDay_at_0 : newActiveDay DAYS 0 = 0%nat.
Proof.
  pose proof (newActiveDay_spec 0) as [Hhigh _]; cbn zeta in Hhigh.
  destruct (Hhigh 0%nat) as [_ Hr]; [lia | |].
  - rewrite specPosition_first. rewrite Qmult_0_l. apply Qle_refl.
  - destruct (newActiveDay DAYS 0) as [| r]; [reflexivity |].
    pose proof (specPosition_pos (S r) ltac:(lia)) as Hpos.
    rewrite Qmult_0_l in Hr.
    exfalso. exact (Qlt_not_le _ _ Hpos Hr).
Qed.

Lemma newActiveDay_at_1 : newActiveDay DAYS 1 = (N - 1)%nat.
Proof.
  pose proof (newActiveDay_spec 1) as [Hhigh _]; cbn zeta in Hhigh.
  destruct (Hhigh (N - 1)%nat) as [Hle _]; [lia | |].
  - rewrite specPosition_last. rewrite Qmult_1_l. apply Qle_refl.
  - pose proof (newActiveDay_lt 1 ltac:(lia)). lia.
Qed.

End AtLeastTwo.
End DayMarkers.

(* ================================================================== *)
(** * Rounding in binary64                                             *)
(* ================================================================== *)

Section Binary64Rounding.
Import Binary64.

Lemma digits2_pos_size (p : positive) : digits2_pos p = Pos.size p.
Proof. induction p as [p IH | p IH |]; cbn; congruence. Qed.

Lemma digits2_pos_bounds (p : positive) :
  2 ^ (Zpos (digits2_pos p) - 1) <= Zpos p < 2 ^ Zpos (digits2_pos p).
Proof.
  rewrite digits2_pos_size.
  pose proof (Pos.size_gt p) as Hgt. pose proof (Pos.size_le p) as Hle.
  apply Pos2Z.pos_lt_pos in Hgt. apply Pos2Z.pos_le_pos in Hle.
  rewrite Pos2Z.inj_pow in Hgt, Hle.
  change (Zpos p~0) with (2 * Zpos p) in Hle.
  replace (2 ^ Zpos (Pos.size p)) with (2 * 2 ^ (Zpos (Pos.size p) - 1)) in Hle.
  2:{ rewrite <- Z.pow_succ_r by lia. f_equal. lia. }
  lia.
Qed.

Lemma fexp_eq (e : Z) : fexp prec emax e = Z.max (e - 53) (-1074).
Proof. reflexivity. Qed.

Lemma shr_m_shr_1 (mrs : shr_record) : shr_m (shr_1 mrs) = Z.quot2 (shr_m mrs).
Proof. destruct mrs as [[| [p | p |] | [p | p |]] r s]; reflexivity. Qed.

Lemma shr_m_iter (k : positive) (mrs : shr_record) :
  shr_m (iter_pos shr_1 k mrs) = Pos.iter Z.quot2 (shr_m mrs) k.
Proof.
  revert mrs. induction k as [k IH | k IH |]; intros mrs; cbn [iter_pos Pos.iter].
  - rewrite !IH, shr_m_shr_1. now rewrite <- !Pos.iter_swap.
  - now rewrite !IH.
  - apply shr_m_shr_1.
Qed.

Lemma quot2_nonneg (m : Z) : 0 <= m -> Z.quot2 m = m / 2.
Proof.
  intros Hm. rewrite <- Z.div2_div.
  destruct m as [| [p | p |] | p]; try reflexivity. lia.
Qed.

Lemma iter_quot2 (k : positive) (m : Z) :
  0 <= m -> Pos.iter Z.quot2 m k = m / 2 ^ Zpos k.
Proof.
  intros Hm. induction k as [| k IH] using Pos.peano_ind.
  - cbn [Pos.iter]. now rewrite quot2_nonneg.
  - rewrite Pos.iter_succ, IH.
    rewrite quot2_nonneg.
    + rewrite Pos2Z.inj_succ, Z.pow_succ_r by lia.
      rewrite Z.div_div by lia. f_equal. lia.
    + apply Z.div_pos; [lia |]. apply Z.pow_pos_nonneg; lia.
Qed.

(** Shifting a mantissa right by fewer places than it has digits leaves
    a positive mantissa. *)
Lemma shr_keeps_positive (p : positive) (e n : Z) (l : location) :
  n < Zpos (digits2_pos p) ->
  exists p', shr_m (fst (shr (shr_record_of_loc (Zpos p) l) e n)) = Zpos p'
             /\ snd (shr (shr_record_of_loc (Zpos p) l) e n) = e + Z.max n 0.
Proof.
  intros Hn. destruct n as [| k | k]; cbn [shr fst snd].
  - exists p. split; [now destruct l as [| []] | lia].
  - rewrite shr_m_iter.
    replace (shr_m (shr_record_of_loc (Zpos p) l)) with (Zpos p)
      by now destruct l as [| []].
    rewrite iter_quot2 by lia.
    pose proof (digits2_pos_bounds p) as [Hlow _].
    assert (Hpow : 2 ^ Zpos k <= Zpos p).
    { apply Z.le_trans with (2 ^ (Zpos (digits2_pos p) - 1)); [| exact Hlow].
      apply Z.pow_le_mono_r; lia. }
    assert (Hq : 1 <= Zpos p / 2 ^ Zpos k).
    { apply Z.div_le_lower_bound; [apply Z.pow_pos_nonneg; lia | lia]. }
    destruct (Zpos p / 2 ^ Zpos k) as [| q | q] eqn:E; try lia.
    exists q. split; [reflexivity | lia].
  - exists p. split; [now destruct l as [| []] | lia].
Qed.

Lemma shr_fexp_keeps_positive (p : positive) (e : Z) (l : location) :
  -1074 < Zpos (digits2_pos p) + e ->
  exists mrs e' p',
    shr_fexp prec emax (Zpos p) e l = (mrs, e')
    /\ shr_m mrs = Zpos p' /\ -1074 <= e'.
Proof.
  intros He. unfold shr_fexp. cbn [Zdigits2]. rewrite fexp_eq.
  set (n := Z.max (Zpos (digits2_pos p) + e - 53) (-1074) - e).
  destruct (shr_keeps_positive p e n l) as (p' & Hm & Hsnd); [subst n; lia |].
  destruct (shr (shr_record_of_loc (Zpos p) l) e n) as [mrs e'] eqn:E.
  cbn [fst snd] in Hm, Hsnd.
  exists mrs, e', p'. repeat split; [exact Hm |]. subst n; lia.
Qed.

Lemma round_nearest_even_positive (p : positive) (l : location) :
  exists p', round_nearest_even (Zpos p) l = Zpos p'.
Proof.
  destruct l as [| []]; cbn [round_nearest_even]; eauto.
  - destruct (Z.even (Zpos p)); eauto. exists (p + 1)%positive. reflexivity.
  - exists (p + 1)%positive. reflexivity.
Qed.

(** Rounding a positive mantissa that is not below the smallest number
    of the format gives a number above zero. *)
Lemma binary_round_aux_aboveZero (p : positive) (e : Z) (l : location) :
  -1074 < Zpos (digits2_pos p) + e ->
  aboveZero (binary_round_aux prec emax false (Zpos p) e l).
Proof.
  intros He. unfold binary_round_aux.
  destruct (shr_fexp_keeps_positive p e l He) as (mrs1 & e1 & p1 & -> & Hm1 & He1).
  rewrite Hm1.
  destruct (round_nearest_even_positive p1 (loc_of_shr_record mrs1)) as (p2 & ->).
  destruct (shr_fexp_keeps_positive p2 e1 loc_Exact) as (mrs2 & e2 & p3 & -> & Hm2 & He2).
  { pose proof (Pos2Z.is_pos (digits2_pos p2)). lia. }
  rewrite Hm2. destruct (e2 <=? emax - prec); cbn; [exact He2 | exact I].
Qed.

Lemma digits2_pos_iter_xO (p k : positive) :
  digits2_pos (Pos.iter xO p k) = (digits2_pos p + k)%positive.
Proof.
  induction k as [| k IH] using Pos.peano_ind.
  - cbn. lia.
  - rewrite Pos.iter_succ. cbn [digits2_pos]. rewrite IH. lia.
Qed.

(** A mantissa of 53 digits with an exponent of the format is not
    rounded. *)
Lemma binary_round_aux_exact (m : positive) (e : Z) :
  Zpos (digits2_pos m) = 53 -> -1074 <= e <= 971 ->
  binary_round_aux prec emax false (Zpos m) e loc_Exact = S754_finite false m e.
Proof.
  intros Hd He. unfold binary_round_aux, shr_fexp. cbn [Zdigits2].
  rewrite fexp_eq, Hd.
  replace (Z.max (53 + e - 53) (-1074) - e) with 0 by lia.
  cbn [shr shr_record_of_loc shr_m loc_of_shr_record round_nearest_even Zdigits2].
  rewrite fexp_eq, Hd.
  replace (Z.max (53 + e - 53) (-1074) - e) with 0 by lia.
  cbn [shr shr_record_of_loc shr_m].
  replace (e <=? emax - prec) with true; [reflexivity |].
  symmetry. apply Z.leb_le. unfold emax, prec. lia.
Qed.

(** An integer from 1 to 2^53 - 1 is a number of its own value: a
    mantissa of 53 digits and an exponent from -52 to 0. *)
Lemma ofZ_small (p : positive) :
  Zpos p < 2 ^ 53 ->
  exists m e, ofZ (Zpos p) = S754_finite false m e
              /\ Zpos (digits2_pos m) = 53 /\ -52 <= e <= 0.
Proof.
  intros Hp. unfold ofZ, binary_normalize, binary_round.
  rewrite fexp_eq.
  pose proof (digits2_pos_bounds p) as [Hlow _].
  assert (Hd : Zpos (digits2_pos p) <= 53).
  { destruct (Z_le_gt_dec (Zpos (digits2_pos p)) 53) as [H | H]; [exact H |].
    exfalso.
    assert (2 ^ 53 <= 2 ^ (Zpos (digits2_pos p) - 1))
      by (apply Z.pow_le_mono_r; lia).
    lia. }
  unfold shl_align.
  replace (Z.max (Zpos (digits2_pos p) + 0 - 53) (-1074) - 0)
    with (Zpos (digits2_pos p) - 53) by lia.
  replace (Z.max (Zpos (digits2_pos p) + 0 - 53) (-1074))
    with (Zpos (digits2_pos p) - 53) by lia.
  destruct (Zpos (digits2_pos p) - 53) as [| k | k] eqn:E; try lia.
  - exists p, 0. rewrite binary_round_aux_exact by lia.
    repeat split; lia.
  - exists (Pos.iter xO p k), (Zneg k).
    assert (Hdk : Zpos (digits2_pos (Pos.iter xO p k)) = 53).
    { rewrite digits2_pos_iter_xO. lia. }
    rewrite binary_round_aux_exact by lia.
    repeat split; lia.
Qed.

Lemma div_eucl_positive (a b : positive) :
  Zpos b <= Zpos a ->
  exists q r, Z.div_eucl (Zpos a) (Zpos b) = (Zpos q, r).
Proof.
  intros Hab.
  pose proof (Z.div_eucl_eq (Zpos a) (Zpos b) ltac:(lia)) as Heq.
  pose proof (Z.mod_pos_bound (Zpos a) (Zpos b) ltac:(lia)) as Hmod.
  unfold Z.modulo in Hmod.
  destruct (Z.div_eucl (Zpos a) (Zpos b)) as [q r].
  destruct q as [| q | q]; [nia | eauto | nia].
Qed.

(** The quotient of two integers from 1 to 2^53 - 1 is above zero. *)
Lemma div_aboveZero (m1 m2 : positive) (e1 e2 : Z) :
  Zpos (digits2_pos m1) = 53 -> Zpos (digits2_pos m2) = 53 ->
  -52 <= e1 <= 0 -> -52 <= e2 <= 0 ->
  aboveZero (div (S754_finite false m1 e1) (S754_finite false m2 e2)).
Proof.
  intros Hd1 Hd2 He1 He2. unfold div, SFdiv, SFdiv_core_binary.
  cbn [Zdigits2 xorb]. rewrite fexp_eq, Hd1, Hd2.
  replace (Z.min (Z.max (53 + e1 - (53 + e2) - 53) (-1074)) (e1 - e2))
    with (e1 - e2 - 53) by lia.
  replace (e1 - e2 - (e1 - e2 - 53)) with 53 by lia.
  pose proof (digits2_pos_bounds m1) as [Hlow1 _].
  pose proof (digits2_pos_bounds m2) as [_ Hup2].
  rewrite Hd1 in Hlow1. rewrite Hd2 in Hup2.
  rewrite Z.shiftl_mul_pow2 by lia.
  assert (Hpos : exists a, Zpos m1 * 2 ^ 53 = Zpos a /\ Zpos m2 <= Zpos a).
  { destruct (Zpos m1 * 2 ^ 53) as [| a | a] eqn:E; try lia.
    exists a. split; [reflexivity |]. nia. }
  destruct Hpos as (a & -> & Hle).
  destruct (div_eucl_positive a m2 Hle) as (q & r & ->).
  apply binary_round_aux_aboveZero.
  pose proof (Pos2Z.is_pos (digits2_pos q)). lia.
Qed.

Lemma mul_hundred_aboveZero (x : number) :
  aboveZero x -> aboveZero (mul x hundred).
Proof.
  destruct x as [s | [|] | | [|] m e]; cbn [aboveZero]; try contradiction.
  - intros _. exact I.
  - intros He.
    change hundred with (S754_finite false 7036874417766400 (-46)).
    unfold mul, SFmul. cbn [xorb].
    apply binary_round_aux_aboveZero.
    pose proof (digits2_pos_bounds (m * 7036874417766400)) as [_ Hup].
    assert (Hd : 52 < Zpos (digits2_pos (m * 7036874417766400))).
    { apply (Z.pow_lt_mono_r_iff 2); [lia | lia |].
      apply Z.le_lt_trans with (Zpos (m * 7036874417766400)); [| exact Hup].
      rewrite Pos2Z.inj_mul. change (2 ^ 52) with 4503599627370496. lia. }
    lia.
Qed.

Lemma geb_zero_aboveZero (x : number) : aboveZero x -> geb zero x = false.
Proof.
  destruct x as [s | [|] | | [|] m e]; cbn [aboveZero]; try contradiction;
    reflexivity.
Qed.

Lemma div_same (m : positive) (e : Z) :
  div (S754_finite false m e) (S754_finite false m e) = one.
Proof.
  unfold div, SFdiv, SFdiv_core_binary. cbn [Zdigits2 xorb].
  rewrite !Z.sub_diag.
  change (Z.min (fexp prec emax 0) 0) with (-53).
  change (0 - -53) with 53.
  rewrite Z.shiftl_mul_pow2 by lia.
  assert (E : Z.div_eucl (Zpos m * 2 ^ 53) (Zpos m) = (2 ^ 53, 0)).
  { pose proof (Z.div_eucl_eq (Zpos m * 2 ^ 53) (Zpos m) ltac:(lia)) as Heq.
    pose proof (Z.mod_pos_bound (Zpos m * 2 ^ 53) (Zpos m) ltac:(lia)) as Hmod.
    unfold Z.modulo in Hmod.
    destruct (Z.div_eucl (Zpos m * 2 ^ 53) (Zpos m)) as [q r].
    assert (q = 2 ^ 53) by nia. subst q. f_equal. lia. }
  rewrite E. unfold new_location.
  destruct (Z.even (Zpos m)); reflexivity.
Qed.

End Binary64Rounding.

(* ================================================================== *)
(** * Properties of the day markers in binary64                        *)
(* ================================================================== *)

Section DayMarkersBinary64.
Import DetailScreen Binary64.

Variable DAYS : list string.
Variable SECTIONS : list DetailSection.

Let N : nat := List.length DAYS.

Lemma activeDay_onProgressChange64 (v : number) (s : Screen) :
  activeDay (DetailScreenBinary64.onProgressChange DAYS SECTIONS v s)
  = DetailScreenBinary64.newActiveDay DAYS v.
Proof.
  unfold DetailScreenBinary64.onProgressChange; cbn zeta.
  now destruct (findIndex _ _).
Qed.

Lemma scanDays64_Some (pp : number) (k i : nat) :
  DetailScreenBinary64.scanDays DAYS pp k = Some i ->
  (i < k)%nat
  /\ DetailScreenBinary64.reached DAYS pp i = true
  /\ forall j, (i < j < k)%nat -> DetailScreenBinary64.reached DAYS pp j = false.
Proof.
  induction k as [| k IH]; cbn [DetailScreenBinary64.scanDays]; [discriminate |].
  destruct (DetailScreenBinary64.reached DAYS pp k) eqn:Hk.
  - intros [= <-]. repeat split; [lia | exact Hk | intros j Hj; lia].
  - intros Hscan. destruct (IH Hscan) as (Hlt & Hi & Habove).
    repeat split; [lia | exact Hi |].
    intros j Hj. destruct (Nat.eq_dec j k) as [-> | Hne]; [exact Hk |].
    apply Habove. lia.
Qed.

Lemma scanDays64_None (pp : number) (k : nat) :
  DetailScreenBinary64.scanDays DAYS pp k = None ->
  forall j, (j < k)%nat -> DetailScreenBinary64.reached DAYS pp j = false.
Proof.
  induction k as [| k IH]; cbn [DetailScreenBinary64.scanDays];
    intros Hscan j Hj; [lia |].
  destruct (DetailScreenBinary64.reached DAYS pp k) eqn:Hk; [discriminate |].
  destruct (Nat.eq_dec j k) as [-> | Hne]; [exact Hk |].
  apply IH; [exact Hscan | lia].
Qed.

Lemma newActiveDay64_lt (v : number) :
  (1 <= N)%nat -> (DetailScreenBinary64.newActiveDay DAYS v < N)%nat.
Proof.
  intros HN. unfold DetailScreenBinary64.newActiveDay; cbn zeta.
  destruct (DetailScreenBinary64.scanDays DAYS (mul v hundred)
              (DetailScreenBinary64.numDays DAYS)) as [i |] eqn:Hscan.
  - apply scanDays64_Some in Hscan. exact (proj1 Hscan).
  - exact HN.
Qed.

(** What the scan returns: the highest marker that passes the test of
    the loop, the first marker when none does. *)
Lemma newActiveDay64_highest (v : number) :
  let pp := mul v hundred in
  let r := DetailScreenBinary64.newActiveDay DAYS v in
  (forall i, (i < N)%nat -> DetailScreenBinary64.reached DAYS pp i = true ->
             (i <= r)%nat /\ DetailScreenBinary64.reached DAYS pp r = true)
  /\ ((forall i, (i < N)%nat -> DetailScreenBinary64.reached DAYS pp i = false) ->
      r = 0%nat).
Proof.
  cbn zeta. unfold DetailScreenBinary64.newActiveDay; cbn zeta.
  change (DetailScreenBinary64.numDays DAYS) with N.
  destruct (DetailScreenBinary64.scanDays DAYS (mul v hundred) N)
    as [r |] eqn:Hscan.
  - apply scanDays64_Some in Hscan. destruct Hscan as (Hlt & Hr & Habove).
    split.
    + intros i Hi Hreach. split; [| exact Hr].
      destruct (le_lt_dec i r) as [Hle | Hgt]; [exact Hle |].
      rewrite (Habove i (conj Hgt Hi)) in Hreach. discriminate.
    + intros Hnone. rewrite (Hnone r Hlt) in Hr. discriminate.
  - split; [| reflexivity].
    intros i Hi Hreach.
    rewrite (scanDays64_None _ _ Hscan i Hi) in Hreach. discriminate.
Qed.

Section AtLeastTwo64.
Hypothesis HN : (2 <= N)%nat.
Hypothesis Hsmall : Z.of_nat N <= 2 ^ 53.

(** The divisor [numDays - 1] is a number of its own value. *)
Lemma denominator64 :
  exists m e, ofZ (Z.of_nat N - 1) = S754_finite false m e
              /\ Zpos (digits2_pos m) = 53 /\ -52 <= e <= 0.
Proof.
  destruct (Z.of_nat N - 1) as [| p | p] eqn:E; try lia.
  apply ofZ_small. lia.
Qed.

(** Every marker but the first sits above zero. *)
Lemma dayPosition64_aboveZero (i : nat) :
  (1 <= i < N)%nat -> aboveZero (DetailScreenBinary64.dayPosition DAYS i).
Proof.
  intros Hi. unfold DetailScreenBinary64.dayPosition.
  change (DetailScreenBinary64.numDays DAYS) with N.
  destruct denominator64 as (m2 & e2 & -> & Hd2 & He2).
  unfold ofNat. destruct (Z.of_nat i) as [| p | p] eqn:E; try lia.
  destruct (ofZ_small p ltac:(lia)) as (m1 & e1 & -> & Hd1 & He1).
  apply mul_hundred_aboveZero, div_aboveZero; assumption.
Qed.

(** The last marker sits at 100. *)
Lemma dayPosition64_last :
  DetailScreenBinary64.dayPosition DAYS (N - 1) = hundred.
Proof.
  unfold DetailScreenBinary64.dayPosition.
  change (DetailScreenBinary64.numDays DAYS) with N.
  unfold ofNat. replace (Z.of_nat (N - 1)) with (Z.of_nat N - 1) by lia.
  destruct denominator64 as (m & e & -> & _ & _).
  rewrite div_same. reflexivity.
Qed.

Lemma newActiveDay64_at_0 : DetailScreenBinary64.newActiveDay DAYS zero = 0%nat.
Proof.
  unfold DetailScreenBinary64.newActiveDay; cbn zeta.
  change (DetailScreenBinary64.numDays DAYS) with N.
  change (mul zero hundred) with zero.
  destruct (DetailScreenBinary64.scanDays DAYS zero N) as [r |] eqn:Hscan;
    [| reflexivity].
  apply scanDays64_Some in Hscan. destruct Hscan as (Hlt & Hr & _).
  destruct r as [| r]; [reflexivity |].
  unfold DetailScreenBinary64.reached in Hr.
  rewrite geb_zero_aboveZero in Hr; [discriminate |].
  apply dayPosition64_aboveZero. lia.
Qed.

Lemma newActiveDay64_at_1 :
  DetailScreenBinary64.newActiveDay DAYS one = (N - 1)%nat.
Proof.
  unfold DetailScreenBinary64.newActiveDay; cbn zeta.
  change (DetailScreenBinary64.numDays DAYS) with N.
  change (mul one hundred) with hundred.
  replace N with (S (N - 1)) at 1 by lia.
  cbn [DetailScreenBinary64.scanDays].
  unfold DetailScreenBinary64.reached at 1. rewrite dayPosition64_last.
  reflexivity.
Qed.

End AtLeastTwo64.
End DayMarkersBinary64.

Section DayMarkerClaims.
Import DetailScreen Binary64.

(** C3 (as amended).  With the six day markers and no override, the
    progress sequence 0.05, 0.25, 0.45, 0.65, 0.85, 0.99 gives the active
    days 0, 1, 2, 3, 4, 4: the last marker sits at 100% and 99% has not
    reached it. *)
Theorem progress_scenario_active_days :
  activeDays DETAIL_DAYS DETAIL_SECTIONS
             [5 # 100; 25 # 100; 45 # 100; 65 # 100; 85 # 100; 99 # 100]%Q
             initialScreen
  = [0; 1; 2; 3; 4; 4]%nat.
Proof. reflexivity. Qed.

(** C3 as stated fails: the sequence of active days is not 0..5. *)
Lemma progress_scenario_not_0_to_5 :
  activeDays DETAIL_DAYS DETAIL_SECTIONS
             [5 # 100; 25 # 100; 45 # 100; 65 # 100; 85 # 100; 99 # 100]%Q
             initialScreen
  <> [0; 1; 2; 3; 4; 5]%nat.
Proof. vm_compute. discriminate. Qed.

(** C4 (as amended).  With [N >= 2] markers (no more than 2^53, as in
    every array), an update with progress [v], any binary64 number, sets
    the active day to the highest index [i] for which the comparison
    [v * 100 >= (i / (N - 1)) * 100] holds as the handler evaluates it,
    every product and quotient rounded to the nearest number, and to 0
    when it holds for no index; at progress 0 the active day is 0 and at
    progress 1 it is [N - 1]. *)
Theorem handler_selects_highest_marker_reached_in_binary64
        (DAYS : list string) (SECTIONS : list DetailSection)
        (v : number) (s : Screen) :
  (2 <= List.length DAYS)%nat ->
  Z.of_nat (List.length DAYS) <= 2 ^ 53 ->
  let N := List.length DAYS in
  let reaches (i : nat) : Prop :=
    geb (mul v hundred)
        (mul (div (ofNat i) (ofZ (Z.of_nat N - 1))) hundred) = true in
  let r :=
    activeDay (DetailScreenBinary64.onProgressChange DAYS SECTIONS v s) in
  (r < N)%nat
  /\ (forall i, (i < N)%nat -> reaches i -> (i <= r)%nat /\ reaches r)
  /\ ((forall i, (i < N)%nat -> ~ reaches i) -> r = 0%nat)
  /\ activeDay (DetailScreenBinary64.onProgressChange DAYS SECTIONS zero s)
     = 0%nat
  /\ activeDay (DetailScreenBinary64.onProgressChange DAYS SECTIONS one s)
     = (N - 1)%nat.
Proof.
  intros HN Hsmall. cbn zeta. rewrite !activeDay_onProgressChange64.
  pose proof (newActiveDay64_highest DAYS v) as [Hhigh Hnone];
    cbn zeta in Hhigh, Hnone.
  repeat split.
  - apply newActiveDay64_lt. lia.
  - now apply (Hhigh i).
  - now apply (Hhigh i).
  - intros Hnever. apply Hnone. intros i Hi.
    apply not_true_is_false. exact (Hnever i Hi).
  - now apply newActiveDay64_at_0.
  - now apply newActiveDay64_at_1.
Qed.

(** The six day markers at progress 0.5. *)
Lemma handler_selects_highest_marker_reached_in_binary64_witness :
  ((2 <= List.length DETAIL_DAYS)%nat
   /\ Z.of_nat (List.length DETAIL_DAYS) <= 2 ^ 53)
  /\ (let N := List.length DETAIL_DAYS in
      let reaches (i : nat) : Prop :=
        geb (mul (decimal 1 2) hundred)
            (mul (div (ofNat i) (ofZ (Z.of_nat N - 1))) hundred) = true in
      let r :=
        activeDay (DetailScreenBinary64.onProgressChange
                     DETAIL_DAYS DETAIL_SECTIONS (decimal 1 2) initialScreen) in
      (r < N)%nat
      /\ (forall i, (i < N)%nat -> reaches i -> (i <= r)%nat /\ reaches r)
      /\ ((forall i, (i < N)%nat -> ~ reaches i) -> r = 0%nat)
      /\ activeDay (DetailScreenBinary64.onProgressChange
                      DETAIL_DAYS DETAIL_SECTIONS zero initialScreen)
         = 0%nat
      /\ activeDay (DetailScreenBinary64.onProgressChange
                      DETAIL_DAYS DETAIL_SECTIONS one initialScreen)
         = (N - 1)%nat).
Proof.
  split; [split; [cbn; lia | cbn [DETAIL_DAYS List.length]; lia] |].
  apply (handler_selects_highest_marker_reached_in_binary64
           DETAIL_DAYS DETAIL_SECTIONS (decimal 1 2) initialScreen).
  - cbn; lia.
  - cbn [DETAIL_DAYS List.length]. lia.
Defined.

(** C4 as stated fails.  The progress value 0.19999999999999998, the
    largest number below 0.2, is in [0,1] and its hundredfold is less
    than 20, the position of the second of six markers; but the handler's
    product [v * 100] rounds to 20, and the handler selects that marker,
    index 1, where the highest index [i] with [i/(N-1)*100 <= v*100] is
    0. *)
Lemma progress_below_one_fifth_selects_second_marker :
  valid justBelowOneFifth = true
  /\ SFpred prec emax (decimal 2 10) = justBelowOneFifth
  /\ toQ justBelowOneFifth = Some (7205759403792793 # 36028797018963968)%Q
  /\ (0 <= 7205759403792793 # 36028797018963968)%Q
  /\ (7205759403792793 # 36028797018963968 <= 1)%Q
  /\ activeDay (DetailScreenBinary64.onProgressChange
                  DETAIL_DAYS DETAIL_SECTIONS justBelowOneFifth initialScreen)
     = 1%nat
  /\ (forall i, (1 <= i < 6)%nat ->
        ~ (specPosition 6 i
           <= (7205759403792793 # 36028797018963968) * 100)%Q).
Proof.
  split; [vm_compute; reflexivity |].
  split; [vm_compute; reflexivity |].
  split; [vm_compute; reflexivity |].
  split; [vm_compute; discriminate |].
  split; [vm_compute; discriminate |].
  split; [vm_compute; reflexivity |].
  intros i Hi.
  assert (Hcases : i = 1%nat \/ i = 2%nat \/ i = 3%nat \/ i = 4%nat \/ i = 5%nat)
    by lia.
  destruct Hcases as [-> | [-> | [-> | [-> | ->]]]];
    vm_compute; intros H; apply H; reflexivity.
Qed.

(** The recorded scenario of C3 gives the same days in binary64, and so
    do the two ends and the middle. *)
Example progress_scenario_in_binary64 :
  DetailScreenBinary64.activeDays
    DETAIL_DAYS DETAIL_SECTIONS
    [decimal 5 100; decimal 25 100; decimal 45 100; decimal 65 100;
     decimal 85 100; decimal 99 100]
    initialScreen
  = [0; 1; 2; 3; 4; 4]%nat
  /\ map (DetailScreenBinary64.newActiveDay DETAIL_DAYS)
         [zero; decimal 1 2; one] = [0; 2; 5]%nat.
Proof. split; vm_compute; reflexivity. Qed.

(** The six markers, evaluated at the two ends and in the middle. *)
Example six_markers_at_ends :
  map (newActiveDay DETAIL_DAYS) [0; 1 # 2; 1]%Q = [0; 2; 5]%nat.
Proof. reflexivity. Qed.

End DayMarkerClaims.

(* ================================================================== *)
(** * Properties of the outline scroll-spy                             *)
(* ================================================================== *)

Section OutlineSpyProperties.
Import OutlineSpy.

(** While the flag is set, [handleScroll] returns at once. *)
Lemma handleScroll_suppressed (l : Layout) (s : Spy) :
  isManualScroll s = true -> handleScroll l s = s.
Proof. intros H. unfold handleScroll. now rewrite H. Qed.

(** Without the flag it selects what the layout says. *)
Lemma handleScroll_auto (l : Layout) (s : Spy) (id : string) :
  isManualScroll s = false -> detectSection l = Some id ->
  activeSection (handleScroll l s) = id.
Proof. intros Hflag Hdet. unfold handleScroll. now rewrite Hflag, Hdet. Qed.

Lemma scrollToSection_overriding (id : string) (doc : Document) (s : Spy)
      (el : Element) (container : Container) :
  getElementById doc id = Some el -> current doc = Some container ->
  timers s = [] ->
  overriding id (clock s + OVERRIDE_MS) (scrollToSection id doc s).
Proof.
  intros Hel Hc Ht. unfold scrollToSection. rewrite Hel, Hc; cbn.
  rewrite Ht. repeat split.
Qed.

Lemma advanceTo_before_deadline (id : string) (deadline t : Z) (s : Spy) :
  overriding id deadline s -> t < deadline ->
  overriding id deadline (advanceTo t s).
Proof.
  intros (Hid & Hflag & Ht) Hlt. unfold overriding, advanceTo; cbn.
  rewrite Ht; cbn [filter].
  replace (deadline <=? t) with false by (symmetry; apply Z.leb_gt; lia).
  cbn. auto.
Qed.

Lemma advanceTo_after_deadline (id : string) (deadline t : Z) (s : Spy) :
  overriding id deadline s -> deadline <= t ->
  activeSection (advanceTo t s) = id
  /\ isManualScroll (advanceTo t s) = false
  /\ timers (advanceTo t s) = [].
Proof.
  intros (Hid & Hflag & Ht) Hle. unfold advanceTo; cbn.
  rewrite Ht; cbn [filter].
  replace (deadline <=? t) with true by (symmetry; apply Z.leb_le; lia).
  cbn. auto.
Qed.

Lemma step_scroll_keeps_override (id : string) (deadline : Z) (s : Spy)
      (te : Z * Event) :
  overriding id deadline s -> scrollBefore deadline te = true ->
  overriding id deadline (step s te).
Proof.
  intros Hov Hte. destruct te as [t e]. unfold scrollBefore in Hte.
  cbn [fst snd] in Hte. apply andb_true_iff in Hte as [He Ht].
  apply Z.ltb_lt in Ht.
  destruct e as [? ? | l]; [discriminate |].
  unfold step; cbn [fst snd handle].
  pose proof (advanceTo_before_deadline id deadline t s Hov Ht) as Hov'.
  rewrite handleScroll_suppressed; [exact Hov' | apply Hov'].
Qed.

Lemma run_scrolls_keep_override (id : string) (deadline : Z)
      (trace : list (Z * Event)) (s : Spy) :
  overriding id deadline s ->
  forallb (scrollBefore deadline) trace = true ->
  overriding id deadline (run trace s).
Proof.
  revert s. induction trace as [| te trace IH]; intros s Hov Hall.
  - exact Hov.
  - cbn [forallb] in Hall. apply andb_true_iff in Hall as [Hte Hall].
    cbn [run fold_left]. apply IH; [| exact Hall].
    now apply step_scroll_keeps_override.
Qed.

(** A jump to [id] that resolves to an element, made while no timer of
    an earlier jump is pending, sets the active section to [id] at once;
    whatever scroll events arrive before 1000ms have passed, with whatever
    layout, the active section is still [id]; and once 1000ms have passed
    the next scroll event selects the section of its layout. *)
Lemma lone_jump_holds_until_window_elapses
        (id : string) (doc : Document) (s : Spy)
        (el : Element) (container : Container)
        (trace : list (Z * Event)) (t : Z) (l : Layout) (target : string) :
  getElementById doc id = Some el ->
  current doc = Some container ->
  timers s = [] ->
  forallb (scrollBefore (clock s + OVERRIDE_MS)) trace = true ->
  clock s + OVERRIDE_MS <= t ->
  detectSection l = Some target ->
  let s1 := scrollToSection id doc s in
  activeSection s1 = id
  /\ isManualScroll s1 = true
  /\ activeSection (run trace s1) = id
  /\ isManualScroll (run trace s1) = true
  /\ activeSection (handleScroll l (advanceTo t (run trace s1))) = target.
Proof.
  intros Hel Hc Ht Htrace Hlate Hdet. cbn zeta.
  pose proof (scrollToSection_overriding id doc s el container Hel Hc Ht)
    as Hov1.
  pose proof (run_scrolls_keep_override _ _ trace _ Hov1 Htrace) as Hov2.
  destruct (advanceTo_after_deadline _ _ t _ Hov2 Hlate) as (_ & Hflag & _).
  repeat split; try apply Hov1; try apply Hov2.
  now apply handleScroll_auto.
Qed.

(** A click on "schedule" at time 0 with the form scrolled to its top
    (where the layout says "meta"), scroll events at 10ms and 999ms, and
    the next one at 1000ms. *)
Example lone_jump_on_the_sample_document :
  let trace := [(10, Scrolled sampleLayout); (999, Scrolled sampleLayout)] in
  let s1 := scrollToSection "schedule" sampleDocument initialSpy in
  (getElementById sampleDocument "schedule" = Some (mkElement "schedule" 1900)
   /\ current sampleDocument = Some sampleContainer
   /\ timers initialSpy = []
   /\ forallb (scrollBefore (clock initialSpy + OVERRIDE_MS)) trace = true
   /\ clock initialSpy + OVERRIDE_MS <= 1000
   /\ detectSection sampleLayout = Some "meta"%string)
  /\ (activeSection s1 = "schedule"%string
      /\ isManualScroll s1 = true
      /\ activeSection (run trace s1) = "schedule"%string
      /\ isManualScroll (run trace s1) = true
      /\ activeSection
           (handleScroll sampleLayout (advanceTo 1000 (run trace s1)))
         = "meta"%string).
Proof.
  cbn zeta. split.
  - repeat split; try reflexivity; unfold OVERRIDE_MS; cbn; lia.
  - apply (lone_jump_holds_until_window_elapses
             "schedule" sampleDocument initialSpy
             (mkElement "schedule" 1900) sampleContainer
             [(10, Scrolled sampleLayout); (999, Scrolled sampleLayout)]
             1000 sampleLayout "meta");
      try reflexivity; unfold OVERRIDE_MS; cbn; lia.
Qed.

(** Two jumps less than 1000ms apart: the timer of the first runs while
    the second override should still hold, and clears the flag. *)
Lemma first_timer_clears_second_override
      (id1 id2 : string) (doc1 doc2 : Document) (s : Spy)
      (el1 el2 : Element) (c1 c2 : Container) (t1 t2 t : Z) :
  getElementById doc1 id1 = Some el1 -> current doc1 = Some c1 ->
  getElementById doc2 id2 = Some el2 -> current doc2 = Some c2 ->
  timers s = [] -> clock s <= t1 ->
  t1 <= t2 < t1 + OVERRIDE_MS ->
  t1 + OVERRIDE_MS <= t < t2 + OVERRIDE_MS ->
  let s2 := run [(t1, Click id1 doc1); (t2, Click id2 doc2)] s in
  isManualScroll s2 = true
  /\ isManualScroll (advanceTo t s2) = false
  /\ timers (advanceTo t s2) = [t2 + OVERRIDE_MS].
Proof.
  intros Hel1 Hc1 Hel2 Hc2 Ht Hclock H12 Hlate.
  destruct s as [section0 flag0 timers0 clock0 requests0].
  cbn [timers clock] in Ht, Hclock. subst timers0.
  unfold OVERRIDE_MS in *.
  repeat first
    [ rewrite Hel1 | rewrite Hc1 | rewrite Hel2 | rewrite Hc2
    | progress cbv beta iota zeta delta
        [run fold_left step fst snd handle scrollToSection advanceTo
         OVERRIDE_MS timers clock isManualScroll activeSection
         scrollRequests filter app negb]
    | match goal with
      | |- context [Z.leb ?a ?b] => destruct (Z.leb_spec a b); try lia
      end ].
  repeat split. f_equal. lia.
Qed.

(** C2 (the code at the failing input).  Clicks on "schedule" at 0ms and
    on "comments" at 500ms: the override of the second click is on, but at
    1000ms, only 500ms after it, the timer of the first click has cleared
    the flag, the timer of the second is still pending, and a scroll event
    at 1000ms moves the active section away from "comments". *)
Theorem stale_timer_ends_second_override_early :
  let jumps := [(0, Click "schedule" sampleDocument);
                (500, Click "comments" sampleDocument)] in
  activeSection (run jumps initialSpy) = "comments"%string
  /\ isManualScroll (run jumps initialSpy) = true
  /\ isManualScroll (advanceTo 1000 (run jumps initialSpy)) = false
  /\ timers (advanceTo 1000 (run jumps initialSpy)) = [1500]
  /\ activeSection
       (run (jumps ++ [(1000, Scrolled sampleLayout)]) initialSpy)
     = "meta"%string.
Proof. cbn zeta. repeat split. Qed.

(** C5 (the code at the failing input).  A click on "scope" at 0ms and a
    click on "comments" at 400ms: the active section is "comments" at
    once.  A scroll event at 1100ms, 700ms after the second click and so
    within its window of 1000ms, while the smooth scroll passes the
    heading "checklists", moves the active section to "checklists": the
    timer of the first click ran at 1000ms and cleared the flag, and the
    timer of the second click is still pending.  The click on "comments"
    alone holds the section against the same scroll event. *)
Theorem earlier_jump_cuts_the_window_of_the_next :
  let first := (0, Click "scope" sampleDocument) in
  let second := (400, Click "comments" sampleDocument) in
  let contradicting := (1100, Scrolled passingLayout) in
  activeSection (run [first; second] initialSpy) = "comments"%string
  /\ isManualScroll (run [first; second] initialSpy) = true
  /\ 400 <= fst contradicting < 400 + OVERRIDE_MS
  /\ detectSection passingLayout = Some "checklists"%string
  /\ activeSection (run [first; second; contradicting] initialSpy)
     = "checklists"%string
  /\ timers (run [first; second; contradicting] initialSpy) = [1400]
  /\ activeSection (run [second; contradicting] initialSpy)
     = "comments"%string.
Proof.
  cbn zeta. repeat split; try reflexivity; unfold OVERRIDE_MS; cbn; lia.
Qed.

End OutlineSpyProperties.

(* ================================================================== *)
(** * The active marker stays among the markers                        *)
(* ================================================================== *)

Section MarkerRange.
Import DetailScreen.

Lemma feed_activeDay_lt (DAYS : list string) (SECTIONS : list DetailSection)
      (vs : list Q) (s : Screen) :
  (1 <= List.length DAYS)%nat ->
  (activeDay s < List.length DAYS)%nat ->
  (activeDay (feed DAYS SECTIONS vs s) < List.length DAYS)%nat.
Proof.
  intros HN. revert s. induction vs as [| v vs IH]; intros s Hs.
  - exact Hs.
  - cbn [feed fold_left]. apply IH.
    rewrite activeDay_onProgressChange. now apply newActiveDay_lt.
Qed.

Lemma activeDays_lt (DAYS : list string) (SECTIONS : list DetailSection)
      (vs : list Q) (s : Screen) :
  (1 <= List.length DAYS)%nat ->
  Forall (fun d => (d < List.length DAYS)%nat)
         (activeDays DAYS SECTIONS vs s).
Proof.
  intros HN. revert s. induction vs as [| v vs IH]; intros s.
  - constructor.
  - cbn [activeDays]. constructor; [| apply IH].
    rewrite activeDay_onProgressChange. now apply newActiveDay_lt.
Qed.

Lemma isOutlineId_index (id : string) :
  OutlineSpy.isOutlineId id = true ->
  exists k, (k < List.length OutlineSpy.OUTLINE_SECTIONS)%nat
            /\ nth_error OutlineSpy.OUTLINE_SECTIONS k = Some id.
Proof.
  unfold OutlineSpy.isOutlineId. intros H.
  apply existsb_exists in H as (x & Hin & Heq).
  apply String.eqb_eq in Heq. subst x.
  apply In_nth_error in Hin as [k Hk].
  exists k. split; [| exact Hk].
  apply nth_error_Some. rewrite Hk. discriminate.
Qed.

Lemma detectSection_outline (l : OutlineSpy.Layout) (id : string) :
  forallb (fun el => OutlineSpy.isOutlineId (OutlineSpy.elementId el))
          (OutlineSpy.elements l) = true ->
  OutlineSpy.detectSection l = Some id ->
  OutlineSpy.isOutlineId id = true.
Proof.
  intros Hall. rewrite forallb_forall in Hall.
  unfold OutlineSpy.detectSection; cbn zeta.
  destruct (Qle_bool _ _); [intros [= <-]; reflexivity |].
  unfold OutlineSpy.lastAbove.
  destruct (find _ (rev (OutlineSpy.elements l))) as [e |] eqn:Hfind.
  - intros [= <-]. apply find_some in Hfind as [Hin _].
    apply Hall. now apply in_rev.
  - destruct (OutlineSpy.elements l) as [| e rest]; [discriminate |].
    intros [= <-]. apply Hall. now left.
Qed.

Lemma step_outline (s : OutlineSpy.Spy) (te : Z * OutlineSpy.Event) :
  OutlineSpy.validEvent (snd te) = true ->
  OutlineSpy.isOutlineId (OutlineSpy.activeSection s) = true ->
  OutlineSpy.isOutlineId
    (OutlineSpy.activeSection (OutlineSpy.step s te)) = true.
Proof.
  destruct te as [t e]. cbn [snd]. intros Hvalid Hs.
  unfold OutlineSpy.step; cbn [fst snd].
  set (s' := OutlineSpy.advanceTo t s).
  assert (Hs' : OutlineSpy.isOutlineId (OutlineSpy.activeSection s') = true)
    by exact Hs.
  clearbody s'. destruct e as [id doc | l]; cbn [OutlineSpy.handle].
  - unfold OutlineSpy.scrollToSection.
    destruct (OutlineSpy.getElementById doc id); [| exact Hs'].
    destruct (OutlineSpy.current doc); [exact Hvalid | exact Hs'].
  - unfold OutlineSpy.handleScroll.
    destruct (OutlineSpy.isManualScroll s'); [exact Hs' |].
    destruct (OutlineSpy.detectSection l) as [id |] eqn:Hdet; [| exact Hs'].
    cbn. exact (detectSection_outline l id Hvalid Hdet).
Qed.

Lemma run_outline (trace : list (Z * OutlineSpy.Event)) (s : OutlineSpy.Spy) :
  forallb (fun te => OutlineSpy.validEvent (snd te)) trace = true ->
  OutlineSpy.isOutlineId (OutlineSpy.activeSection s) = true ->
  OutlineSpy.isOutlineId
    (OutlineSpy.activeSection (OutlineSpy.run trace s)) = true.
Proof.
  revert s. induction trace as [| te trace IH]; intros s Hall Hs.
  - exact Hs.
  - cbn [forallb] in Hall. apply andb_true_iff in Hall as [Hte Hall].
    cbn [OutlineSpy.run fold_left]. apply IH; [exact Hall |].
    now apply step_outline.
Qed.

(** C9.  The active day is one of the [N >= 1] day markers after
    initialization and after every sequence of progress updates, whatever
    the progress values (below 0 and above 1 included); for the six day
    markers it is at most 5.  In the create modal, after any sequence of
    scroll events and of jumps to outline markers, the active section is
    one of the outline markers. *)
Theorem active_marker_stays_in_range
        (DAYS : list string) (SECTIONS : list DetailSection) (vs : list Q)
        (trace : list (Z * OutlineSpy.Event)) :
  (1 <= List.length DAYS)%nat ->
  forallb (fun te => OutlineSpy.validEvent (snd te)) trace = true ->
  (activeDay initialScreen < List.length DAYS)%nat
  /\ (activeDay (feed DAYS SECTIONS vs initialScreen) < List.length DAYS)%nat
  /\ Forall (fun d => (d < List.length DAYS)%nat)
            (activeDays DAYS SECTIONS vs initialScreen)
  /\ (activeDay (feed DETAIL_DAYS DETAIL_SECTIONS vs initialScreen) <= 5)%nat
  /\ exists k,
      (k < List.length OutlineSpy.OUTLINE_SECTIONS)%nat
      /\ nth_error OutlineSpy.OUTLINE_SECTIONS k =
         Some (OutlineSpy.activeSection
                 (OutlineSpy.run trace OutlineSpy.initialSpy)).
Proof.
  intros HN Htrace. repeat split.
  - exact HN.
  - apply feed_activeDay_lt; [exact HN | exact HN].
  - now apply activeDays_lt.
  - assert (H6 : (1 <= List.length DETAIL_DAYS)%nat) by (cbn; lia).
    pose proof (feed_activeDay_lt DETAIL_DAYS DETAIL_SECTIONS vs
                                  initialScreen H6 H6) as Hlt.
    cbn [DETAIL_DAYS List.length] in Hlt. lia.
  - apply isOutlineId_index. now apply run_outline.
Qed.

(** The six day markers fed with progress values inside and outside
    [0,1]; a jump and two scroll events in the modal. *)
Lemma active_marker_stays_in_range_witness :
  let vs := [-1; 1 # 3; 2; 99 # 100]%Q in
  let trace := [(0, OutlineSpy.Click "schedule" OutlineSpy.sampleDocument);
                (400, OutlineSpy.Scrolled OutlineSpy.sampleLayout);
                (1400, OutlineSpy.Scrolled OutlineSpy.sampleLayout)] in
  ((1 <= List.length DETAIL_DAYS)%nat
   /\ forallb (fun te => OutlineSpy.validEvent (snd te)) trace = true)
  /\ ((activeDay initialScreen < List.length DETAIL_DAYS)%nat
      /\ (activeDay (feed DETAIL_DAYS DETAIL_SECTIONS vs initialScreen)
          < List.length DETAIL_DAYS)%nat
      /\ Forall (fun d => (d < List.length DETAIL_DAYS)%nat)
                (activeDays DETAIL_DAYS DETAIL_SECTIONS vs initialScreen)
      /\ (activeDay (feed DETAIL_DAYS DETAIL_SECTIONS vs initialScreen) <= 5)%nat
      /\ exists k,
          (k < List.length OutlineSpy.OUTLINE_SECTIONS)%nat
          /\ nth_error OutlineSpy.OUTLINE_SECTIONS k =
             Some (OutlineSpy.activeSection
                     (OutlineSpy.run trace OutlineSpy.initialSpy))).
Proof.
  cbn zeta. split.
  - split; [cbn; lia | reflexivity].
  - apply (active_marker_stays_in_range
             DETAIL_DAYS DETAIL_SECTIONS [-1; 1 # 3; 2; 99 # 100]%Q
             [(0, OutlineSpy.Click "schedule" OutlineSpy.sampleDocument);
              (400, OutlineSpy.Scrolled OutlineSpy.sampleLayout);
              (1400, OutlineSpy.Scrolled OutlineSpy.sampleLayout)]).
    + cbn; lia.
    + reflexivity.
Defined.

End MarkerRange.

(* ================================================================== *)
(** * More on [addBusinessDays]                                        *)
(* ================================================================== *)

Section BusinessDayArithmetic.
Import JsDate Scheduler.

Lemma addDays_addDays (d : Date) (a b : Z) :
  addDays (addDays d a) b = addDays d (a + b).
Proof. unfold addDays; cbn [epochDay msOfDay]. f_equal. lia. Qed.

Lemma getDay_addDays (d : Date) (k : Z) :
  getDay (addDays d k) = (getDay d + k) mod 7.
Proof.
  unfold getDay, addDays; cbn [epochDay].
  rewrite Zplus_mod_idemp_l. f_equal. lia.
Qed.

Lemma getDay_range (d : Date) : 0 <= getDay d < 7.
Proof. unfold getDay. apply Z.mod_pos_bound. lia. Qed.

(** One iteration of the loop, as an equation. *)
Lemma addBusinessDays_loop_iter (n : Z) (result : Date) (daysAdded : Z) :
  addBusinessDays_loop n result daysAdded =
  if daysAdded <? n then
    addBusinessDays_loop n (addDays result 1)
      (if isBusinessDay (addDays result 1) then daysAdded + 1 else daysAdded)
  else result.
Proof.
  rewrite addBusinessDays_loop_equation_1.
  destruct (Z_lt_dec daysAdded n) as [Hlt | Hge]; cbn.
  - apply Z.ltb_lt in Hlt. now rewrite Hlt.
  - apply Z.ltb_nlt in Hge. now rewrite Hge.
Qed.

(** The loop sees only the days still to add. *)
Lemma addBusinessDays_loop_shift (n : Z) (result : Date) (daysAdded c : Z) :
  addBusinessDays_loop (n + c) result (daysAdded + c) =
  addBusinessDays_loop n result daysAdded.
Proof.
  funelim (addBusinessDays_loop n result daysAdded).
  - clear Heq Heqcall.
    match goal with
    | IH : forall _ : Z, _ = _ |- _ => rename IH into IHloop
    end.
    rewrite (addBusinessDays_loop_iter (numberOfDays + c)).
    replace (daysAdded + c <? numberOfDays + c) with true
      by (symmetry; apply Z.ltb_lt; lia).
    rewrite <- (IHloop c). f_equal.
    destruct (isBusinessDay (addDays result 1)); lia.
  - rewrite addBusinessDays_loop_iter.
    replace (daysAdded + c <? numberOfDays + c) with false
      by (symmetry; apply Z.ltb_nlt; lia).
    reflexivity.
Qed.

(** Stopping at [n] and going on to [m] is going to [m]. *)
Lemma addBusinessDays_loop_resume (n m : Z) (result : Date) (daysAdded : Z) :
  daysAdded <= n <= m ->
  addBusinessDays_loop m (addBusinessDays_loop n result daysAdded) n =
  addBusinessDays_loop m result daysAdded.
Proof.
  funelim (addBusinessDays_loop n result daysAdded); intros Hle.
  - clear Heq Heqcall.
    match goal with
    | IH : forall _ : Z, _ -> _ = _ |- _ => rename IH into IHloop
    end.
    rewrite IHloop
      by (destruct (isBusinessDay (addDays result 1)); lia).
    rewrite (addBusinessDays_loop_iter m result daysAdded).
    replace (daysAdded <? m) with true by (symmetry; apply Z.ltb_lt; lia).
    reflexivity.
  - assert (daysAdded = numberOfDays) by lia. subst. reflexivity.
Qed.

Lemma businessDaysAfter_app (d : Date) (a b : nat) :
  businessDaysAfter d (a + b) =
  businessDaysAfter d a + businessDaysAfter (addDays d (Z.of_nat a)) b.
Proof.
  revert d. induction a as [| a IH]; intros d.
  - cbn [Nat.add businessDaysAfter Z.of_nat].
    replace (addDays d 0) with d
      by (destruct d; unfold addDays; cbn; f_equal; lia).
    lia.
  - cbn [Nat.add businessDaysAfter]. rewrite IH, addDays_addDays.
    replace (1 + Z.of_nat a) with (Z.of_nat (S a)) by lia. lia.
Qed.

Lemma businessDaysAfter_nonneg (d : Date) (k : nat) :
  0 <= businessDaysAfter d k.
Proof.
  revert d. induction k as [| k IH]; intros d; cbn [businessDaysAfter].
  - lia.
  - specialize (IH (addDays d 1)).
    destruct (isBusinessDay (addDays d 1)); lia.
Qed.

(** The days between [d] and [r], split at [m]. *)
Lemma businessDaysBetween_split (d m r : Date) :
  epochDay d <= epochDay m <= epochDay r ->
  businessDaysBetween d r =
  businessDaysBetween d m + businessDaysBetween m r.
Proof.
  intros Hle. unfold businessDaysBetween.
  replace (Z.to_nat (epochDay r - epochDay d))
    with (Z.to_nat (epochDay m - epochDay d)
          + Z.to_nat (epochDay r - epochDay m))%nat by lia.
  rewrite businessDaysAfter_app, Z2Nat.id by lia.
  f_equal.
  assert (Hsame : forall x y k, epochDay x = epochDay y ->
                                businessDaysAfter x k = businessDaysAfter y k).
  { intros x y k. revert x y. induction k as [| k IH]; intros x y E.
    - reflexivity.
    - cbn [businessDaysAfter].
      rewrite (IH (addDays x 1) (addDays y 1))
        by (cbn [addDays epochDay]; lia).
      unfold isBusinessDay, getDay, addDays; cbn [epochDay]. now rewrite E. }
  apply Hsame. cbn [addDays epochDay]. lia.
Qed.

(** An interval that ends on a business day holds at least that one. *)
Lemma businessDaysBetween_pos (m r : Date) :
  epochDay m < epochDay r -> isBusinessDay r = true ->
  1 <= businessDaysBetween m r.
Proof.
  intros Hlt Hr.
  set (q := mkDate (epochDay r - 1) (msOfDay r)).
  rewrite (businessDaysBetween_split m q r) by (cbn; lia).
  assert (0 <= businessDaysBetween m q) by apply businessDaysAfter_nonneg.
  assert (businessDaysBetween q r = 1); [| lia].
  unfold businessDaysBetween. subst q. cbn [epochDay].
  replace (Z.to_nat (epochDay r - (epochDay r - 1))) with 1%nat by lia.
  cbn [businessDaysAfter].
  replace (addDays (mkDate (epochDay r - 1) (msOfDay r)) 1) with r.
  - rewrite Hr. lia.
  - destruct r; unfold addDays; cbn. f_equal. lia.
Qed.

(** Any seven days in a row hold five business days. *)
Lemma businessDaysAfter_week (d : Date) : businessDaysAfter d 7 = 5.
Proof.
  cbn [businessDaysAfter]. rewrite !addDays_addDays. cbn [Z.add Pos.add Pos.succ].
  unfold isBusinessDay; cbn zeta. rewrite !getDay_addDays.
  pose proof (getDay_range d) as Hr.
  assert (Hcases : getDay d = 0 \/ getDay d = 1 \/ getDay d = 2 \/ getDay d = 3
                   \/ getDay d = 4 \/ getDay d = 5 \/ getDay d = 6) by lia.
  destruct Hcases as [E | [E | [E | [E | [E | [E | E]]]]]];
    rewrite E; reflexivity.
Qed.

(** X1.  Adding [a] business days and then [b] more is adding [a + b]
    (for [a] and [b] not negative). *)
Theorem addBusinessDays_compose (d : Date) (a b : Z) :
  0 <= a -> 0 <= b ->
  addBusinessDays (addBusinessDays d a) b = addBusinessDays d (a + b).
Proof.
  intros Ha Hb. unfold addBusinessDays, copy; cbn zeta.
  rewrite <- (addBusinessDays_loop_resume a (a + b) d 0) by lia.
  rewrite <- (addBusinessDays_loop_shift b _ 0 a).
  f_equal; lia.
Qed.

Lemma addBusinessDays_compose_witness :
  (0 <= 3 /\ 0 <= 4)
  /\ addBusinessDays (addBusinessDays (mkDate 20759 0) 3) 4 =
     addBusinessDays (mkDate 20759 0) (3 + 4).
Proof.
  split; [lia | apply (addBusinessDays_compose (mkDate 20759 0) 3 4); lia].
Defined.

(** X2.  For [n >= 1], [addBusinessDays d n] is the first date by which
    [n] business days have passed since [d]: every earlier date from [d]
    on has fewer than [n] business days between [d] and itself. *)
Theorem addBusinessDays_is_earliest (d r' : Date) (n : Z) :
  1 <= n ->
  epochDay d <= epochDay r' < epochDay (addBusinessDays d n) ->
  businessDaysBetween d r' < n.
Proof.
  intros Hn Hr'.
  destruct (addBusinessDays_loop_spec n (copy d) 0 ltac:(lia))
    as (_ & _ & Hcount & Hbd).
  fold (addBusinessDays d n) in Hcount, Hbd. unfold copy in Hcount.
  rewrite (businessDaysBetween_split d r' (addBusinessDays d n)) in Hcount
    by lia.
  pose proof (businessDaysBetween_pos r' (addBusinessDays d n)
                ltac:(lia) (Hbd ltac:(lia))).
  lia.
Qed.

(** From Friday 2026-11-06 (day 20763) one business day leads to Monday;
    Saturday and Sunday come before it. *)
Lemma addBusinessDays_is_earliest_witness :
  (1 <= 1
   /\ epochDay (mkDate 20763 0) <= epochDay (mkDate 20765 0)
      < epochDay (addBusinessDays (mkDate 20763 0) 1))
  /\ businessDaysBetween (mkDate 20763 0) (mkDate 20765 0) < 1.
Proof.
  split.
  - vm_compute. repeat split; discriminate.
  - apply (addBusinessDays_is_earliest (mkDate 20763 0) (mkDate 20765 0) 1).
    + lia.
    + vm_compute. split; [discriminate | reflexivity].
Defined.

(** X3.  For [n >= 1], five more business days is one more calendar
    week: [addBusinessDays d (n + 5)] falls on the calendar day seven days
    after that of [addBusinessDays d n], the same day of the week. *)
Theorem addBusinessDays_five_more_is_a_week (d : Date) (n : Z) :
  1 <= n ->
  epochDay (addBusinessDays d (n + 5)) = epochDay (addBusinessDays d n) + 7
  /\ getDay (addBusinessDays d (n + 5)) = getDay (addBusinessDays d n).
Proof.
  intros Hn.
  destruct (addBusinessDays_loop_spec n (copy d) 0 ltac:(lia))
    as (Hmono & Hms & Hcount & Hbd).
  destruct (addBusinessDays_loop_spec (n + 5) (copy d) 0 ltac:(lia))
    as (Hmono5 & Hms5 & Hcount5 & Hbd5).
  fold (addBusinessDays d n) in Hmono, Hms, Hcount, Hbd.
  fold (addBusinessDays d (n + 5)) in Hmono5, Hms5, Hcount5, Hbd5.
  unfold copy in *.
  set (r := addBusinessDays d n) in *.
  set (R := addBusinessDays d (n + 5)) in *.
  specialize (Hbd ltac:(lia)). specialize (Hbd5 ltac:(lia)).
  assert (Hweek : businessDaysBetween d (addDays r 7) = n + 5).
  { rewrite (businessDaysBetween_split d r (addDays r 7))
      by (cbn [addDays epochDay]; lia).
    rewrite Hcount. unfold businessDaysBetween at 1. cbn [addDays epochDay].
    replace (Z.to_nat (epochDay r + 7 - epochDay r)) with 7%nat by lia.
    rewrite businessDaysAfter_week. lia. }
  assert (Hbd7 : isBusinessDay (addDays r 7) = true).
  { unfold isBusinessDay in *; cbn zeta in *. rewrite getDay_addDays.
    pose proof (getDay_range r).
    replace ((getDay r + 7) mod 7) with (getDay r)
      by (Z.div_mod_to_equations; lia).
    exact Hbd. }
  assert (E : epochDay R = epochDay (addDays r 7)).
  { destruct (Z.lt_trichotomy (epochDay R) (epochDay (addDays r 7)))
      as [Hlt | [Heq | Hgt]]; [| exact Heq |].
    - rewrite (businessDaysBetween_split d R (addDays r 7)) in Hweek by lia.
      pose proof (businessDaysBetween_pos R (addDays r 7) Hlt Hbd7). lia.
    - assert (epochDay d <= epochDay (addDays r 7))
        by (cbn [addDays epochDay]; lia).
      rewrite (businessDaysBetween_split d (addDays r 7) R) in Hcount5 by lia.
      pose proof (businessDaysBetween_pos (addDays r 7) R ltac:(lia) Hbd5).
      lia. }
  cbn [addDays epochDay] in E. split; [exact E |].
  unfold getDay. rewrite E.
  replace (epochDay r + 7 + 4) with (epochDay r + 4 + 1 * 7) by lia.
  apply Z.mod_add. lia.
Qed.

Lemma addBusinessDays_five_more_is_a_week_witness :
  1 <= 2
  /\ epochDay (addBusinessDays (mkDate 20759 0) (2 + 5))
     = epochDay (addBusinessDays (mkDate 20759 0) 2) + 7
  /\ getDay (addBusinessDays (mkDate 20759 0) (2 + 5))
     = getDay (addBusinessDays (mkDate 20759 0) 2).
Proof.
  split; [lia |].
  apply (addBusinessDays_five_more_is_a_week (mkDate 20759 0) 2). lia.
Defined.

(** X4.  [addBusinessDays] never returns a day before the start date,
    and for [n <= 0] (a negative count included) the loop does not run
    and the result is the start date itself. *)
Theorem addBusinessDays_never_goes_back (d : Date) (n : Z) :
  epochDay d <= epochDay (addBusinessDays d n)
  /\ (n <= 0 -> addBusinessDays d n = d).
Proof.
  destruct (Z_le_gt_dec n 0) as [Hn | Hn].
  - assert (E : addBusinessDays d n = d).
    { unfold addBusinessDays, copy; cbn zeta.
      rewrite addBusinessDays_loop_iter.
      replace (0 <? n) with false by (symmetry; apply Z.ltb_nlt; lia).
      reflexivity. }
    rewrite E. split; [lia | reflexivity].
  - destruct (addBusinessDays_loop_spec n (copy d) 0 ltac:(lia))
      as (Hmono & _ & _ & _).
    split; [exact Hmono | lia].
Qed.

Lemma addBusinessDays_never_goes_back_witness :
  -2 <= 0 /\ addBusinessDays (mkDate 20759 34200000) (-2) = mkDate 20759 34200000.
Proof.
  split; [lia |].
  apply (addBusinessDays_never_goes_back (mkDate 20759 34200000) (-2)).
  lia.
Defined.

End BusinessDayArithmetic.

(* ================================================================== *)
(** * The dates the timeline effect writes                             *)
(* ================================================================== *)

Section TimelineDates.
Import JsDate Scheduler TimelineEffect TwoDigits.

(** The month and the day of the month are in their calendar ranges. *)
Lemma civil_ranges (day : Z) :
  1 <= snd (fst (civil day)) <= 12 /\ 1 <= snd (civil day) <= 31.
Proof.
  unfold civil. cbv zeta. cbn [fst snd].
  set (z := day + 719468).
  set (era := z / 146097).
  set (doe := z - era * 146097).
  assert (Hdoe : 0 <= doe < 146097)
    by (subst doe era; Z.div_mod_to_equations; lia).
  clearbody doe. clear era z.
  set (yoe := (doe - doe / 1460 + doe / 36524 - doe / 146096) / 365).
  set (doy := doe - (365 * yoe + yoe / 4 - yoe / 100)).
  assert (Hdoy : 0 <= doy <= 365)
    by (subst doy yoe; Z.div_mod_to_equations; lia).
  clearbody doy.
  set (mp := (5 * doy + 2) / 153).
  assert (Hmp : 0 <= mp <= 11) by (subst mp; Z.div_mod_to_equations; lia).
  assert (Hdd : 1 <= doy - (153 * mp + 2) / 5 + 1 <= 31)
    by (subst mp; Z.div_mod_to_equations; lia).
  clearbody mp.
  destruct (mp <? 10) eqn:E;
    [apply Z.ltb_lt in E | apply Z.ltb_ge in E]; split; lia.
Qed.

(** A property of all numbers from 0 to [bound - 1], by checking each. *)
Lemma below_by_cases (bound : nat) (P : Z -> bool) :
  forallb (fun k => P (Z.of_nat k)) (seq 0 bound) = true ->
  forall z, 0 <= z < Z.of_nat bound -> P z = true.
Proof.
  intros Hall z Hz. rewrite forallb_forall in Hall.
  rewrite <- (Z2Nat.id z) by lia. apply Hall. apply in_seq. lia.
Qed.

(** [padStart(2, "0")] of a number below 100 is the number on two
    digits. *)
Lemma padStart_two_digits (z : Z) :
  0 <= z < 100 ->
  JsString.padStart 2 "0" (JsString.ofNumber z) = twoDigits z.
Proof.
  intros Hz. apply String.eqb_eq.
  apply (below_by_cases
           100 (fun z => String.eqb (JsString.padStart 2 "0" (JsString.ofNumber z))
                                    (twoDigits z)));
    [vm_compute; reflexivity | exact Hz].
Qed.

Lemma ofNumber_four_digits (z : Z) :
  1000 <= z <= 9999 -> String.length (JsString.ofNumber z) = 4%nat.
Proof.
  intros Hz.
  pose proof (below_by_cases
                (Z.to_nat 10000)
                (fun z => (z <? 1000)
                          || Nat.eqb (String.length (JsString.ofNumber z)) 4)
                ltac:(vm_compute; reflexivity) z ltac:(lia)) as H.
  cbv beta in H. apply orb_true_iff in H as [H | H].
  - apply Z.ltb_lt in H. lia.
  - now apply Nat.eqb_eq.
Qed.

Lemma length_append (a b : string) :
  String.length (append a b) = (String.length a + String.length b)%nat.
Proof. induction a as [| c a IH]; cbn; [reflexivity | now rewrite IH]. Qed.

(** X5.  [formatDateToInput] writes the year, then the month and the day
    of the month on exactly two digits each, with dashes between; for a
    year from 1000 to 9999 the result has the ten characters of
    [YYYY-MM-DD]. *)
Theorem formatDateToInput_shape (date : Date) :
  formatDateToInput date =
  append (JsString.ofNumber (getFullYear date))
         (append "-" (append (twoDigits (getMonth date + 1))
                             (append "-" (twoDigits (getDate date)))))
  /\ (1000 <= getFullYear date <= 9999 ->
      String.length (formatDateToInput date) = 10%nat).
Proof.
  assert (E : formatDateToInput date =
              append (JsString.ofNumber (getFullYear date))
                     (append "-" (append (twoDigits (getMonth date + 1))
                                         (append "-" (twoDigits (getDate date)))))).
  { unfold formatDateToInput; cbn zeta.
    destruct (civil_ranges (epochDay date)) as [Hm Hd].
    rewrite !padStart_two_digits; [reflexivity | |].
    - unfold getDate. lia.
    - unfold getMonth. lia. }
  split; [exact E |].
  intros Hy. rewrite E, length_append, ofNumber_four_digits by exact Hy.
  reflexivity.
Qed.

Lemma formatDateToInput_shape_witness :
  1000 <= getFullYear (mkDate 20759 0) <= 9999
  /\ String.length (formatDateToInput (mkDate 20759 0)) = 10%nat.
Proof.
  split; [vm_compute; split; discriminate |].
  apply (formatDateToInput_shape (mkDate 20759 0)).
  vm_compute; split; discriminate.
Defined.

(** X6.  Whenever the effect writes the timeline, the end it writes is
    the text of a date that is neither a Saturday nor a Sunday and lies
    after today, and the start is the text of today. *)
Theorem written_end_is_a_later_business_day
        (props : list (string * PhaseValue)) (reviewDays : Numeric)
        (now : Date) (p : Page) :
  0 < specTotalDays (map snd props) reviewDays ->
  exists endDate : Date,
    timeline (autoCalculateTimeline (Obj props) reviewDays now p) =
    mkTimeline (formatDateToInput now) (formatDateToInput endDate)
               (dependencies (timeline p))
    /\ getDay endDate <> 0 /\ getDay endDate <> 6
    /\ epochDay now < epochDay endDate.
Proof.
  intros Hpos. set (total := specTotalDays (map snd props) reviewDays) in *.
  exists (addBusinessDays now total).
  destruct (addBusinessDays_loop_spec total (copy now) 0 ltac:(lia))
    as (Hmono & _ & Hcount & Hbd).
  fold (addBusinessDays now total) in Hmono, Hcount, Hbd. unfold copy in *.
  specialize (Hbd Hpos). apply isBusinessDay_getDay in Hbd.
  repeat split; try apply Hbd.
  - rewrite autoCalculateTimeline_Obj; cbn zeta. fold total.
    apply Z.ltb_lt in Hpos. now rewrite Hpos.
  - destruct (Z.eq_dec (epochDay now) (epochDay (addBusinessDays now total)))
      as [E | Hne]; [| lia].
    unfold businessDaysBetween in Hcount. rewrite <- E, Z.sub_diag in Hcount.
    cbn in Hcount. lia.
Qed.

(** Three days of tests and two of review, computed on Wednesday
    2026-11-04 (day 20761): the end is Wednesday 2026-11-11. *)
Lemma written_end_is_a_later_business_day_witness :
  let props := [("unit", Phase true (Num 3))]%string in
  let p := mkPage (mkTimeline "" "" "staging") [] in
  0 < specTotalDays (map snd props) (Num 2)
  /\ exists endDate : Date,
      timeline (autoCalculateTimeline (Obj props) (Num 2) (mkDate 20761 0) p) =
      mkTimeline (formatDateToInput (mkDate 20761 0))
                 (formatDateToInput endDate) (dependencies (timeline p))
      /\ getDay endDate <> 0 /\ getDay endDate <> 6
      /\ epochDay (mkDate 20761 0) < epochDay endDate.
Proof.
  cbn zeta. split; [reflexivity |].
  apply (written_end_is_a_later_business_day
           [("unit", Phase true (Num 3))]%string (Num 2) (mkDate 20761 0)
           (mkPage (mkTimeline "" "" "staging") [])).
  reflexivity.
Defined.

End TimelineDates.

(* ================================================================== *)
(** * The duration field                                               *)
(* ================================================================== *)

Section DurationField.
Import DaysInput.

Lemma digitValue_range (c : ascii) :
  isDigit c = true -> 0 <= digitValue c <= 9.
Proof.
  unfold isDigit, digitValue; cbn zeta. intros H.
  apply andb_true_iff in H as [H1 H2].
  apply Nat.leb_le in H1. apply Nat.leb_le in H2. lia.
Qed.

Lemma parseDigits_nonneg (s : string) (acc : Z) :
  allDigits s = true -> 0 <= acc -> 0 <= parseDigits acc s.
Proof.
  revert acc. induction s as [| c s IH]; intros acc Hall Hacc; cbn in *.
  - exact Hacc.
  - apply andb_true_iff in Hall as [Hc Hs].
    pose proof (digitValue_range c Hc). apply IH; [exact Hs | lia].
Qed.

(** What the decimal reader of the library computes is what
    [parseDigits] computes. *)
Lemma parseDigits_uint (d : Decimal.uint) :
  allDigits (NilEmpty.string_of_uint d) = true
  /\ (forall acc : positive,
         parseDigits (Z.pos acc) (NilEmpty.string_of_uint d) =
         Z.pos (Pos.of_uint_acc d acc))
  /\ parseDigits 0 (NilEmpty.string_of_uint d) = Z.of_N (Pos.of_uint d).
Proof.
  induction d as [| d IH | d IH | d IH | d IH | d IH
                  | d IH | d IH | d IH | d IH | d IH];
    [repeat split | | | | | | | | | |];
    destruct IH as (Hall & Hacc & Hzero);
    (split; [| split]).
  all: try (cbn [NilEmpty.string_of_uint allDigits];
            rewrite Hall; reflexivity).
  all: try (intros acc;
            cbn [NilEmpty.string_of_uint parseDigits Pos.of_uint_acc];
            rewrite <- Hacc; f_equal; unfold digitValue;
            cbn [nat_of_ascii]; vm_compute (Z.of_nat _); lia).
  all: cbn [NilEmpty.string_of_uint parseDigits Pos.of_uint];
    match goal with
    | |- parseDigits ?a _ = _ =>
        let v := eval vm_compute in a in change a with v
    end;
    first [ exact Hzero | rewrite Hacc; reflexivity ].
Qed.

(** X7.  The duration field accepts exactly the empty text and the texts
    made of digits.  What it accepts is never negative, and the decimal
    text of any [n >= 0] sets the duration to [n]; any other text (a sign,
    a dot, a letter, a space) is dropped and the duration stays. *)
Theorem handleDaysChange_accepts_digits_only (value : string) (n days : Z) :
  (forall d, handleDaysChange value = Some d -> 0 <= d)
  /\ (handleDaysChange value = None <-> allDigits value = false)
  /\ (allDigits value = false -> daysAfterInput value days = days)
  /\ (0 <= n -> handleDaysChange (JsString.ofNumber n) = Some n).
Proof.
  repeat split.
  - intros d. unfold handleDaysChange.
    destruct value as [| c rest]; cbn [String.eqb orb testDigits].
    + intros [= <-]. lia.
    + destruct (allDigits (String c rest)) eqn:Hall; [| discriminate].
      intros [= <-]. apply parseDigits_nonneg; [exact Hall | lia].
  - unfold handleDaysChange.
    destruct value as [| c rest]; cbn [String.eqb orb testDigits];
      [discriminate |].
    destruct (allDigits (String c rest)); [discriminate | reflexivity].
  - unfold handleDaysChange.
    destruct value as [| c rest]; cbn [String.eqb orb testDigits];
      [discriminate |].
    now intros ->.
  - unfold daysAfterInput, handleDaysChange.
    destruct value as [| c rest]; cbn [String.eqb orb testDigits];
      [discriminate |].
    now intros ->.
  - intros Hn. unfold JsString.ofNumber.
    destruct n as [| p | p]; [reflexivity | | lia].
    cbn [Z.to_int NilZero.string_of_int].
    pose proof (parseDigits_uint (Pos.to_uint p)) as (Hall & _ & Hzero).
    pose proof (DecimalPos.Unsigned.to_uint_nonnil p) as Hnil.
    unfold NilZero.string_of_uint.
    destruct (Pos.to_uint p) eqn:Ep; [congruence | | | | | | | | | |];
      rewrite <- Ep in *;
      (unfold handleDaysChange, testDigits, parseInt10;
       destruct (NilEmpty.string_of_uint (Pos.to_uint p)) eqn:Es;
       [ rewrite Ep in Es; discriminate |];
       cbn [String.eqb orb]; rewrite Hall, Hzero;
       rewrite DecimalPos.Unsigned.of_to; reflexivity).
Qed.

Lemma handleDaysChange_accepts_digits_only_witness :
  (allDigits "1.5" = false -> daysAfterInput "1.5" 4 = 4)
  /\ (0 <= 12 -> handleDaysChange (JsString.ofNumber 12) = Some 12).
Proof.
  destruct (handleDaysChange_accepts_digits_only "1.5" 12 4)
    as (_ & _ & Hdrop & Hround).
  split; [exact Hdrop | exact Hround].
Defined.

End DurationField.

(* ================================================================== *)
(** * More on the day markers                                          *)
(* ================================================================== *)

Section DayMarkerArithmetic.
Import DetailScreen Binary64.
Local Open Scope Q_scope.


Lemma findIndex_Some {A : Type} (p : A -> bool) (xs : list A) (k : nat) :
  findIndex p xs = Some k ->
  exists x, nth_error xs k = Some x /\ p x = true
            /\ forall j y, (j < k)%nat -> nth_error xs j = Some y -> p y = false.
Proof.
  revert k. induction xs as [| x xs IH]; intros k; cbn [findIndex];
    [discriminate |].
  destruct (p x) eqn:Hx.
  - intros [= <-]. exists x. repeat split; [exact Hx |]. intros j y Hj. lia.
  - destruct (findIndex p xs) as [k' |]; [| discriminate].
    intros [= <-]. destruct (IH k' eq_refl) as (x' & Hnth & Hp & Hfirst).
    exists x'. repeat split; [exact Hnth | exact Hp |].
    intros [| j] y Hj; cbn [nth_error].
    + now intros [= <-].
    + apply Hfirst. lia.
Qed.

Lemma findIndex_None {A : Type} (p : A -> bool) (xs : list A) :
  findIndex p xs = None -> forall x, In x xs -> p x = false.
Proof.
  induction xs as [| x xs IH]; cbn [findIndex]; intros H y Hy;
    [destruct Hy |].
  destruct (p x) eqn:Hx; [discriminate |].
  destruct (findIndex p xs); [discriminate |].
  destruct Hy as [<- | Hy]; [exact Hx | now apply IH].
Qed.



(** X9.  With the six day markers the positions that the handler
    computes are the numbers 0, 20, 40, 60, 80 and 100 themselves, with
    no rounding error, and the active day is the last of them that
    [v * 100], as rounded in binary64, has reached: 5 from 100 on, 4 from
    80 on, and so on down to 0 below 20 (and when [v] is not a number). *)
Theorem active_day_by_twenties (v : number) :
  map (DetailScreenBinary64.dayPosition DETAIL_DAYS) [0; 1; 2; 3; 4; 5]%nat
  = map ofZ [0; 20; 40; 60; 80; 100]%Z
  /\ DetailScreenBinary64.newActiveDay DETAIL_DAYS v =
     (let progressPercent := mul v hundred in
      if geb progressPercent (ofZ 100) then 5
      else if geb progressPercent (ofZ 80) then 4
      else if geb progressPercent (ofZ 60) then 3
      else if geb progressPercent (ofZ 40) then 2
      else if geb progressPercent (ofZ 20) then 1
      else 0)%nat.
Proof.
  assert (E0 : DetailScreenBinary64.dayPosition DETAIL_DAYS 0 = ofZ 0)
    by (vm_compute; reflexivity).
  assert (E1 : DetailScreenBinary64.dayPosition DETAIL_DAYS 1 = ofZ 20)
    by (vm_compute; reflexivity).
  assert (E2 : DetailScreenBinary64.dayPosition DETAIL_DAYS 2 = ofZ 40)
    by (vm_compute; reflexivity).
  assert (E3 : DetailScreenBinary64.dayPosition DETAIL_DAYS 3 = ofZ 60)
    by (vm_compute; reflexivity).
  assert (E4 : DetailScreenBinary64.dayPosition DETAIL_DAYS 4 = ofZ 80)
    by (vm_compute; reflexivity).
  assert (E5 : DetailScreenBinary64.dayPosition DETAIL_DAYS 5 = ofZ 100)
    by (vm_compute; reflexivity).
  split; [cbn [map]; now rewrite E0, E1, E2, E3, E4, E5 |].
  unfold DetailScreenBinary64.newActiveDay; cbn zeta.
  change (DetailScreenBinary64.numDays DETAIL_DAYS) with 6%nat.
  cbn [DetailScreenBinary64.scanDays].
  unfold DetailScreenBinary64.reached. rewrite E0, E1, E2, E3, E4, E5.
  set (progressPercent := mul v hundred).
  destruct (geb progressPercent (ofZ 100)); [reflexivity |].
  destruct (geb progressPercent (ofZ 80)); [reflexivity |].
  destruct (geb progressPercent (ofZ 60)); [reflexivity |].
  destruct (geb progressPercent (ofZ 40)); [reflexivity |].
  destruct (geb progressPercent (ofZ 20)); [reflexivity |].
  now destruct (geb progressPercent (ofZ 0)).
Qed.

(** X10.  An update sets the active section to the first section whose
    days include the new active day, and leaves it as it was when no
    section includes that day.  With the six days and six sections of the
    screen the active section is always the active day. *)
Theorem active_section_follows_active_day
        (DAYS : list string) (SECTIONS : list DetailSection)
        (v : Q) (s : Screen) :
  let s' := onProgressChange DAYS SECTIONS v s in
  ((exists sec,
       nth_error SECTIONS (activeSection s') = Some sec
       /\ includes (days sec) (activeDay s') = true
       /\ forall j earlier, (j < activeSection s')%nat ->
                            nth_error SECTIONS j = Some earlier ->
                            includes (days earlier) (activeDay s') = false)
   \/ (activeSection s' = activeSection s
       /\ forall sec, In sec SECTIONS ->
                      includes (days sec) (activeDay s') = false))
  /\ activeSection (onProgressChange DETAIL_DAYS DETAIL_SECTIONS v s) =
     activeDay (onProgressChange DETAIL_DAYS DETAIL_SECTIONS v s).
Proof.
  cbn zeta. split.
  - unfold onProgressChange; cbn zeta.
    destruct (findIndex _ SECTIONS) as [k |] eqn:Hfind; cbn [activeSection activeDay].
    + left. apply findIndex_Some in Hfind. exact Hfind.
    + right. split; [reflexivity |].
      intros sec Hin. exact (findIndex_None _ _ Hfind sec Hin).
  - unfold onProgressChange; cbn zeta.
    pose proof (newActiveDay_lt DETAIL_DAYS v ltac:(cbn; lia)) as Hlt.
    cbn [DETAIL_DAYS List.length] in Hlt.
    destruct (newActiveDay DETAIL_DAYS v) as [| [| [| [| [| [| d]]]]]];
      try reflexivity; lia.
Qed.

End DayMarkerArithmetic.

(* ================================================================== *)
(** * More on the outline scroll-spy                                   *)
(* ================================================================== *)

Section OutlineSpyInvariants.
Import OutlineSpy OutlineSpyRuns.

Lemma advanceTo_timersCoverFlag (t : Z) (s : Spy) :
  timersCoverFlag s -> timersCoverFlag (advanceTo t s).
Proof.
  intros [Hdue Hflag]. unfold timersCoverFlag, advanceTo; cbn.
  split.
  - rewrite Forall_forall in *. intros x Hx.
    apply filter_In in Hx as [Hx _]. specialize (Hdue x Hx). lia.
  - destruct (filter (fun deadline => deadline <=? t) (timers s))
      as [| d due] eqn:Hfilter; [| discriminate].
    intros Hset. specialize (Hflag Hset).
    replace (filter (fun deadline => negb (deadline <=? t)) (timers s))
      with (timers s); [exact Hflag |].
    symmetry. apply forallb_filter_id. apply forallb_forall. intros x Hx.
    destruct (x <=? t) eqn:Hxt; [| reflexivity].
    assert (Hin : In x (filter (fun deadline => deadline <=? t) (timers s)))
      by (apply filter_In; auto).
    rewrite Hfilter in Hin. destruct Hin.
Qed.

Lemma handle_timersCoverFlag (e : Event) (s : Spy) :
  timersCoverFlag s -> timersCoverFlag (handle e s).
Proof.
  intros Hs. destruct e as [id doc | l]; cbn [handle].
  - unfold scrollToSection.
    destruct (getElementById doc id); [| exact Hs].
    destruct (current doc); [| exact Hs].
    destruct Hs as [Hdue Hflag]. split; cbn.
    + apply Forall_app. split; [exact Hdue |]. constructor; [lia | constructor].
    + intros _. now destruct (timers s).
  - unfold handleScroll.
    destruct (isManualScroll s) eqn:Hset; [exact Hs |].
    destruct (detectSection l); [| exact Hs].
    destruct Hs as [Hdue Hflag]. split; cbn; [exact Hdue |].
    rewrite Hset. discriminate.
Qed.

Lemma run_timersCoverFlag (trace : list (Z * Event)) (s : Spy) :
  timersCoverFlag s -> timersCoverFlag (run trace s).
Proof.
  revert s. induction trace as [| te trace IH]; intros s Hs; [exact Hs |].
  cbn [run fold_left]. apply IH. unfold step.
  apply handle_timersCoverFlag, advanceTo_timersCoverFlag, Hs.
Qed.

(** X11.  The override never sticks: after any sequence of clicks and
    scroll events on the fresh modal, once 1000ms have passed on the
    clock the flag is off and no timer is pending, so the next scroll
    event is followed again. *)
Theorem override_never_sticks (trace : list (Z * Event)) (t : Z)
        (l : Layout) (target : string) :
  clock (run trace initialSpy) + OVERRIDE_MS <= t ->
  detectSection l = Some target ->
  let s := advanceTo t (run trace initialSpy) in
  isManualScroll s = false
  /\ timers s = []
  /\ activeSection (handleScroll l s) = target.
Proof.
  intros Hlate Hdet.
  assert (Hinit : timersCoverFlag initialSpy).
  { split; [constructor | discriminate]. }
  destruct (run_timersCoverFlag trace initialSpy Hinit) as [Hdue Hflag].
  set (r := run trace initialSpy) in *. cbn zeta.
  assert (Hall : forall x, In x (timers r) -> (x <=? t) = true).
  { intros x Hx. rewrite Forall_forall in Hdue. specialize (Hdue x Hx).
    apply Z.leb_le. lia. }
  assert (Hnone : timers (advanceTo t r) = []).
  { unfold advanceTo; cbn. 
    destruct (filter (fun deadline => negb (deadline <=? t)) (timers r))
      as [| x rest] eqn:Hf; [reflexivity |].
    assert (Hin : In x (filter (fun deadline => negb (deadline <=? t)) (timers r)))
      by (rewrite Hf; now left).
    apply filter_In in Hin as [Hx Hneg]. rewrite (Hall x Hx) in Hneg.
    discriminate. }
  assert (Hoff : isManualScroll (advanceTo t r) = false).
  { unfold advanceTo; cbn.
    destruct (filter (fun deadline => deadline <=? t) (timers r))
      as [| x rest] eqn:Hf; [| reflexivity].
    destruct (isManualScroll r) eqn:Hset; [| reflexivity].
    specialize (Hflag eq_refl).
    destruct (timers r) as [| y ys] eqn:Ht; [congruence |].
    cbn [filter] in Hf. rewrite (Hall y (or_introl eq_refl)) in Hf.
    discriminate. }
  repeat split; [exact Hoff | exact Hnone |].
  unfold handleScroll. now rewrite Hoff, Hdet.
Qed.

(** Three clicks in a row, the last at 700ms; at 1700ms the spy follows
    the scroll again. *)
Lemma override_never_sticks_witness :
  let trace := [(0, Click "scope" sampleDocument);
                (400, Click "schedule" sampleDocument);
                (700, Click "comments" sampleDocument)] in
  (clock (run trace initialSpy) + OVERRIDE_MS <= 1700
   /\ detectSection sampleLayout = Some "meta"%string)
  /\ (let s := advanceTo 1700 (run trace initialSpy) in
      isManualScroll s = false
      /\ timers s = []
      /\ activeSection (handleScroll sampleLayout s) = "meta"%string).
Proof.
  cbn zeta. split.
  - split; [vm_compute; discriminate | reflexivity].
  - apply (override_never_sticks
             [(0, Click "scope" sampleDocument);
              (400, Click "schedule" sampleDocument);
              (700, Click "comments" sampleDocument)]
             1700 sampleLayout "meta").
    + vm_compute; discriminate.
    + reflexivity.
Defined.

Lemma find_rev_last {A : Type} (p : A -> bool) (xs : list A) (x : A) :
  find p (rev xs) = Some x ->
  exists before after,
    xs = before ++ x :: after /\ p x = true
    /\ forallb (fun y => negb (p y)) after = true.
Proof.
  induction xs as [| y xs IH] using rev_ind; [discriminate |].
  rewrite rev_app_distr. cbn [rev app find].
  destruct (p y) eqn:Hy.
  - intros [= <-]. exists xs, []. repeat split. exact Hy.
  - intros Hfind. destruct (IH Hfind) as (before & after & -> & Hp & Hafter).
    exists before, (after ++ [y]). repeat split.
    + now rewrite <- app_assoc.
    + exact Hp.
    + rewrite forallb_app, Hafter. cbn. now rewrite Hy.
Qed.

Lemma find_rev_none {A : Type} (p : A -> bool) (xs : list A) :
  find p (rev xs) = None -> forallb (fun y => negb (p y)) xs = true.
Proof.
  intros Hnone. apply forallb_forall. intros y Hy.
  apply in_rev in Hy. now rewrite (find_none _ _ Hnone y Hy).
Qed.

(** X12.  What a scroll event selects.  Within 100px of the bottom it is
    the last outline section, wherever the headings are.  Otherwise it is
    the lowest heading whose top is at most 160px below the top of the
    container (no heading after it is), and the first heading when no
    heading is that high. *)
Theorem detectSection_selects_lowest_crossed_heading (l : Layout) :
  let r := root l in
  let threshold := (containerTop r + 160)%Q in
  let crossed := fun e => Qle_bool (elementTop e) threshold in
  (Qle_bool (scrollHeight r - 100) (scrollTop r + clientHeight r) = true ->
   detectSection l = Some "comments"%string)
  /\ (Qle_bool (scrollHeight r - 100) (scrollTop r + clientHeight r) = false ->
      (exists before e after,
          elements l = before ++ e :: after
          /\ crossed e = true
          /\ forallb (fun y => negb (crossed y)) after = true
          /\ detectSection l = Some (elementId e))
      \/ (forallb (fun y => negb (crossed y)) (elements l) = true
          /\ detectSection l = option_map elementId (hd_error (elements l)))).
Proof.
  cbn zeta. unfold detectSection; cbn zeta. split.
  - now intros ->.
  - intros ->. unfold lastAbove.
    destruct (find _ (rev (elements l))) as [e |] eqn:Hfind.
    + left. apply find_rev_last in Hfind
        as (before & after & Hsplit & He & Hafter).
      exists before, e, after. now repeat split.
    + right. split; [now apply find_rev_none |].
      now destruct (elements l).
Qed.

(** The sample form at its bottom: "comments", though the heading of
    "comments" is still 250px below the container's top. *)
Lemma detectSection_selects_lowest_crossed_heading_witness :
  let bottom :=
    mkLayout (mkContainer 2350 3000 600 100)
             [ mkElement "meta" (-2230); mkElement "scope" (-1650);
               mkElement "checklists" (-1050); mkElement "schedule" (-450);
               mkElement "comments" 350 ]%string in
  Qle_bool (scrollHeight (root bottom) - 100)
           (scrollTop (root bottom) + clientHeight (root bottom)) = true
  /\ detectSection bottom = Some "comments"%string.
Proof.
  cbn zeta. split; [reflexivity |].
  match goal with
  | |- detectSection ?l = _ =>
      apply (proj1 (detectSection_selects_lowest_crossed_heading l))
  end.
  reflexivity.
Defined.

End OutlineSpyInvariants.

(* ================================================================== *)
(** * Properties of the folder storage                                 *)
(* ================================================================== *)

Section ListUpdates.
Import PlanStorage.

Context {A : Type}.

(** Where [findIndex] stops: the list splits around the first hit. *)
Lemma findIndex_split (p : A -> bool) (xs : list A) (k : nat) :
  DetailScreen.findIndex p xs = Some k ->
  exists before x after,
    xs = before ++ x :: after
    /\ List.length before = k
    /\ p x = true
    /\ forallb (fun y => negb (p y)) before = true.
Proof.
  revert k. induction xs as [| y xs IH]; intros k; cbn [DetailScreen.findIndex];
    [discriminate |].
  destruct (p y) eqn:Hy.
  - intros [= <-]. exists [], y, xs. now repeat split.
  - destruct (DetailScreen.findIndex p xs) as [k' |]; [| discriminate].
    intros [= <-].
    destruct (IH k' eq_refl) as (before & x & after & -> & Hlen & Hx & Hbefore).
    exists (y :: before), x, after. cbn. rewrite Hy, Hbefore, Hlen.
    now repeat split.
Qed.

Lemma findIndex_of_split (p : A -> bool) (before after : list A) (x : A) :
  p x = true -> forallb (fun y => negb (p y)) before = true ->
  DetailScreen.findIndex p (before ++ x :: after) = Some (List.length before).
Proof.
  intros Hx. induction before as [| y before IH]; cbn; intros Hb.
  - now rewrite Hx.
  - apply andb_true_iff in Hb as [Hy Hb]. apply negb_true_iff in Hy.
    now rewrite Hy, (IH Hb).
Qed.

Lemma find_of_split (p : A -> bool) (before after : list A) (x : A) :
  p x = true -> forallb (fun y => negb (p y)) before = true ->
  find p (before ++ x :: after) = Some x.
Proof.
  intros Hx. induction before as [| y before IH]; cbn; intros Hb.
  - now rewrite Hx.
  - apply andb_true_iff in Hb as [Hy Hb]. apply negb_true_iff in Hy.
    now rewrite Hy, (IH Hb).
Qed.

Lemma findIndex_none_find (p : A -> bool) (xs : list A) :
  DetailScreen.findIndex p xs = None <-> find p xs = None.
Proof.
  induction xs as [| y xs IH]; cbn; [tauto |].
  destruct (p y); [split; discriminate |].
  destruct (DetailScreen.findIndex p xs); [| tauto].
  split; [discriminate |]. intros H. apply IH in H. discriminate.
Qed.

Lemma updateAt_split (f : A -> A) (before after : list A) (x : A) :
  updateAt (List.length before) f (before ++ x :: after) =
  before ++ f x :: after.
Proof. induction before as [| y before IH]; cbn; [| rewrite IH]; reflexivity. Qed.

Lemma updateAt_length (k : nat) (f : A -> A) (xs : list A) :
  List.length (updateAt k f xs) = List.length xs.
Proof.
  revert k. induction xs as [| x xs IH]; intros [| k]; cbn; auto.
Qed.

End ListUpdates.

Section FolderStorage.
Import PlanStorage.

Variable Plan : Type.
Variable planId : Plan -> string.


(** The plans of the folder after the update-or-add: the plan is found
    under its id, and what is found under any other id is as before. *)
Lemma upsertPlan_lookup (plan : Plan) (ps : list Plan) :
  planById Plan planId (planId plan) (upsertPlan Plan planId plan ps) = Some plan
  /\ forall pid, pid <> planId plan ->
                 planById Plan planId pid (upsertPlan Plan planId plan ps) = planById Plan planId pid ps.
Proof.
  unfold upsertPlan, planById.
  destruct (DetailScreen.findIndex (samePlan Plan planId plan) ps)
    as [k |] eqn:Hfind.
  - apply findIndex_split in Hfind
      as (before & x & after & -> & <- & Hx & Hbefore).
    rewrite updateAt_split. unfold samePlan in *. split.
    + apply find_of_split; [apply String.eqb_refl | exact Hbefore].
    + intros pid Hpid. apply String.eqb_eq in Hx.
      induction before as [| y before IH]; cbn.
      * rewrite Hx.
        replace (planId plan =? pid)%string with false
          by (symmetry; apply String.eqb_neq; congruence).
        reflexivity.
      * cbn in Hbefore. apply andb_true_iff in Hbefore as [_ Hbefore].
        now rewrite (IH Hbefore).
  - split; cbn.
    + now rewrite String.eqb_refl.
    + intros pid Hpid.
      replace (planId plan =? pid)%string with false
        by (symmetry; apply String.eqb_neq; congruence).
      reflexivity.
Qed.

Lemma upsertPlan_twice (plan : Plan) (ps : list Plan) :
  upsertPlan Plan planId plan (upsertPlan Plan planId plan ps) = upsertPlan Plan planId plan ps.
Proof.
  unfold upsertPlan at 2 3.
  destruct (DetailScreen.findIndex (samePlan Plan planId plan) ps)
    as [k |] eqn:Hfind.
  - apply findIndex_split in Hfind
      as (before & x & after & -> & <- & Hx & Hbefore).
    rewrite updateAt_split. unfold upsertPlan.
    rewrite (findIndex_of_split _ before after plan);
      [| unfold samePlan; apply String.eqb_refl | exact Hbefore].
    now rewrite updateAt_split.
  - unfold upsertPlan. cbn [DetailScreen.findIndex].
    unfold samePlan at 1. now rewrite String.eqb_refl.
Qed.

Lemma withPlan_twice (plan : Plan) (f : Folder Plan) :
  withPlan Plan planId plan (withPlan Plan planId plan f) =
  withPlan Plan planId plan f.
Proof.
  unfold withPlan; cbn [id name badge plans]. now rewrite upsertPlan_twice.
Qed.

(** The ids of the plans after the update-or-add. *)
Lemma upsertPlan_ids (plan : Plan) (ps : list Plan) :
  (planById Plan planId (planId plan) ps <> None /\ map planId (upsertPlan Plan planId plan ps) = map planId ps)
  \/ (planById Plan planId (planId plan) ps = None
      /\ map planId (upsertPlan Plan planId plan ps) = planId plan :: map planId ps).
Proof.
  unfold upsertPlan, planById.
  destruct (DetailScreen.findIndex (samePlan Plan planId plan) ps)
    as [k |] eqn:Hfind.
  - left. apply findIndex_split in Hfind
      as (before & x & after & -> & <- & Hx & Hbefore).
    rewrite updateAt_split. split.
    + unfold samePlan in *.
      rewrite (find_of_split _ before after x Hx Hbefore). discriminate.
    + rewrite !map_app. cbn [map]. unfold samePlan in Hx.
      apply String.eqb_eq in Hx. now rewrite Hx.
  - right. split; [| reflexivity].
    now apply findIndex_none_find in Hfind.
Qed.

(** What a call does, by the folder it aims at. *)
Lemma saveTestPlanToFolder_cases (plan : Plan) (folderId : option string)
      (b : Browser Plan) :
  let folders := fst (loadFolders Plan b) in
  let b0 := snd (loadFolders Plan b) in
  (exists target before f after,
      targetFolder Plan folderId folders = Some target
      /\ folders = before ++ f :: after
      /\ id f = target
      /\ forallb (fun g => negb (id g =? target)%string) before = true
      /\ saveTestPlanToFolder Plan planId plan folderId b =
         (true, saveFolders Plan (before ++ withPlan Plan planId plan f :: after) b0))
  \/ ((forall target, targetFolder Plan folderId folders = Some target ->
                      folderById Plan target folders = None)
      /\ exists line,
          saveTestPlanToFolder Plan planId plan folderId b =
          (false, console_error Plan "Folder not found:" line b0)).
Proof.
  cbn zeta. unfold saveTestPlanToFolder.
  destruct (loadFolders Plan b) as [folders b0]. cbn [fst snd].
  destruct (targetFolder Plan folderId folders) as [target |] eqn:Htarget.
  - destruct (DetailScreen.findIndex _ folders) as [k |] eqn:Hfind.
    + left. apply findIndex_split in Hfind
        as (before & f & after & -> & <- & Hf & Hbefore).
      exists target, before, f, after. rewrite updateAt_split.
      apply String.eqb_eq in Hf. now repeat split.
    + right. split; [| eexists; reflexivity].
      intros t [= <-]. now apply findIndex_none_find in Hfind.
  - right. split; [discriminate | eexists; reflexivity].
Qed.

Lemma loadFolders_item (b : Browser Plan) :
  foldersItem (snd (loadFolders Plan b)) = foldersItem b
  /\ quotaExceeded (snd (loadFolders Plan b)) = quotaExceeded b.
Proof.
  unfold loadFolders.
  destruct (foldersItem b) eqn:E; cbn; rewrite ?E; split; reflexivity.
Qed.

Lemma loadFolders_same_item (b b' : Browser Plan) :
  foldersItem b' = foldersItem b ->
  fst (loadFolders Plan b') = fst (loadFolders Plan b).
Proof.
  intros E. unfold loadFolders. rewrite E. now destruct (foldersItem b).
Qed.

(** A call that aims at a folder that exists. *)
Lemma saveTestPlanToFolder_found (plan : Plan) (folderId : option string)
      (b : Browser Plan) (target : string) (before after : list (Folder Plan))
      (f : Folder Plan) :
  targetFolder Plan folderId (fst (loadFolders Plan b)) = Some target ->
  fst (loadFolders Plan b) = before ++ f :: after ->
  id f = target ->
  forallb (fun g => negb (id g =? target)%string) before = true ->
  saveTestPlanToFolder Plan planId plan folderId b =
  (true, saveFolders Plan (before ++ withPlan Plan planId plan f :: after)
                     (snd (loadFolders Plan b))).
Proof.
  intros Htarget Hsplit Hid Hbefore. unfold saveTestPlanToFolder.
  destruct (loadFolders Plan b) as [folders b0]. cbn [fst snd] in *.
  rewrite Htarget, Hsplit.
  rewrite (findIndex_of_split _ before after f);
    [| subst target; apply String.eqb_refl | exact Hbefore].
  now rewrite updateAt_split.
Qed.

Lemma saveFolders_item (folders : list (Folder Plan)) (b : Browser Plan) :
  foldersItem (saveFolders Plan folders b) =
  if quotaExceeded b then foldersItem b else Stored folders.
Proof. unfold saveFolders. now destruct (quotaExceeded b) eqn:E. Qed.

Lemma saveFolders_quota (folders : list (Folder Plan)) (b : Browser Plan) :
  quotaExceeded (saveFolders Plan folders b) = quotaExceeded b.
Proof.
  unfold saveFolders. destruct (quotaExceeded b) eqn:E; cbn; congruence.
Qed.

(** X13.  A save succeeds exactly when the folder it aims at exists (the
    folder given, or the first folder when none is given).  When it does
    not exist the stored folders are untouched and the call returns
    [false]; with no folder at all and none given, every save fails. *)
Theorem save_fails_exactly_on_unknown_folder (plan : Plan)
        (folderId : option string) (b : Browser Plan) :
  let folders := fst (loadFolders Plan b) in
  let r := saveTestPlanToFolder Plan planId plan folderId b in
  (fst r = true <->
   exists target, targetFolder Plan folderId folders = Some target
                  /\ folderById Plan target folders <> None)
  /\ (fst r = false -> foldersItem (snd r) = foldersItem b)
  /\ (folders = [] -> folderId = None -> fst r = false).
Proof.
  cbn zeta.
  destruct (saveTestPlanToFolder_cases plan folderId b)
    as [(target & before & f & after & Htarget & Hsplit & Hid & Hbefore & Hsave)
       | (Hnone & line & Hsave)];
    rewrite Hsave; cbn [fst snd]; repeat split; try discriminate.
  - intros _. exists target. split; [exact Htarget |].
    unfold folderById. rewrite Hsplit.
    rewrite (find_of_split _ before after f); [discriminate | | exact Hbefore].
    subst target. apply String.eqb_refl.
  - intros Hempty. rewrite Hempty in Hsplit. now destruct before.
  - intros (target & Htarget & Hfound). now specialize (Hnone target Htarget).
  - intros _. apply loadFolders_item.
Qed.

(** X14.  After a save that succeeds on a store that accepts the write,
    loading gives back the folders as they were but for the folder aimed
    at (the first with that id): in it the plan is found under its id, and
    what is found under every other id is as before.  The folders keep
    their ids, names, badges and order. *)
Theorem saved_plan_is_loaded_back (plan : Plan) (folderId : option string)
        (b : Browser Plan) :
  quotaExceeded b = false ->
  fst (saveTestPlanToFolder Plan planId plan folderId b) = true ->
  let folders := fst (loadFolders Plan b) in
  let folders' := fst (loadFolders Plan (snd (saveTestPlanToFolder Plan planId plan folderId b))) in
  exists target before f f' after,
    targetFolder Plan folderId folders = Some target
    /\ folders = before ++ f :: after
    /\ folders' = before ++ f' :: after
    /\ folderById Plan target folders = Some f
    /\ folderById Plan target folders' = Some f'
    /\ (id f', name f', badge f') = (id f, name f, badge f)
    /\ planById Plan planId (planId plan) (plans f') = Some plan
    /\ forall pid, pid <> planId plan ->
                   planById Plan planId pid (plans f') = planById Plan planId pid (plans f).
Proof.
  intros Hquota Hok. cbn zeta.
  destruct (saveTestPlanToFolder_cases plan folderId b)
    as [(target & before & f & after & Htarget & Hsplit & Hid & Hbefore & Hsave)
       | (_ & line & Hsave)];
    rewrite Hsave in *; [| discriminate].
  exists target, before, f, (withPlan Plan planId plan f), after.
  destruct (loadFolders_item b) as [_ Hq].
  assert (Hloaded :
            fst (loadFolders Plan
                   (saveFolders Plan
                      (before ++ withPlan Plan planId plan f :: after)
                      (snd (loadFolders Plan b)))) =
            before ++ withPlan Plan planId plan f :: after).
  { unfold saveFolders. rewrite Hq, Hquota. reflexivity. }
  cbn [snd]. rewrite Hloaded.
  destruct (upsertPlan_lookup plan (plans f)) as [Hfound Hothers].
  assert (Hf : (id f =? target)%string = true)
    by (subst target; apply String.eqb_refl).
  repeat split; try assumption.
  - unfold folderById. rewrite Hsplit. now apply find_of_split.
  - unfold folderById. now apply find_of_split.
Qed.

(** X15.  Saving the same plan to the same folder a second time changes
    nothing in the stored folders. *)
Theorem saving_twice_is_saving_once (plan : Plan) (folderId : option string)
        (b : Browser Plan) :
  let b1 := snd (saveTestPlanToFolder Plan planId plan folderId b) in
  foldersItem (snd (saveTestPlanToFolder Plan planId plan folderId b1)) = foldersItem b1.
Proof.
  cbn zeta.
  destruct (loadFolders_item b) as [Hitem Hq].
  destruct (saveTestPlanToFolder_cases plan folderId b)
    as [(target & before & f & after & Htarget & Hsplit & Hid & Hbefore & Hsave)
       | (Hnone & line & Hsave)];
    rewrite Hsave; cbn [snd];
    match goal with
    | |- foldersItem (snd (saveTestPlanToFolder Plan planId plan folderId ?x)) = _ => set (b1 := x)
    end;
    destruct (loadFolders_item b1) as [Hitem1 Hq1].
  - destruct (quotaExceeded b) eqn:Hfull.
    + (* the browser refuses both writes *)
      assert (Hfull1 : quotaExceeded b1 = true)
        by (subst b1; now rewrite saveFolders_quota, Hq).
      destruct (saveTestPlanToFolder_cases plan folderId b1)
        as [(? & ? & ? & ? & _ & _ & _ & _ & Hs) | (_ & ? & Hs)];
        rewrite Hs; cbn [snd]; [| exact Hitem1].
      now rewrite saveFolders_item, Hq1, Hfull1.
    + (* the second call finds the folder where the first left it *)
      assert (Hstored :
                foldersItem b1 =
                Stored (before ++ withPlan Plan planId plan f :: after))
        by (subst b1; now rewrite saveFolders_item, Hq).
      assert (Hfull1 : quotaExceeded b1 = false)
        by (subst b1; now rewrite saveFolders_quota, Hq).
      assert (Hload1 :
                fst (loadFolders Plan b1) =
                before ++ withPlan Plan planId plan f :: after)
        by (unfold loadFolders; now rewrite Hstored).
      rewrite (saveTestPlanToFolder_found
                 plan folderId b1 target before after
                 (withPlan Plan planId plan f)).
      * cbn [snd]. rewrite saveFolders_item, Hq1, Hfull1, Hstored.
        now rewrite withPlan_twice.
      * rewrite Hload1. unfold targetFolder in *.
        destruct folderId as [[| c rest] |]; try exact Htarget;
          rewrite Hsplit in Htarget; destruct before; exact Htarget.
      * exact Hload1.
      * exact Hid.
      * exact Hbefore.
  - (* the first call found no folder: neither does the second *)
    assert (Hsame : fst (loadFolders Plan b1) = fst (loadFolders Plan b)).
    { apply loadFolders_same_item. subst b1. cbn. exact Hitem. }
    destruct (saveTestPlanToFolder_cases plan folderId b1)
      as [(t & bf & g & af & Ht & Hs & Hg & Hbf & _) | (_ & ? & Hs)].
    + exfalso. rewrite Hsame in Ht, Hs. specialize (Hnone t Ht).
      unfold folderById in Hnone. rewrite Hs in Hnone.
      rewrite (find_of_split _ bf af g) in Hnone;
        [discriminate | subst t; apply String.eqb_refl | exact Hbf].
    + rewrite Hs. cbn [snd]. exact Hitem1.
Qed.

(** X16.  In the folder aimed at, a save keeps the ids of the plans when
    the plan's id was there (the plan takes the place of the old one),
    and puts the id in front when it was not; so ids that were distinct
    stay distinct and the folder grows by one plan at most. *)
Theorem upsert_keeps_plan_ids_distinct (plan : Plan) (ps : list Plan) :
  (NoDup (map planId ps) -> NoDup (map planId (upsertPlan Plan planId plan ps)))
  /\ (planById Plan planId (planId plan) ps <> None ->
      map planId (upsertPlan Plan planId plan ps) = map planId ps)
  /\ (planById Plan planId (planId plan) ps = None ->
      map planId (upsertPlan Plan planId plan ps) = planId plan :: map planId ps).
Proof.
  destruct (upsertPlan_ids plan ps) as [[Hsome Hids] | [Hnone Hids]];
    repeat split; try congruence.
  intros Hnodup. rewrite Hids. constructor; [| exact Hnodup].
  intros Hin. apply in_map_iff in Hin as (p & Hp & Hin).
  unfold planById in Hnone.
  pose proof (find_none _ _ Hnone p Hin) as Hneq. cbn in Hneq.
  apply String.eqb_neq in Hneq. congruence.
Qed.

(** X17.  When the browser refuses the write, a save aimed at a folder
    that exists still returns [true]: the refusal is logged and the
    stored folders are what they were. *)
Theorem refused_write_is_reported_as_success (plan : Plan)
        (folderId : option string) (b : Browser Plan) (target : string) :
  quotaExceeded b = true ->
  targetFolder Plan folderId (fst (loadFolders Plan b)) = Some target ->
  folderById Plan target (fst (loadFolders Plan b)) <> None ->
  let r := saveTestPlanToFolder Plan planId plan folderId b in
  fst r = true
  /\ foldersItem (snd r) = foldersItem b
  /\ console (snd r) =
     console (snd (loadFolders Plan b))
     ++ ["Failed to save folders to localStorage: QuotaExceededError"%string].
Proof.
  intros Hfull Htarget Hfound. cbn zeta.
  destruct (saveTestPlanToFolder_cases plan folderId b)
    as [(t & before & f & after & Ht & Hsplit & Hid & Hbefore & Hsave)
       | (Hnone & line & Hsave)].
  - rewrite Hsave. cbn [fst snd].
    destruct (loadFolders_item b) as [Hitem Hq].
    unfold saveFolders. rewrite Hq, Hfull. cbn. now repeat split.
  - now specialize (Hnone target Htarget).
Qed.

End FolderStorage.

Section FolderStorageWitnesses.
Import PlanStorage.

(** Plans as pairs of an id and a name, on a browser with nothing
    stored. *)

Lemma save_fails_exactly_on_unknown_folder_witness :
  fst (saveTestPlanToFolder (string * string) fst ("plan_1", "Checkout")%string
         (Some "f_missing"%string) (mkBrowser Missing false [])) = false
  /\ foldersItem
       (snd (saveTestPlanToFolder (string * string) fst ("plan_1", "Checkout")%string
               (Some "f_missing"%string) (mkBrowser Missing false [])))
     = foldersItem (mkBrowser (Plan := string * string) Missing false []).
Proof.
  split; [reflexivity |].
  apply (save_fails_exactly_on_unknown_folder
           (string * string) fst ("plan_1", "Checkout")%string
           (Some "f_missing"%string) (mkBrowser Missing false [])).
  reflexivity.
Defined.

Lemma saved_plan_is_loaded_back_witness :
  let plan := ("plan_1", "Checkout")%string in
  let b := mkBrowser (Plan := string * string) Missing false [] in
  (quotaExceeded b = false
   /\ fst (saveTestPlanToFolder (string * string) fst plan None b) = true)
  /\ exists target before f f' after,
      targetFolder (string * string) None
                   (fst (loadFolders (string * string) b)) = Some target
      /\ fst (loadFolders (string * string) b) = before ++ f :: after
      /\ fst (loadFolders (string * string)
                (snd (saveTestPlanToFolder (string * string) fst plan None b)))
         = before ++ f' :: after
      /\ folderById (string * string) target
                    (fst (loadFolders (string * string) b)) = Some f
      /\ folderById (string * string) target
                    (fst (loadFolders (string * string)
                            (snd (saveTestPlanToFolder (string * string) fst
                                                       plan None b))))
         = Some f'
      /\ (id f', name f', badge f') = (id f, name f, badge f)
      /\ planById (string * string) fst (fst plan) (plans f') = Some plan
      /\ forall pid, pid <> fst plan ->
                     planById (string * string) fst pid (plans f') =
                     planById (string * string) fst pid (plans f).
Proof.
  cbn zeta. split; [split; reflexivity |].
  apply (saved_plan_is_loaded_back
           (string * string) fst ("plan_1", "Checkout")%string None
           (mkBrowser Missing false [])); reflexivity.
Defined.

Lemma upsert_keeps_plan_ids_distinct_witness :
  let ps := [("plan_a", "Login"); ("plan_b", "Search")]%string in
  NoDup (map fst ps)
  /\ NoDup (map fst (upsertPlan (string * string) fst
                                ("plan_b", "Search v2")%string ps)).
Proof.
  cbn zeta.
  assert (H : NoDup (map fst [("plan_a", "Login"); ("plan_b", "Search")]%string)).
  { repeat constructor; cbn; intuition discriminate. }
  split; [exact H |].
  apply (upsert_keeps_plan_ids_distinct
           (string * string) fst ("plan_b", "Search v2")%string
           [("plan_a", "Login"); ("plan_b", "Search")]%string).
  exact H.
Defined.

Lemma refused_write_is_reported_as_success_witness :
  let plan := ("plan_1", "Checkout")%string in
  let b := mkBrowser (Plan := string * string) Missing true [] in
  (quotaExceeded b = true
   /\ targetFolder (string * string) None
                   (fst (loadFolders (string * string) b)) = Some "f_design"%string
   /\ folderById (string * string) "f_design"%string
                 (fst (loadFolders (string * string) b)) <> None)
  /\ (fst (saveTestPlanToFolder (string * string) fst plan None b) = true
      /\ foldersItem (snd (saveTestPlanToFolder (string * string) fst plan None b))
         = foldersItem b
      /\ console (snd (saveTestPlanToFolder (string * string) fst plan None b)) =
         console (snd (loadFolders (string * string) b))
         ++ ["Failed to save folders to localStorage: QuotaExceededError"%string]).
Proof.
  cbn zeta. split.
  - repeat split; try reflexivity. cbn. discriminate.
  - apply (refused_write_is_reported_as_success
             (string * string) fst ("plan_1", "Checkout")%string None
             (mkBrowser Missing true []) "f_design"%string);
      try reflexivity.
    cbn. discriminate.
Defined.

End FolderStorageWitnesses.

(* ================================================================== *)
(** * Properties of the work planner's storage                         *)
(* ================================================================== *)

Section ScenarioRuns.
Import PlanStorage WorkPlanner TimelineEffect.

Variable ScenarioResult : Type.
Variable Defect : Type.
Variable BASE_DEFECTS : list Defect.

(** X18.  On a store that accepts the write, [appendScenarioRun] puts the
    run first and keeps the 50 newest: the list grows by one up to 50 and
    is never longer than 50, whatever was stored (nothing, or a text that
    does not parse, counts as the empty list).  When the browser refuses
    the write the exception leaves the function. *)
Theorem appendScenarioRun_keeps_newest_fifty
        (run : ScenarioResult) (s : Slot (list ScenarioResult)) :
  (full s = false ->
   exists s',
     appendScenarioRun ScenarioResult run s = Normal s'
     /\ loadScenarioRuns ScenarioResult s' =
        firstn 50 (run :: loadScenarioRuns ScenarioResult s)
     /\ hd_error (loadScenarioRuns ScenarioResult s') = Some run
     /\ List.length (loadScenarioRuns ScenarioResult s') =
        Nat.min 50 (S (List.length (loadScenarioRuns ScenarioResult s)))
     /\ (List.length (loadScenarioRuns ScenarioResult s') <= 50)%nat)
  /\ (full s = true ->
      appendScenarioRun ScenarioResult run s = Throw "QuotaExceededError").
Proof.
  unfold appendScenarioRun, saveScenarioRuns, saveList; cbn zeta. split.
  - intros ->. set (old := loadScenarioRuns ScenarioResult s).
    exists (mkSlot (Stored (firstn 50 (run :: old))) false).
    split; [reflexivity |].
    unfold loadScenarioRuns, loadList; cbn [item]. repeat split.
    + rewrite length_firstn. cbn [List.length]. reflexivity.
    + rewrite length_firstn. apply Nat.le_min_l.
  - now intros ->.
Qed.

End ScenarioRuns.

Section ScenarioRunsWitness.
Import PlanStorage WorkPlanner TimelineEffect.

Lemma appendScenarioRun_keeps_newest_fifty_witness :
  let s := mkSlot (Stored ["RUN-2"; "RUN-1"]%string) false in
  full s = false
  /\ exists s',
      appendScenarioRun string "RUN-3"%string s = Normal s'
      /\ loadScenarioRuns string s' =
         firstn 50 ("RUN-3"%string :: loadScenarioRuns string s)
      /\ hd_error (loadScenarioRuns string s') = Some "RUN-3"%string
      /\ List.length (loadScenarioRuns string s') =
         Nat.min 50 (S (List.length (loadScenarioRuns string s)))
      /\ (List.length (loadScenarioRuns string s') <= 50)%nat.
Proof.
  cbn zeta. split; [reflexivity |].
  apply (appendScenarioRun_keeps_newest_fifty
           string "RUN-3"%string
           (mkSlot (Stored ["RUN-2"; "RUN-1"]%string) false)).
  reflexivity.
Defined.

End ScenarioRunsWitness.

Section Tasks.
Import PlanStorage WorkPlanner TimelineEffect.

Lemma seeds_are_today (today : string) (startIdx need : nat) :
  filter (isToday today) (map (seedTask today startIdx) (seq 0 need)) =
  map (seedTask today startIdx) (seq 0 need).
Proof.
  apply forallb_filter_id. apply forallb_forall. intros t Ht.
  apply in_map_iff in Ht as (i & <- & _).
  unfold isToday, seedTask; cbn. apply String.eqb_refl.
Qed.

(** X19.  On a store that accepts the write, [ensureSeedTasksForToday]
    leaves at least [desiredTotal] tasks for today: it keeps every stored
    task, adds pending tasks for today after them, exactly as many as were
    missing, and a second call adds nothing.  When today already has
    enough tasks nothing is written, even to a store that refuses
    writes. *)
Theorem ensureSeedTasksForToday_tops_up (today : string) (desiredTotal : nat)
        (s : Slot (list Task)) :
  let todayCount := fun slot =>
    List.length (filter (isToday today) (loadTasks slot)) in
  (full s = false ->
   exists s' seed,
     ensureSeedTasksForToday today desiredTotal s = Normal s'
     /\ loadTasks s' = loadTasks s ++ seed
     /\ Forall (fun t => status t = PENDING /\ dayKey t = today) seed
     /\ todayCount s' = Nat.max (todayCount s) desiredTotal
     /\ ensureSeedTasksForToday today desiredTotal s' = Normal s')
  /\ ((desiredTotal <= todayCount s)%nat ->
      ensureSeedTasksForToday today desiredTotal s = Normal s).
Proof.
  cbn zeta. split.
  - intros Hfull. unfold ensureSeedTasksForToday at 1; cbn zeta.
    set (existing := loadTasks s).
    set (count := List.length (filter (isToday today) existing)).
    destruct (Nat.leb_spec desiredTotal count) as [Hle | Hlt].
    + (* enough tasks already *)
      exists s, []. rewrite app_nil_r. fold existing. fold count.
      repeat split; [constructor | lia |].
      unfold ensureSeedTasksForToday; cbn zeta. fold existing. fold count.
      apply Nat.leb_le in Hle. now rewrite Hle.
    + (* the missing tasks are added *)
      set (seed := map (seedTask today count) (seq 0 (desiredTotal - count))).
      unfold saveTasks, saveList. rewrite Hfull.
      exists (mkSlot (Stored (existing ++ seed)) false), seed.
      assert (Hcount :
                List.length (filter (isToday today) (existing ++ seed)) =
                desiredTotal).
      { rewrite filter_app, length_app. fold count. subst seed.
        rewrite seeds_are_today, length_map, length_seq. lia. }
      repeat split.
      * apply Forall_forall. intros t Ht. subst seed.
        apply in_map_iff in Ht as (i & <- & _). split; reflexivity.
      * unfold loadTasks, loadList; cbn [item]. rewrite Hcount. lia.
      * unfold ensureSeedTasksForToday; cbn zeta.
        unfold loadTasks, loadList; cbn [item]. rewrite Hcount.
        now rewrite Nat.leb_refl.
  - intros Hle. unfold ensureSeedTasksForToday; cbn zeta.
    apply Nat.leb_le in Hle. now rewrite Hle.
Qed.

Lemma ensureSeedTasksForToday_tops_up_witness :
  let s := mkSlot (Stored [mkTask "SCN-001" "Scenario 1" DONE "2026-11-02";
                           mkTask "SCN-007" "Old" PENDING "2026-11-01"]%string)
                  false in
  full s = false
  /\ exists s' seed,
      ensureSeedTasksForToday "2026-11-02" 13 s = Normal s'
      /\ loadTasks s' = loadTasks s ++ seed
      /\ Forall (fun t => status t = PENDING /\ dayKey t = "2026-11-02"%string)
                seed
      /\ List.length (filter (isToday "2026-11-02") (loadTasks s')) =
         Nat.max (List.length (filter (isToday "2026-11-02") (loadTasks s))) 13
      /\ ensureSeedTasksForToday "2026-11-02" 13 s' = Normal s'.
Proof.
  cbn zeta. split; [reflexivity |].
  apply (ensureSeedTasksForToday_tops_up
           "2026-11-02" 13
           (mkSlot (Stored [mkTask "SCN-001" "Scenario 1" DONE "2026-11-02";
                            mkTask "SCN-007" "Old" PENDING "2026-11-01"]%string)
                   false)).
  reflexivity.
Defined.





End Tasks.

Section DefectsList.
Import PlanStorage WorkPlanner TimelineEffect.

Variable Defect : Type.
Variable BASE_DEFECTS : list Defect.

(** X21.  The list of all defects always ends with the base defects.
    After [appendExtraDefect] on a store that accepts the write, the new
    defect is the first of the list, the logged defects before the base
    ones are the 100 newest, and no base defect is lost. *)
Theorem getAllDefects_keeps_base_defects
        (defect : Defect) (s : Slot (list Defect)) :
  (exists extra, getAllDefects Defect BASE_DEFECTS s = extra ++ BASE_DEFECTS)
  /\ (List.length BASE_DEFECTS
      <= List.length (getAllDefects Defect BASE_DEFECTS s))%nat
  /\ (full s = false ->
      exists s',
        appendExtraDefect Defect defect s = Normal s'
        /\ getAllDefects Defect BASE_DEFECTS s' =
           firstn 100 (defect :: loadExtraDefects Defect s) ++ BASE_DEFECTS
        /\ hd_error (getAllDefects Defect BASE_DEFECTS s') = Some defect
        /\ (List.length (getAllDefects Defect BASE_DEFECTS s')
            <= 100 + List.length BASE_DEFECTS)%nat).
Proof.
  repeat split.
  - now exists (loadExtraDefects Defect s).
  - unfold getAllDefects. rewrite length_app. lia.
  - intros Hfull. unfold appendExtraDefect, saveExtraDefects, saveList; cbn zeta.
    rewrite Hfull. set (old := loadExtraDefects Defect s).
    exists (mkSlot (Stored (firstn 100 (defect :: old))) false).
    split; [reflexivity |].
    unfold getAllDefects, loadExtraDefects, loadList; cbn [item].
    repeat split.
    rewrite length_app, length_firstn. lia.
Qed.

End DefectsList.

Section StopwatchLabel.
Import WorkPlanner TwoDigits.

Lemma digitChar_inj (a b : Z) :
  0 <= a < 10 -> 0 <= b < 10 -> digitChar a = digitChar b -> a = b.
Proof.
  intros Ha Hb E. unfold digitChar in E.
  apply (f_equal nat_of_ascii) in E.
  rewrite !nat_ascii_embedding in E by lia. lia.
Qed.

Lemma twoDigits_inj (a b : Z) :
  0 <= a < 100 -> 0 <= b < 100 -> twoDigits a = twoDigits b -> a = b.
Proof.
  intros Ha Hb E. unfold twoDigits in E. injection E as E1 E0.
  apply digitChar_inj in E1; [| Z.div_mod_to_equations; lia ..].
  apply digitChar_inj in E0; [| Z.div_mod_to_equations; lia ..].
  Z.div_mod_to_equations; lia.
Qed.

Lemma formatMMSS_below_100_minutes (s : Z) :
  0 <= s < 6000 ->
  formatMMSS s = append (twoDigits (s / 60)) (append ":" (twoDigits (s mod 60))).
Proof.
  intros Hs. unfold formatMMSS; cbn zeta.
  rewrite Z.rem_mod_nonneg by lia.
  rewrite !padStart_two_digits; [reflexivity | |];
    Z.div_mod_to_equations; lia.
Qed.

(** X22.  For a time below 100 minutes the stopwatch label is the minutes
    and the seconds on two digits each, five characters in all, and two
    different times never get the same label. *)
Theorem formatMMSS_labels_are_distinct (s s' : Z) :
  0 <= s < 6000 -> 0 <= s' < 6000 ->
  formatMMSS s = append (twoDigits (s / 60)) (append ":" (twoDigits (s mod 60)))
  /\ String.length (formatMMSS s) = 5%nat
  /\ (formatMMSS s = formatMMSS s' -> s = s').
Proof.
  intros Hs Hs'.
  rewrite (formatMMSS_below_100_minutes s Hs).
  rewrite (formatMMSS_below_100_minutes s' Hs').
  repeat split.
  intros E. unfold twoDigits in E. cbn [append] in E.
  injection E as E1 E2 E3 E4.
  assert (Hm : s / 60 = s' / 60).
  { apply twoDigits_inj; [Z.div_mod_to_equations; lia ..|].
    unfold twoDigits. now rewrite E1, E2. }
  assert (Hsec : s mod 60 = s' mod 60).
  { apply twoDigits_inj; [Z.div_mod_to_equations; lia ..|].
    unfold twoDigits. now rewrite E3, E4. }
  Z.div_mod_to_equations; lia.
Qed.

Lemma formatMMSS_labels_are_distinct_witness :
  (0 <= 65 < 6000 /\ 0 <= 125 < 6000)
  /\ (formatMMSS 65 =
      append (twoDigits (65 / 60)) (append ":" (twoDigits (65 mod 60)))
      /\ String.length (formatMMSS 65) = 5%nat
      /\ (formatMMSS 65 = formatMMSS 125 -> 65 = 125)).
Proof.
  split; [lia |].
  apply (formatMMSS_labels_are_distinct 65 125); lia.
Defined.

End StopwatchLabel.

(* ================================================================== *)
(** * The columns of the board                                         *)
(* ================================================================== *)

Section BoardColumns.
Import PlanStorage PlanBoard.

Variable Plan : Type.
Variable createdAtMs : Plan -> Z.
Variable status : Plan -> option string.
Variable localDate : Z -> JsDate.Date.


Lemma allPlans_In (folders : list (Folder Plan)) (p : Plan * string) :
  In p (allPlans Plan folders) <->
  exists folder, In folder folders /\ In (fst p) (plans folder)
                 /\ snd p = name folder.
Proof.
  unfold allPlans. rewrite in_flat_map. split.
  - intros (folder & Hfolder & Hp). apply in_map_iff in Hp as (plan & <- & Hplan).
    exists folder. now repeat split.
  - intros (folder & Hfolder & Hplan & Hname). exists folder.
    split; [exact Hfolder |]. apply in_map_iff. exists (fst p).
    split; [| exact Hplan]. destruct p; cbn in *. now subst.
Qed.

(** X23.  The board shows a plan at most once: the three columns are
    filled from the plans created in the selected month, a plan goes to
    Draft when its status is "Draft" or missing, to Approved or Signed-off
    when its status is that word, and to no column when its status is any
    other text; the sizes of the columns and the number of those other
    plans add up to the number of plans of the month. *)
Theorem board_columns_split_the_plans
        (selectedYear selectedMonth : Z) (folders : list (Folder Plan)) :
  let filtered := filteredFolders Plan createdAtMs localDate selectedYear selectedMonth folders in
  let all := allPlans Plan filtered in
  let c := plansByStatus Plan status filtered in
  (forall p, In p all <->
             exists folder,
               In folder folders /\ In (fst p) (plans folder)
               /\ snd p = name folder
               /\ createdIn Plan createdAtMs localDate
                           selectedYear selectedMonth (fst p) = true)
  /\ (forall p, In p (Draft Plan c) <->
                In p all /\ (status (fst p) = Some "Draft"%string
                             \/ status (fst p) = Some EmptyString
                             \/ status (fst p) = None))
  /\ (forall p, In p (Approved Plan c) <->
                In p all /\ status (fst p) = Some "Approved"%string)
  /\ (forall p, In p (Signed_off Plan c) <->
                In p all /\ status (fst p) = Some "Signed-off"%string)
  /\ (List.length (Draft Plan c) + List.length (Approved Plan c)
      + List.length (Signed_off Plan c)
      + List.length (filter (otherStatus Plan status) all))%nat = List.length all.
Proof.
  cbn zeta. split; [| split; [| split; [| split]]].
  - intros p. split.
    + intros Hin.
      apply allPlans_In in Hin as (folder' & Hfolder & Hplan & Hname).
      unfold filteredFolders in Hfolder.
      apply in_map_iff in Hfolder as (folder & <- & Hfolder).
      cbn [plans name] in *. apply filter_In in Hplan as [Hplan Hcreated].
      exists folder. now repeat split.
    + intros (folder & Hfolder & Hplan & Hname & Hcreated).
      apply allPlans_In.
      exists (mkFolder (id folder) (name folder) (badge folder)
                       (filter (createdIn Plan createdAtMs localDate
                                          selectedYear selectedMonth)
                               (plans folder))).
      split; [| split].
      * unfold filteredFolders. apply in_map_iff. now exists folder.
      * cbn [plans]. apply filter_In. now split.
      * exact Hname.
  - intros p. unfold plansByStatus; cbn [Draft]. rewrite filter_In.
    apply and_iff_compat_l. unfold statusIs, statusMissing.
    destruct (status (fst p)) as [[| ch rest] |].
    + cbn. intuition.
    + rewrite orb_false_r. split.
      * intros Hst. apply String.eqb_eq in Hst. left. now rewrite Hst.
      * intros [E | [E | E]]; try discriminate.
        inversion E. reflexivity.
    + cbn. intuition.
  - intros p. unfold plansByStatus; cbn [Approved]. rewrite filter_In.
    apply and_iff_compat_l. unfold statusIs.
    destruct (status (fst p)) as [st |]; [| split; discriminate].
    split.
    + intros Hst. apply String.eqb_eq in Hst. now subst.
    + intros [= ->]. reflexivity.
  - intros p. unfold plansByStatus; cbn [Signed_off]. rewrite filter_In.
    apply and_iff_compat_l. unfold statusIs.
    destruct (status (fst p)) as [st |]; [| split; discriminate].
    split.
    + intros Hst. apply String.eqb_eq in Hst. now subst.
    + intros [= ->]. reflexivity.
  - unfold plansByStatus; cbn [Draft Approved Signed_off].
    induction (allPlans Plan (filteredFolders Plan createdAtMs localDate selectedYear selectedMonth folders))
      as [| p all IH]; [reflexivity |].
    cbn [filter].
    match type of IH with
    | (List.length ?a + List.length ?b + List.length ?c + List.length ?d)%nat
      = _ =>
        generalize dependent a; intros lD;
        generalize dependent b; intros lA;
        generalize dependent c; intros lS;
        generalize dependent d; intros lO IH
    end.
    unfold otherStatus, statusIs, statusMissing.
    destruct (status (fst p)) as [st |]; [| cbn; lia].
    destruct (String.eqb_spec st "Draft") as [-> | HD]; [cbn; lia |].
    destruct (String.eqb_spec st "Approved") as [-> | HA]; [cbn; lia |].
    destruct (String.eqb_spec st "Signed-off") as [-> | HS]; [cbn; lia |].
    destruct st; cbn; lia.
Qed.

End BoardColumns.

Section DefectsListWitness.
Import PlanStorage WorkPlanner TimelineEffect.

Lemma getAllDefects_keeps_base_defects_witness :
  let base := ["BUG-431"; "BUG-452"]%string in
  let s := mkSlot (Stored ["BUG-900"]%string) false in
  full s = false
  /\ exists s',
      appendExtraDefect string "BUG-901"%string s = Normal s'
      /\ getAllDefects string base s' =
         firstn 100 ("BUG-901"%string :: loadExtraDefects string s) ++ base
      /\ hd_error (getAllDefects string base s') = Some "BUG-901"%string
      /\ (List.length (getAllDefects string base s')
          <= 100 + List.length base)%nat.
Proof.
  cbn zeta. split; [reflexivity |].
  apply (getAllDefects_keeps_base_defects
           string ["BUG-431"; "BUG-452"]%string "BUG-901"%string
           (mkSlot (Stored ["BUG-900"]%string) false)).
  reflexivity.
Defined.

End DefectsListWitness.

(* ================================================================== *)
(** * Properties of [clsx]                                             *)
(* ================================================================== *)

Section ClassNameLists.
Import ClassNames.

Lemma keepTruthy_app (xs ys : list ClassValue) :
  keepTruthy (xs ++ ys) = keepTruthy xs ++ keepTruthy ys.
Proof.
  induction xs as [| x xs IH]; cbn [app keepTruthy]; [reflexivity |].
  destruct (truthy x); cbn [app]; now rewrite IH.
Qed.

Lemma keepTruthy_nonempty (xs : list ClassValue) :
  Forall (fun s => s <> EmptyString) (keepTruthy xs).
Proof.
  induction xs as [| x xs IH]; cbn [keepTruthy]; [constructor |].
  destruct x as [[| c rest] |]; cbn [truthy]; try exact IH.
  constructor; [discriminate | exact IH].
Qed.

Lemma append_assoc (a b c : string) :
  append (append a b) c = append a (append b c).
Proof. induction a as [| ch a IH]; cbn; [| rewrite IH]; reflexivity. Qed.

Lemma join_app (ps qs : list string) :
  ps <> [] -> qs <> [] ->
  join (ps ++ qs) = append (join ps) (append " " (join qs)).
Proof.
  intros Hps Hqs. induction ps as [| p ps IH]; [congruence |].
  destruct ps as [| p' ps].
  - cbn [app join]. destruct qs; [congruence | reflexivity].
  - change ((p :: p' :: ps) ++ qs) with (p :: ((p' :: ps) ++ qs)).
    cbn [join]. cbn [app]. fold (join ((p' :: ps) ++ qs)).
    change (p' :: ps ++ qs) with ((p' :: ps) ++ qs).
    rewrite IH by discriminate.
    cbn [join]. now rewrite !append_assoc.
Qed.

Lemma join_empty_iff (ps : list string) :
  Forall (fun s => s <> EmptyString) ps ->
  (join ps = EmptyString <-> ps = []).
Proof.
  intros Hall. split; [| now intros ->].
  destruct ps as [| p ps]; [reflexivity |].
  inversion Hall as [| ? ? Hp _]; subst.
  destruct p as [| c rest]; [congruence |].
  destruct ps; cbn; discriminate.
Qed.

Lemma truthy_Text_clsx (xs : list ClassValue) :
  truthy (Text (clsx xs)) =
  match keepTruthy xs with
  | [] => None
  | _ :: _ => Some (clsx xs)
  end.
Proof.
  pose proof (join_empty_iff _ (keepTruthy_nonempty xs)) as Hiff.
  unfold clsx in *. destruct (keepTruthy xs) as [| p ps] eqn:E.
  - reflexivity.
  - destruct (join (p :: ps)) eqn:Ej.
    + pose proof (proj1 Hiff eq_refl). discriminate.
    + reflexivity.
Qed.

(** X24.  [clsx] drops what is falsy (false, null, undefined, the empty
    text) and puts single spaces between the rest.  A truthy first
    argument is followed by one space and the [clsx] of the others when
    one of them is truthy, and stands alone when none is; a falsy argument
    of either kind, put anywhere, changes nothing; the result is empty
    exactly when no argument is truthy; and a list of arguments can be
    built from parts, as [clsx(...xs, ...ys)] is
    [clsx(clsx(...xs), clsx(...ys))]. *)
Theorem clsx_composes (xs ys : list ClassValue) (c : ascii) (rest : string) :
  clsx [] = EmptyString
  /\ clsx (Text (String c rest) :: xs) =
     match keepTruthy xs with
     | [] => String c rest
     | _ :: _ => append (String c rest) (append " " (clsx xs))
     end
  /\ clsx (xs ++ [Falsy] ++ ys) = clsx (xs ++ ys)
  /\ clsx (xs ++ [Text EmptyString] ++ ys) = clsx (xs ++ ys)
  /\ (clsx xs = EmptyString <-> keepTruthy xs = [])
  /\ clsx (xs ++ ys) = clsx [Text (clsx xs); Text (clsx ys)].
Proof.
  repeat apply conj.
  - reflexivity.
  - unfold clsx. cbn [keepTruthy truthy].
    now destruct (keepTruthy xs).
  - unfold clsx. now rewrite !keepTruthy_app.
  - unfold clsx. now rewrite !keepTruthy_app.
  - apply join_empty_iff, keepTruthy_nonempty.
  - apply join_empty_iff, keepTruthy_nonempty.
  - unfold clsx at 1 2. cbn [keepTruthy].
    rewrite !truthy_Text_clsx, keepTruthy_app.
    destruct (keepTruthy xs) as [| p ps] eqn:Ex;
      destruct (keepTruthy ys) as [| q qs] eqn:Ey.
    + reflexivity.
    + cbn [app]. unfold clsx. now rewrite Ey.
    + rewrite app_nil_r. unfold clsx. now rewrite Ex.
    + rewrite join_app by discriminate. unfold clsx. rewrite Ex, Ey.
      reflexivity.
Qed.

(** The class list of an outline tab, the active one and another. *)
Example clsx_of_a_tab :
  clsx [Text "shrink-0 rounded"; Falsy; Text ""; Text "bg-white/70"]
  = "shrink-0 rounded bg-white/70"%string.
Proof. reflexivity. Qed.

End ClassNameLists.

(* ================================================================== *)
(** * Properties of the defect counts                                  *)
(* ================================================================== *)

Section DefectCountsProperties.
Import DefectCounts.

Lemma mapGet_mapSet (k k' : string) (n : nat) (m : CountMap) :
  mapGet k' (mapSet k n m) = if String.eqb k k' then Some n else mapGet k' m.
Proof.
  induction m as [| [k0 n0] m IH]; cbn [mapSet mapGet].
  - reflexivity.
  - destruct (String.eqb_spec k0 k) as [-> | Hne]; cbn [mapGet].
    + destruct (String.eqb_spec k k'); reflexivity.
    + rewrite IH. destruct (String.eqb_spec k0 k') as [-> | Hne'];
        [| reflexivity].
      destruct (String.eqb_spec k k'); [congruence | reflexivity].
Qed.

Lemma mapGet_None_keys (k : string) (m : CountMap) :
  mapGet k m = None <-> ~ In k (map fst m).
Proof.
  induction m as [| [k0 n0] m IH]; cbn [mapGet map fst In]; [tauto |].
  destruct (String.eqb_spec k0 k) as [-> | Hne].
  - split; [discriminate | tauto].
  - rewrite IH. tauto.
Qed.

Lemma mapSet_keys (k : string) (n : nat) (m : CountMap) :
  map fst (mapSet k n m) =
  match mapGet k m with
  | Some _ => map fst m
  | None => map fst m ++ [k]
  end.
Proof.
  induction m as [| [k0 n0] m IH]; cbn [mapSet mapGet map fst app];
    [reflexivity |].
  destruct (String.eqb_spec k0 k) as [-> | Hne]; cbn [map fst];
    [reflexivity |].
  rewrite IH. now destruct (mapGet k m).
Qed.

Lemma mapSet_sum (k : string) (n : nat) (m : CountMap) :
  (list_sum (map snd (mapSet k n m)) + getOrZero k m)%nat =
  (list_sum (map snd m) + n)%nat.
Proof.
  unfold getOrZero, list_sum.
  induction m as [| [k0 n0] m IH];
    cbn [mapSet mapGet map snd fold_right]; [lia |].
  destruct (String.eqb_spec k0 k) as [-> | Hne];
    cbn [map snd fold_right]; lia.
Qed.

Lemma In_mapGet (k : string) (n : nat) (m : CountMap) :
  NoDup (map fst m) -> (In (k, n) m <-> mapGet k m = Some n).
Proof.
  induction m as [| [k0 n0] m IH]; cbn [map fst mapGet In]; intros Hnd.
  - split; [tauto | discriminate].
  - inversion Hnd as [| ? ? Hnotin Hnd']; subst.
    destruct (String.eqb_spec k0 k) as [-> | Hne].
    + split.
      * intros [[= ->] | Hin]; [reflexivity |].
        exfalso. apply Hnotin. now apply (in_map fst) in Hin.
      * intros [= ->]. now left.
    + rewrite <- (IH Hnd'). split; [| tauto].
      intros [[= -> _] | Hin]; [congruence | exact Hin].
Qed.

Section Tally.
Variable Defect : Type.
Variable key : Defect -> string.

(** What the loop leaves in the map. *)
Lemma tally_spec (items : list Defect) (m : CountMap) :
  NoDup (map fst m) ->
  NoDup (map fst (tally Defect key items m))
  /\ list_sum (map snd (tally Defect key items m)) =
     (list_sum (map snd m) + List.length items)%nat
  /\ (forall k, getOrZero k (tally Defect key items m) =
                (getOrZero k m + occurrences Defect key k items)%nat)
  /\ (forall k, In k (map fst (tally Defect key items m)) <->
                In k (map fst m) \/ In k (map key items)).
Proof.
  revert m. induction items as [| d items IH]; intros m Hnd.
  - unfold tally, occurrences; cbn [fold_left filter List.length map].
    split; [exact Hnd | split; [lia | split]].
    + intros k. lia.
    + intros k. cbn [In]. tauto.
  - change (tally Defect key (d :: items) m)
      with (tally Defect key items
                  (mapSet (key d) (getOrZero (key d) m + 1) m)).
    set (m' := mapSet (key d) (getOrZero (key d) m + 1) m).
    assert (Hkeys' : map fst m' =
                     match mapGet (key d) m with
                     | Some _ => map fst m
                     | None => map fst m ++ [key d]
                     end) by apply mapSet_keys.
    assert (Hnd' : NoDup (map fst m')).
    { rewrite Hkeys'.
      destruct (mapGet (key d) m) eqn:Hget; [exact Hnd |].
      apply NoDup_app; repeat split; try exact Hnd.
      - repeat constructor. intros [].
      - intros x Hx [<- | []]. now apply mapGet_None_keys in Hget. }
    destruct (IH m' Hnd') as (Hnodup & Hsum & Hget & Hkeys).
    split; [exact Hnodup | split; [| split]].
    + rewrite Hsum. subst m'.
      pose proof (mapSet_sum (key d) (getOrZero (key d) m + 1) m).
      cbn [List.length]. lia.
    + intros k. rewrite Hget. subst m'. unfold getOrZero at 1.
      rewrite mapGet_mapSet. unfold occurrences. cbn [filter].
      destruct (String.eqb_spec (key d) k) as [-> | Hne];
        cbn [List.length]; [lia |]. fold (getOrZero k m). lia.
    + intros k. rewrite Hkeys, Hkeys'. cbn [map In].
      destruct (mapGet (key d) m) eqn:Hg.
      * split; [tauto |]. intros [Hin | [<- | Hin]]; [tauto | | tauto].
        left. destruct (in_dec string_dec (key d) (map fst m)) as [Hi | Hni];
          [exact Hi |].
        apply mapGet_None_keys in Hni. congruence.
      * rewrite in_app_iff. cbn [In]. tauto.
Qed.

End Tally.

Lemma insertDesc_perm (x : string * nat) (sorted : CountMap) :
  Permutation (insertDesc x sorted) (x :: sorted).
Proof.
  induction sorted as [| y rest IH]; cbn [insertDesc]; [reflexivity |].
  destruct (snd y <? snd x)%nat; [reflexivity |].
  rewrite IH. apply perm_swap.
Qed.

Lemma insertDesc_sorted (x : string * nat) (sorted : CountMap) :
  Sorted notLess sorted -> Sorted notLess (insertDesc x sorted).
Proof.
  induction sorted as [| y rest IH]; cbn [insertDesc]; intros Hs.
  - repeat constructor.
  - inversion Hs as [| ? ? Hrest Hhd]; subst.
    destruct (Nat.ltb_spec (snd y) (snd x)) as [Hlt | Hge].
    + constructor; [exact Hs |]. constructor. unfold notLess. lia.
    + constructor; [now apply IH |].
      destruct rest as [| z rest]; cbn [insertDesc].
      * constructor. exact Hge.
      * inversion Hhd; subst.
        destruct (snd z <? snd x)%nat; constructor; assumption.
Qed.

Lemma sortDesc_spec (entries : CountMap) :
  Permutation (sortDesc entries) entries /\ Sorted notLess (sortDesc entries).
Proof.
  unfold sortDesc.
  assert (H : forall acc,
             Sorted notLess acc ->
             Permutation (fold_left (fun s x => insertDesc x s) entries acc)
                         (acc ++ entries)
             /\ Sorted notLess (fold_left (fun s x => insertDesc x s) entries acc)).
  { induction entries as [| x entries IH]; intros acc Hacc; cbn [fold_left].
    - rewrite app_nil_r. now split.
    - destruct (IH (insertDesc x acc) (insertDesc_sorted x acc Hacc))
        as [Hperm Hsorted].
      split; [| exact Hsorted].
      rewrite Hperm, insertDesc_perm. apply Permutation_middle. }
  apply (H [] (Sorted_nil _)).
Qed.

Lemma list_sum_perm (xs ys : list nat) :
  Permutation xs ys -> list_sum xs = list_sum ys.
Proof.
  induction 1 as [| x xs ys _ IH | x y xs | xs ys zs _ IH1 _ IH2];
    cbn [list_sum fold_right] in *; unfold list_sum in *; lia.
Qed.

Section CountsByItems.
Variable Defect : Type.
Variable key : Defect -> string.

Lemma occurrences_pos (k : string) (items : list Defect) :
  In k (map key items) <-> (0 < occurrences Defect key k items)%nat.
Proof.
  unfold occurrences. induction items as [| d items IH]; cbn [map In filter].
  - cbn. split; [tauto | lia].
  - destruct (String.eqb_spec (key d) k) as [-> | Hne]; cbn [List.length].
    + split; [lia | tauto].
    + rewrite <- IH. tauto.
Qed.

(** X25.  [countsBy] counts every item once: each key of the items has
    one entry, which holds the number of items with that key; no other
    key has an entry; the counts add up to the number of items; and the
    entries come with the larger counts first. *)
Theorem countsBy_counts_every_item (items : list Defect) :
  let r := countsBy Defect key items in
  list_sum (map snd r) = List.length items
  /\ NoDup (map fst r)
  /\ Sorted notLess r
  /\ forall k n, In (k, n) r <->
                 n = occurrences Defect key k items /\ (0 < n)%nat.
Proof.
  cbn zeta. unfold countsBy.
  destruct (tally_spec Defect key items [] (NoDup_nil _))
    as (Hnodup & Hsum & Hget & Hkeys).
  destruct (sortDesc_spec (tally Defect key items [])) as [Hperm Hsorted].
  set (t := tally Defect key items []) in *.
  split; [| split; [| split]].
  - rewrite (list_sum_perm _ _ (Permutation_map snd Hperm)), Hsum. reflexivity.
  - apply (Permutation_NoDup (Permutation_sym (Permutation_map fst Hperm))).
    exact Hnodup.
  - exact Hsorted.
  - intros k n.
    assert (Hin : In (k, n) (sortDesc t) <-> In (k, n) t).
    { split; apply Permutation_in; [exact Hperm | now apply Permutation_sym]. }
    rewrite Hin, (In_mapGet k n t Hnodup).
    specialize (Hget k). unfold getOrZero in Hget. cbn [mapGet] in Hget.
    specialize (Hkeys k). cbn [map In] in Hkeys.
    rewrite occurrences_pos in Hkeys.
    split.
    + intros Hsome. rewrite Hsome in Hget.
      assert (Hk : In k (map fst t)).
      { destruct (in_dec string_dec k (map fst t)) as [Hi | Hni]; [exact Hi |].
        apply mapGet_None_keys in Hni. congruence. }
      apply Hkeys in Hk. destruct Hk as [[] | Hk]. lia.
    + intros [-> Hpos].
      destruct (mapGet k t) as [n' |] eqn:Hg; [f_equal; lia |].
      apply mapGet_None_keys in Hg. exfalso. apply Hg, Hkeys. now right.
Qed.

End CountsByItems.

(** Five defects counted by severity. *)
Example countsBy_severity :
  countsBy string (fun severity => severity)
           ["High"; "Low"; "Medium"; "High"; "Medium"; "High"]%string
  = [("High", 3); ("Medium", 2); ("Low", 1)]%string%nat.
Proof. reflexivity. Qed.

End DefectCountsProperties.
